(** * GroupBuy Bot, ML analytics: feature extraction, dataset builders,
      heuristic predictor, training orchestrator and the two API actions.

    Shallow embedding of [core/ml/plexe_service.py] and [core/ml/views.py].

    Python numbers are modelled as they are at run time: [int] is an unbounded
    integer ([Z]), [float] is an IEEE 754 binary64 value (Rocq's primitive
    [float], specified by [SpecFloat] through [FloatAxioms]).  Dictionaries are
    finite maps from strings ([gmap string _]); exceptions are an explicit
    result type. *)

From Stdlib Require Import ZArith Lia Bool List.
From Stdlib Require Import Floats Uint63.
From stdpp Require Import gmap strings list fin_maps.

Set Warnings "-inexact-float,-clear-no-such-hyp,-abstract-large-number".
Local Open Scope Z_scope.

(* ===================================================================== *)
(** * 1. Python values, exceptions and the numeric operations used       *)
(* ===================================================================== *)

Module Py.

(** The values that occur in feature mappings and dataset rows. *)
Inductive pyval :=
| PNone
| PStr (s : string)
| PInt (z : Z)
| PFloat (x : float).

(** The exception classes the modelled code can raise; the last one
  stands for the errors of the database layer. *)
Inductive exn :=
| TypeError
| ZeroDivisionError
| OverflowError
| ValueError
| DatabaseError.

(** Outcome of a Python expression: a value or a raised exception. *)
Inductive res (A : Type) :=
| Ok (a : A)
| Raise (e : exn).
Arguments Ok {A} a.
Arguments Raise {A} e.

#[global] Instance res_ret : MRet res := fun A a => Ok a.
#[global] Instance res_bind : MBind res := fun A B k c =>
match c with
| Ok a => k a
| Raise e => Raise e
end.

Definition is_ok {A : Type} (c : res A) : bool :=
match c with Ok _ => true | Raise _ => false end.

(** [dict.get(key, default)]. *)
Definition get {V : Type} (d : gmap string V) (key : string) (default : V) : V :=
match d !! key with
| Some v => v
| None => default
end.

(** Truth value of an object ([bool(v)]): [None], [""], [0], [0.0] and
  [-0.0] are falsy; NaN is truthy. *)
Definition truthy (v : pyval) : bool :=
match v with
| PNone => false
| PStr s => negb (String.eqb s "")
| PInt z => negb (z =? 0)
| PFloat x => negb (PrimFloat.eqb x 0)
end.

(** [a or b]. *)
Definition or_ (a b : pyval) : pyval := if truthy a then a else b.

(** ** Conversions between [int] and [float] *)

(** The least magnitude at which [float(int)] overflows: the midpoint between
  the largest double, [2^1024 - 2^971], and [2^1024]. *)
Definition float_overflow_threshold : Z := 2 ^ 1024 - 2 ^ 970.

(** Nearest integer to [num / den] ([den > 0]), ties to even. *)
Definition round_half_even (num den : Z) : Z :=
let q := num / den in
let r := num mod den in
match 2 * r ?= den with
| Lt => q
| Gt => q + 1
| Eq => if Z.even q then q else q + 1
end.

(** A positive integer rounded to 53 significant bits, ties to even, as
  mantissa and binary exponent: the integer is shifted so that the
  mantissa has exactly 53 bits, and a rounding that carries into a 54th
  bit is renormalised. *)
Definition round_to_53_bits (p : positive) : Z * Z :=
let bit_length := Z.pos (digits2_pos p) in
if bit_length <=? 53 then (Z.pos p * 2 ^ (53 - bit_length), bit_length - 53)
else
  let shift := bit_length - 53 in
  let mantissa := round_half_even (Z.pos p) (2 ^ shift) in
  if mantissa =? 2 ^ 53 then (2 ^ 52, shift + 1) else (mantissa, shift).

(** The double nearest to an integer (ties to even); an infinity when the
  rounded value is out of range. *)
Definition nearest_float_of_Z (z : Z) : float :=
let of_positive (s : bool) (p : positive) :=
  let '(mantissa, exponent) := round_to_53_bits p in
  if exponent <=? emax - prec
  then SF2Prim (S754_finite s (Z.to_pos mantissa) exponent)
  else SF2Prim (S754_infinity s) in
match z with
| Z0 => zero
| Zpos p => of_positive false p
| Zneg p => of_positive true p
end.

(** [float(z)] for an [int]: the nearest double, [OverflowError] when the
  integer is too large to be converted. *)
Definition float_of_int (z : Z) : res float :=
if Z.abs z <? float_overflow_threshold
then Ok (nearest_float_of_Z z)
else Raise OverflowError.

(** The double nearest to the quotient of two integers, [b] non-zero: true
  division of ints is correctly rounded from the exact quotient. *)
Definition nearest_float_of_quotient (a b : Z) : float :=
match a, b with
| Z0, Zneg _ => neg_zero
| Z0, _ => zero
| Zpos p, Zpos q => SF2Prim (SFdiv prec emax (S754_finite false p 0) (S754_finite false q 0))
| Zpos p, Zneg q => SF2Prim (SFdiv prec emax (S754_finite false p 0) (S754_finite true q 0))
| Zneg p, Zpos q => SF2Prim (SFdiv prec emax (S754_finite true p 0) (S754_finite false q 0))
| Zneg p, Zneg q => SF2Prim (SFdiv prec emax (S754_finite true p 0) (S754_finite true q 0))
| _, Z0 => nan
end.

(** [x / y] on floats: [ZeroDivisionError] on a zero divisor, otherwise the
  IEEE quotient (overflow gives an infinity, not an exception). *)
Definition float_truediv (x y : float) : res float :=
if PrimFloat.eqb y 0 then Raise ZeroDivisionError else Ok (x / y)%float.

(** [a / b] (true division) on ints and floats. *)
Definition truediv (a b : pyval) : res float :=
match a, b with
| PInt x, PInt y =>
    if y =? 0 then Raise ZeroDivisionError
    else if float_overflow_threshold * Z.abs y <=? Z.abs x then Raise OverflowError
    else Ok (nearest_float_of_quotient x y)
| PInt x, PFloat y => fx ← float_of_int x; float_truediv fx y
| PFloat x, PInt y => fy ← float_of_int y; float_truediv x fy
| PFloat x, PFloat y => float_truediv x y
| _, _ => Raise TypeError
end.

(** [max(1, v)]: the builtin keeps its first argument unless a later one
  compares greater, so the result is [v] when [v > 1] and the int [1]
  otherwise (also for NaN). *)
Definition max_1 (v : pyval) : res pyval :=
match v with
| PInt z => Ok (if 1 <? z then v else PInt 1)
| PFloat x => Ok (if PrimFloat.ltb 1 x then v else PInt 1)
| _ => Raise TypeError
end.

(** [max(0, z)] on ints. *)
Definition max_0 (z : Z) : Z := if 0 <? z then z else 0.

(** [min(1.0, y)] on a float: [y] when [y < 1.0], otherwise [1.0]. *)
Definition min_1 (y : float) : float :=
if PrimFloat.ltb y 1 then y else 1%float.

(** [int(x)] for a float: truncation towards zero; infinities and NaN are
  rejected. *)
Definition int_of_float (x : float) : res Z :=
match Prim2SF x with
| S754_nan => Raise ValueError
| S754_infinity _ => Raise OverflowError
| S754_zero _ => Ok 0
| S754_finite s m e =>
    let magnitude :=
      if 0 <=? e then Z.pos m * 2 ^ e else Z.pos m / 2 ^ (- e) in
    Ok (if s then - magnitude else magnitude)
end.

(** ** [round(x, ndigits)] on a float, [ndigits >= 0]

  CPython rounds the exact binary value of [x] to [ndigits] decimals,
  ties to even, and converts the decimal result back to the nearest
  double.  Zeros, infinities and NaN round to themselves. *)

(** The double nearest to [(-1)^s * r / 10^ndigits]. *)
Definition float_of_decimal (s : bool) (r : Z) (ndigits : N) : float :=
match r with
| Zpos p =>
    SF2Prim (SFdiv prec emax (S754_finite s p 0)
               (S754_finite false (Z.to_pos (10 ^ Z.of_N ndigits)) 0))
| _ => if s then neg_zero else zero
end.

Definition round (x : float) (ndigits : N) : float :=
match Prim2SF x with
| S754_finite s m e =>
    let scale := 10 ^ Z.of_N ndigits in
    let r := if 0 <=? e
             then Z.pos m * 2 ^ e * scale
             else round_half_even (Z.pos m * scale) (2 ^ (- e)) in
    float_of_decimal s r ndigits
| _ => x
end.

(** ** Numbers as the specification speaks of them *)

(** An [int] or a [float]. *)
Definition is_number (v : pyval) : bool :=
match v with
| PInt _ | PFloat _ => true
| _ => false
end.

(** A number that compares [>= 0] (this includes [-0.0] and [+inf]). *)
Definition is_nonneg (v : pyval) : bool :=
match v with
| PInt z => 0 <=? z
| PFloat x => PrimFloat.leb 0 x
| _ => false
end.

(** A number that compares [> 0]. *)
Definition is_positive (v : pyval) : bool :=
match v with
| PInt z => 0 <? z
| PFloat x => PrimFloat.ltb 0 x
| _ => false
end.

(** A number that [float()] accepts: any float, and an int below the
  overflow threshold in magnitude. *)
Definition float_convertible (v : pyval) : bool :=
match v with
| PInt z => Z.abs z <? float_overflow_threshold
| PFloat _ => true
| _ => false
end.

End Py.
Import Py.

(* ===================================================================== *)
(** * 2. The heuristic predictor ([views.py], [_heuristic_predict])      *)
(* ===================================================================== *)

(** [MLModel.ModelType] and [MLModel.Status] ([models.py]). *)
Module ModelType.
Definition SUCCESS_PREDICTION : string := "success_prediction".
Definition DEMAND_FORECAST : string := "demand_forecast".
Definition PRICE_OPTIMIZATION : string := "price_optimization".
Definition choices : list string :=
  [SUCCESS_PREDICTION; DEMAND_FORECAST; PRICE_OPTIMIZATION].
End ModelType.

Module Status.
Definition TRAINING : string := "training".
Definition READY : string := "ready".
Definition FAILED : string := "failed".
End Status.

(** A feature mapping: a [dict] from feature names to values. *)
Abbreviation features := (gmap string pyval).

Definition _heuristic_predict (prediction_type : string) (f : features)
  : res (float * float) :=
  if String.eqb prediction_type ModelType.SUCCESS_PREDICTION then
    progress ← truediv (get f "progress" (PInt 0)) (PFloat 100);
    days_active ← max_1 (get f "days_active" (PInt 1));
    let participant_count := get f "participant_count" (PInt 0) in
    by_ten ← truediv participant_count (PInt 10);
    by_thirty ← truediv days_active (PInt 30);
    let score :=
      (0.6 * progress + 0.3 * min_1 by_ten + 0.1 * min_1 by_thirty)%float in
    Ok (round (min_1 score) 4, 0.5%float)
  else if String.eqb prediction_type ModelType.DEMAND_FORECAST then
    let target := get f "target_amount" (PInt 1000) in
    let price := or_ (get f "price_per_unit" (PInt 0)) (PInt 1) in
    estimated_units ← truediv target price;
    fifth ← truediv (PFloat estimated_units) (PInt 5);
    whole ← int_of_float fifth;
    let estimated_participants := Z.max 1 whole in
    value ← float_of_int estimated_participants;
    Ok (value, 0.4%float)
  else
    let target := get f "target_amount" (PInt 1000) in
    participants ← max_1 (get f "participant_count" (PInt 1));
    suggested_price ← truediv target participants;
    Ok (round suggested_price 2, 0.35%float).

(* ===================================================================== *)
(** * 3. Procurement records and feature extraction ([plexe_service.py]) *)
(* ===================================================================== *)

(** The [Procurement] model is declared outside this package.  Its money
    fields ([target_amount], [current_amount], [price_per_unit]) are read
    only through [float(...)] and through their truth value, so they are
    taken through that interface. *)
Class Amount (A : Type) := {
  amount_float : A -> float;   (* float(a) *)
  amount_bool : A -> bool      (* bool(a)  *)
}.

(** Test doubles carry plain floats. *)
#[global] Instance float_amount : Amount float := {|
  amount_float x := x;
  amount_bool x := negb (PrimFloat.eqb x 0)
|}.

(** A finite [Decimal] as a [DecimalField] yields it:
    [(-1)^negative * coefficient / 10^places]. *)
Record Decimal := {
  negative : bool;
  coefficient : N;
  places : N
}.

#[global] Instance decimal_amount : Amount Decimal := {|
  amount_float d := float_of_decimal (negative d) (Z.of_N (coefficient d)) (places d);
  amount_bool d := negb (coefficient d =? 0)%N
|}.

Record Category := { name : string }.

(** The attributes of a procurement that the analytics code reads.
    Timestamps are aware datetimes, counted in microseconds. *)
Record Procurement (A : Type) := {
  title : string;
  category : option Category;
  city : option string;
  target_amount : A;
  current_amount : A;
  price_per_unit : option A;
  participant_count : Z;
  progress : pyval;
  created_at : Z;
  deadline : Z;
  status : string
}.
Arguments title {A} _.
Arguments category {A} _.
Arguments city {A} _.
Arguments target_amount {A} _.
Arguments current_amount {A} _.
Arguments price_per_unit {A} _.
Arguments participant_count {A} _.
Arguments progress {A} _.
Arguments created_at {A} _.
Arguments deadline {A} _.
Arguments status {A} _.

Definition microseconds_per_day : Z := 86400000000.

(** [(later - earlier).days]: a [timedelta] is normalised so that its
    [days] is the floor of the difference in days. *)
Definition timedelta_days (later earlier : Z) : Z :=
  (later - earlier) / microseconds_per_day.

(** A table as [pd.DataFrame(rows)] builds it from a list of dicts: one
    row per dict, and the union of the dicts' keys as columns. *)
Record DataFrame := { records : list features }.

Module pd.
Definition len (df : DataFrame) : nat := length (records df).
Definition columns (df : DataFrame) : gset string :=
  ⋃ (dom <$> records df).
(** [df.empty]: some axis has length zero. *)
Definition empty (df : DataFrame) : bool :=
  (len df =? 0)%nat || (size (columns df) =? 0)%nat.
(** [df[name]]: the cell of every row, [None] where a row lacks it. *)
Definition column (df : DataFrame) (name : string) : list (option pyval) :=
  (fun row : features => row !! name) <$> records df.
Definition DataFrame (rows : list features) : DataFrame := {| records := rows |}.
End pd.

Section FeatureExtraction.
Context {A : Type} `{Amount A}.

(** The dict literal of [extract_features].  [x.city or "unknown"]: [None]
    and the empty string are falsy; [float(x) if x else 0.0] on the
    optional price: [None] and a zero amount are falsy. *)
Definition extract_features (procurement : Procurement A) : features :=
  list_to_map [
    ("category", PStr (match category procurement with
                       | Some c => name c
                       | None => "unknown"
                       end));
    ("city", PStr (match city procurement with
                   | Some c => if String.eqb c "" then "unknown" else c
                   | None => "unknown"
                   end));
    ("target_amount", PFloat (amount_float (target_amount procurement)));
    ("participant_count", PInt (participant_count procurement));
    ("days_active",
       PInt (max_0 (timedelta_days (deadline procurement) (created_at procurement))));
    ("price_per_unit",
       PFloat (match price_per_unit procurement with
               | Some a => if amount_bool a then amount_float a else 0%float
               | None => 0%float
               end));
    ("current_amount", PFloat (amount_float (current_amount procurement)));
    ("progress", progress procurement)
  ].

(** The dict appended for [p] by the loop of [_build_success_dataset]. *)
Definition success_row (p : Procurement A) : features :=
  list_to_map [
    ("category", PStr (match category p with
                       | Some c => name c
                       | None => "unknown"
                       end));
    ("city", PStr (match city p with
                   | Some c => if String.eqb c "" then "unknown" else c
                   | None => "unknown"
                   end));
    ("target_amount", PFloat (amount_float (target_amount p)));
    ("participant_count", PInt (participant_count p));
    ("days_active",
       PInt (max_0 (timedelta_days (deadline p) (created_at p))));
    ("price_per_unit",
       PFloat (match price_per_unit p with
               | Some a => if amount_bool a then amount_float a else 0%float
               | None => 0%float
               end));
    ("successful", PInt (if String.eqb (status p) "completed" then 1 else 0))
  ].

Definition _build_success_dataset (procurements_qs : list (Procurement A)) : DataFrame :=
  pd.DataFrame (success_row <$> procurements_qs).

(** The dict appended for [p] by the loop of [_build_demand_dataset]. *)
Definition demand_row (p : Procurement A) : features :=
  list_to_map [
    ("category", PStr (match category p with
                       | Some c => name c
                       | None => "unknown"
                       end));
    ("city", PStr (match city p with
                   | Some c => if String.eqb c "" then "unknown" else c
                   | None => "unknown"
                   end));
    ("target_amount", PFloat (amount_float (target_amount p)));
    ("price_per_unit",
       PFloat (match price_per_unit p with
               | Some a => if amount_bool a then amount_float a else 0%float
               | None => 0%float
               end));
    ("participant_count", PInt (participant_count p))
  ].

Definition _build_demand_dataset (procurements_qs : list (Procurement A)) : DataFrame :=
  pd.DataFrame (demand_row <$> procurements_qs).

End FeatureExtraction.

(* ===================================================================== *)
(** * 4. The training orchestrator ([PlexeService.train_*])              *)
(* ===================================================================== *)

(** Exceptions that leave the service; [str(exc)] is the message.  The
    last constructor stands for every other exception class. *)
Inductive exception :=
| RuntimeError (msg : string)
| ValueError (msg : string)
| OSError (msg : string)
| OtherError (msg : string).

Definition str (exc : exception) : string :=
  match exc with
  | RuntimeError msg | ValueError msg | OSError msg | OtherError msg => msg
  end.

(** What the external trainer hands back as its best solution. *)
Record Solution := { solution_performance : float }.

(** The calls a training run makes to the outside world, in order.  A
    call that raised is recorded too (it may have taken effect in part) and
    is the last call of its run; [mkdtemp] is recorded with the directory it
    created. *)
Inductive event (metrics : Type) :=
| Mkdtemp (prefix path : string)
| Mkdir (path : string)
| ToParquet (path : string) (df : DataFrame)
| PlexeMain (intent : string) (data_refs : list string)
    (max_iterations : Z) (work_dir : string).
Arguments Mkdtemp {metrics} _ _.
Arguments Mkdir {metrics} _.
Arguments ToParquet {metrics} _ _.
Arguments PlexeMain {metrics} _ _ _ _.

Definition is_trainer_call {metrics : Type} (e : event metrics) : bool :=
  match e with
  | PlexeMain _ _ _ _ => true
  | _ => false
  end.

(** The dictionary a training run returns. *)
Record TrainResult (metrics : Type) := {
  performance : float;
  artifact_path : string;
  metadata_metrics : metrics;
  metadata_dataset_rows : nat
}.
Arguments performance {metrics} _.
Arguments artifact_path {metrics} _.
Arguments metadata_metrics {metrics} _.
Arguments metadata_dataset_rows {metrics} _.

Definition success_intent : string :=
  "Predict whether a group procurement will be successful (reach its target amount) based on category, city, target_amount, participant_count, days_active, and price_per_unit.".

Definition demand_intent : string :=
  "Predict the total number of participants that will join a procurement based on category, city, target_amount, and price_per_unit.".

Definition not_installed_message : string :=
  "plexe is not installed. Install it with: pip install plexe".

(** The file system and the library calls that reach it, as one training
    run meets them.  Paths are held as their strings: [Path s] is
    [str(Path(s))], the normal form [pathlib] gives the string [s], and
    [joinpath dir name] is [str(Path(dir) / name)].  [mkdtemp] returns the
    directory it created or raises; [mkdir] is
    [Path.mkdir(parents=True, exist_ok=True)] and [to_parquet] is
    [DataFrame.to_parquet(path, index=False)], each with the exception it
    raises, if any. *)
Record FileSystem := {
  mkdtemp : string -> exception + string;
  Path : string -> string;
  joinpath : string -> string -> string;
  mkdir : string -> option exception;
  to_parquet : DataFrame -> string -> option exception
}.

Section PlexeService.
Context {A : Type} `{Amount A}.
(** The outside world of the service: the availability flag set at import
    time, the external trainer's entry point, and the file system. *)
Context {metrics : Type}.
Variable PLEXE_AVAILABLE : bool.
Variable plexe_main :
  string -> list string -> Z -> string ->
  exception + (option Solution * metrics).
Variable fs : FileSystem.

(** [Procurement.objects.filter(status__in=[...])] over the table. *)
Definition filter_status (allowed : list string) (table : list (Procurement A))
  : list (Procurement A) :=
  List.filter (fun p => existsb (String.eqb (status p)) allowed) table.

(** The part of both training methods after the dataset is known to be
    non-empty: persist it, call the trainer, package the result.  An
    exception of [mkdtemp], [mkdir], [to_parquet] or the trainer ends the
    run. *)
Definition run_trainer (prefix file_name intent : string) (df : DataFrame)
    (work_dir : option string) (max_iterations : Z)
  : list (event metrics) * (exception + TrainResult metrics) :=
  match mkdtemp fs prefix with
  | inl exc => ([], inl exc)
  | inr tmp_dir =>
      let artifact_dir :=
        Path fs (match work_dir with
                 | Some d => if String.eqb d "" then tmp_dir else d
                 | None => tmp_dir
                 end) in
      match mkdir fs artifact_dir with
      | Some exc => ([Mkdtemp prefix tmp_dir; Mkdir artifact_dir], inl exc)
      | None =>
          let dataset_path := joinpath fs artifact_dir file_name in
          match to_parquet fs df dataset_path with
          | Some exc =>
              ([Mkdtemp prefix tmp_dir; Mkdir artifact_dir; ToParquet dataset_path df],
               inl exc)
          | None =>
              let trace := [Mkdtemp prefix tmp_dir; Mkdir artifact_dir;
                            ToParquet dataset_path df;
                            PlexeMain intent [dataset_path] max_iterations artifact_dir] in
              match plexe_main intent [dataset_path] max_iterations artifact_dir with
              | inl exc => (trace, inl exc)
              | inr (best_solution, m) =>
                  (trace,
                   inr {| performance :=
                            match best_solution with
                            | Some sol => solution_performance sol
                            | None => 0%float
                            end;
                          artifact_path := artifact_dir;
                          metadata_metrics := m;
                          metadata_dataset_rows := pd.len df |})
              end
          end
      end
  end.

(** The records a run trains on: the queryset passed in, or the default
    selection from the table when it is [None]. *)
Definition success_source (table : list (Procurement A))
    (procurements_qs : option (list (Procurement A))) : list (Procurement A) :=
  match procurements_qs with
  | Some qs => qs
  | None => filter_status ["completed"; "cancelled"] table
  end.

Definition demand_source (table : list (Procurement A))
    (procurements_qs : option (list (Procurement A))) : list (Procurement A) :=
  match procurements_qs with
  | Some qs => qs
  | None => filter_status ["completed"] table
  end.

Definition train_success_model (table : list (Procurement A))
    (procurements_qs : option (list (Procurement A)))
    (work_dir : option string) (max_iterations : Z)
  : list (event metrics) * (exception + TrainResult metrics) :=
  if negb PLEXE_AVAILABLE then ([], inl (RuntimeError not_installed_message))
  else
    let df := _build_success_dataset (success_source table procurements_qs) in
    if pd.empty df then
      ([], inl (ValueError
                  "Not enough training data. Need completed/cancelled procurements."))
    else
      run_trainer "plexe_success_" "success_dataset.parquet" success_intent
        df work_dir max_iterations.

Definition train_demand_forecast_model (table : list (Procurement A))
    (procurements_qs : option (list (Procurement A)))
    (work_dir : option string) (max_iterations : Z)
  : list (event metrics) * (exception + TrainResult metrics) :=
  if negb PLEXE_AVAILABLE then ([], inl (RuntimeError not_installed_message))
  else
    let df := _build_demand_dataset (demand_source table procurements_qs) in
    if pd.empty df then
      ([], inl (ValueError "Not enough training data. Need completed procurements."))
    else
      run_trainer "plexe_demand_" "demand_dataset.parquet" demand_intent
        df work_dir max_iterations.

End PlexeService.

(* ===================================================================== *)
(** * 5. Stored records and the two API actions ([models.py], [views.py]) *)
(* ===================================================================== *)

(** The JSON kept in [MLModel.training_metadata]. *)
Inductive training_metadata (metrics : Type) :=
| MetaEmpty
| MetaError (error : string)
| MetaResult (m : metrics) (dataset_rows : nat).
Arguments MetaEmpty {metrics}.
Arguments MetaError {metrics} _.
Arguments MetaResult {metrics} _ _.

Record MLModel (metrics : Type) := {
  ml_id : Z;
  ml_name : string;
  ml_model_type : string;
  ml_status : string;
  ml_intent : string;
  ml_performance : option float;
  ml_artifact_path : string;
  ml_training_metadata : training_metadata metrics;
  ml_created_at : Z;
  ml_updated_at : Z
}.
Arguments ml_id {metrics} _.
Arguments ml_name {metrics} _.
Arguments ml_model_type {metrics} _.
Arguments ml_status {metrics} _.
Arguments ml_intent {metrics} _.
Arguments ml_performance {metrics} _.
Arguments ml_artifact_path {metrics} _.
Arguments ml_training_metadata {metrics} _.
Arguments ml_created_at {metrics} _.
Arguments ml_updated_at {metrics} _.

Record ProcurementPrediction := {
  pp_id : Z;
  pp_procurement : Z;
  pp_ml_model : option Z;
  pp_prediction_type : string;
  pp_predicted_value : float;
  pp_confidence : option float;
  pp_input_features : features;
  pp_created_at : Z
}.

(** The database and the clock as one request sees them. *)
Record world (A metrics : Type) := {
  procurements : list (Z * Procurement A);
  ml_models : list (MLModel metrics);
  predictions : list ProcurementPrediction;
  next_ml_model_id : Z;
  next_prediction_id : Z;
  effects : list (event metrics);
  now : Z
}.
Arguments procurements {A metrics} _.
Arguments ml_models {A metrics} _.
Arguments predictions {A metrics} _.
Arguments next_ml_model_id {A metrics} _.
Arguments next_prediction_id {A metrics} _.
Arguments effects {A metrics} _.
Arguments now {A metrics} _.

(** Error codes of the serializer fields, as the REST framework names them. *)
Inductive field_error :=
| Required
| Null
| Invalid
| InvalidChoice (input : pyval)
| MinValue (limit : Z)
| MaxValue (limit : Z).

Inductive body (metrics : Type) :=
| FieldErrors (errors : gmap string (list field_error))
| Message (fields : list (string * string))
| NotFound
| ModelData (m : MLModel metrics)
| PredictionData (p : ProcurementPrediction) (procurement_title : string)
| Uncaught (e : exn).
Arguments FieldErrors {metrics} _.
Arguments Message {metrics} _.
Arguments NotFound {metrics}.
Arguments ModelData {metrics} _.
Arguments PredictionData {metrics} _ _.
Arguments Uncaught {metrics} _.

Record Response (metrics : Type) := {
  status_code : Z;
  data : body metrics
}.
Arguments status_code {metrics} _.
Arguments data {metrics} _.

Definition HTTP_201_CREATED : Z := 201.
Definition HTTP_400_BAD_REQUEST : Z := 400.
Definition HTTP_404_NOT_FOUND : Z := 404.
Definition HTTP_500_INTERNAL_SERVER_ERROR : Z := 500.
Definition HTTP_503_SERVICE_UNAVAILABLE : Z := 503.

Section Serializers.
(** How the REST framework reads an integer field, respectively a
    character field, from a payload that is not already of that type
    (a numeric string, an integral float, ...): library code. *)
Variable drf_int : pyval -> option Z.
Variable drf_char : pyval -> option string.

(** [ChoiceField(choices=MLModel.ModelType.choices)] on a present,
    non-null payload: only a string equal to a choice is accepted. *)
Definition choice_field (input : pyval) : list field_error + string :=
  match input with
  | PStr s =>
      if existsb (String.eqb s) ModelType.choices then inr s
      else inl [InvalidChoice input]
  | _ => inl [InvalidChoice input]
  end.

(** [IntegerField] on a present, non-null payload, without bounds: the
    field computes [int(str(data))], the identity on the ints a JSON body
    carries. *)
Definition integer_field (input : pyval) : list field_error + Z :=
  match input with
  | PInt z => inr z
  | _ => match drf_int input with
         | Some z => inr z
         | None => inl [Invalid]
         end
  end.

(** The validators of [min_value=1, max_value=20]. *)
Definition iteration_bounds (z : Z) : list field_error :=
  (if 20 <? z then [MaxValue 20] else []) ++
  (if z <? 1 then [MinValue 1] else []).

Record TrainData := {
  td_model_type : string;
  td_max_iterations : Z;
  td_work_dir : option string
}.

Definition train_model_type (d : gmap string pyval) : list field_error + string :=
  match d !! "model_type" with
  | None => inl [Required]
  | Some PNone => inl [Null]
  | Some input => choice_field input
  end.

Definition train_max_iterations (d : gmap string pyval) : list field_error + Z :=
  match d !! "max_iterations" with
  | None => inr 3
  | Some PNone => inl [Null]
  | Some input =>
      match integer_field input with
      | inl errs => inl errs
      | inr z => match iteration_bounds z with
                 | [] => inr z
                 | errs => inl errs
                 end
      end
  end.

Definition train_work_dir (d : gmap string pyval) : list field_error + option string :=
  match d !! "work_dir" with
  | None => inr None
  | Some PNone => inl [Null]
  | Some input => match drf_char input with
                  | Some s' => inr (Some s')
                  | None => inl [Invalid]
                  end
  end.

Definition field_errors {V : Type} (key : string) (r : list field_error + V)
  : gmap string (list field_error) :=
  match r with
  | inl errs => {[ key := errs ]}
  | inr _ => ∅
  end.

(** [TrainModelSerializer(data=...)]: the validated data when every field
    passes, otherwise the errors by field. *)
Definition TrainModelSerializer (d : gmap string pyval)
  : gmap string (list field_error) + TrainData :=
  match train_model_type d, train_max_iterations d, train_work_dir d with
  | inr mt, inr mi, inr wd =>
      inr {| td_model_type := mt; td_max_iterations := mi; td_work_dir := wd |}
  | r1, r2, r3 =>
      inl (field_errors "model_type" r1 ∪ field_errors "max_iterations" r2
           ∪ field_errors "work_dir" r3)
  end.

Record PredictData := {
  pd_procurement_id : Z;
  pd_prediction_type : string
}.

Definition predict_procurement_id (d : gmap string pyval) : list field_error + Z :=
  match d !! "procurement_id" with
  | None => inl [Required]
  | Some PNone => inl [Null]
  | Some input => integer_field input
  end.

Definition predict_prediction_type (d : gmap string pyval) : list field_error + string :=
  match d !! "prediction_type" with
  | None => inr ModelType.SUCCESS_PREDICTION
  | Some PNone => inl [Null]
  | Some input => choice_field input
  end.

Definition PredictSerializer (d : gmap string pyval)
  : gmap string (list field_error) + PredictData :=
  match predict_procurement_id d, predict_prediction_type d with
  | inr pid, inr pt =>
      inr {| pd_procurement_id := pid; pd_prediction_type := pt |}
  | r1, r2 =>
      inl (field_errors "procurement_id" r1 ∪ field_errors "prediction_type" r2)
  end.

End Serializers.

Section Views.
Context {A : Type} `{Amount A} {metrics : Type}.
Variable PLEXE_AVAILABLE : bool.
Variable plexe_main :
  string -> list string -> Z -> string ->
  exception + (option Solution * metrics).
Variable fs : FileSystem.
Variable drf_int : pyval -> option Z.
Variable drf_char : pyval -> option string.
(** The exception with which the database layer refuses a prediction
    row, if it does (a float or a JSON value it cannot store). *)
Variable objects_create_error : ProcurementPrediction -> option exn.

Abbreviation World := (world A metrics).

(** [MLModel.objects.create(...)]: a new row with the next id; the fields
    not passed take their defaults. *)
Definition create_ml_model (w : World) (model_name model_type model_status intent : string)
  : World * MLModel metrics :=
  let row := {| ml_id := next_ml_model_id w;
                ml_name := model_name;
                ml_model_type := model_type;
                ml_status := model_status;
                ml_intent := intent;
                ml_performance := None;
                ml_artifact_path := "";
                ml_training_metadata := MetaEmpty;
                ml_created_at := now w;
                ml_updated_at := now w |} in
  ({| procurements := procurements w;
      ml_models := ml_models w ++ [row];
      predictions := predictions w;
      next_ml_model_id := next_ml_model_id w + 1;
      next_prediction_id := next_prediction_id w;
      effects := effects w;
      now := now w |}, row).

(** Rewrite the stored row that has the given id. *)
Definition update_ml_model (w : World) (id : Z)
    (change : MLModel metrics -> MLModel metrics) : World :=
  {| procurements := procurements w;
     ml_models := (fun row => if ml_id row =? id then change row else row)
                    <$> ml_models w;
     predictions := predictions w;
     next_ml_model_id := next_ml_model_id w;
     next_prediction_id := next_prediction_id w;
     effects := effects w;
     now := now w |}.

Definition record_effects (w : World) (trace : list (event metrics)) : World :=
  {| procurements := procurements w;
     ml_models := ml_models w;
     predictions := predictions w;
     next_ml_model_id := next_ml_model_id w;
     next_prediction_id := next_prediction_id w;
     effects := effects w ++ trace;
     now := now w |}.

(** [ml_model.save(update_fields=["status", "updated_at"])]. *)
Definition save_status (w : World) (id : Z) (new_status : string) : World :=
  update_ml_model w id (fun row =>
    {| ml_id := ml_id row; ml_name := ml_name row;
       ml_model_type := ml_model_type row;
       ml_status := new_status;
       ml_intent := ml_intent row;
       ml_performance := ml_performance row;
       ml_artifact_path := ml_artifact_path row;
       ml_training_metadata := ml_training_metadata row;
       ml_created_at := ml_created_at row;
       ml_updated_at := now w |}).

(** [ml_model.save(update_fields=["status", "training_metadata",
    "updated_at"])]. *)
Definition save_failure (w : World) (id : Z) (error : string) : World :=
  update_ml_model w id (fun row =>
    {| ml_id := ml_id row; ml_name := ml_name row;
       ml_model_type := ml_model_type row;
       ml_status := Status.FAILED;
       ml_intent := ml_intent row;
       ml_performance := ml_performance row;
       ml_artifact_path := ml_artifact_path row;
       ml_training_metadata := MetaError error;
       ml_created_at := ml_created_at row;
       ml_updated_at := now w |}).

(** The model object after a successful run, as [ml_model.save()] stores
    it and the serializer shows it. *)
Definition ready_model (w : World) (m : MLModel metrics) (r : TrainResult metrics)
  : MLModel metrics :=
  {| ml_id := ml_id m; ml_name := ml_name m;
     ml_model_type := ml_model_type m;
     ml_status := Status.READY;
     ml_intent := ml_intent m;
     ml_performance := Some (performance r);
     ml_artifact_path := artifact_path r;
     ml_training_metadata :=
       MetaResult (metadata_metrics r) (metadata_dataset_rows r);
     ml_created_at := ml_created_at m;
     ml_updated_at := now w |}.

(** The [try] block's tail and the [except Exception] handler of
    [train], given what the service call produced. *)
Definition finish_training (w : World) (ml_model : MLModel metrics)
    (run : list (event metrics) * (exception + TrainResult metrics))
  : World * Response metrics :=
  let w := record_effects w (fst run) in
  match snd run with
  | inr result =>
      let saved := ready_model w ml_model result in
      (update_ml_model w (ml_id ml_model) (fun _ => saved),
       {| status_code := HTTP_201_CREATED; data := ModelData saved |})
  | inl exc =>
      (save_failure w (ml_id ml_model) (str exc),
       {| status_code := HTTP_500_INTERNAL_SERVER_ERROR;
          data := Message [("error", str exc)] |})
  end.

(** [MLModelViewSet.train]. *)
Definition train (request_data : gmap string pyval) (w : World)
  : World * Response metrics :=
  if negb PLEXE_AVAILABLE then
    (w, {| status_code := HTTP_503_SERVICE_UNAVAILABLE;
           data := Message [("error", "plexe is not installed.");
                            ("hint", "pip install plexe")] |})
  else
    match TrainModelSerializer drf_int drf_char request_data with
    | inl errors =>
        (w, {| status_code := HTTP_400_BAD_REQUEST; data := FieldErrors errors |})
    | inr validated =>
        let model_type := td_model_type validated in
        let max_iterations := td_max_iterations validated in
        let work_dir :=
          match td_work_dir validated with
          | Some d => if String.eqb d "" then None else Some d
          | None => None
          end in
        let '(w, ml_model) :=
          create_ml_model w ("plexe-" +:+ model_type) model_type Status.TRAINING
            ("Automated plexe training for " +:+ model_type) in
        let table := snd <$> procurements w in
        if String.eqb model_type ModelType.SUCCESS_PREDICTION then
          finish_training w ml_model
            (train_success_model PLEXE_AVAILABLE plexe_main fs
               table None work_dir max_iterations)
        else if String.eqb model_type ModelType.DEMAND_FORECAST then
          finish_training w ml_model
            (train_demand_forecast_model PLEXE_AVAILABLE plexe_main fs
               table None work_dir max_iterations)
        else
          (save_status w (ml_id ml_model) Status.FAILED,
           {| status_code := HTTP_400_BAD_REQUEST;
              data := Message [("error", "Unsupported model_type: " +:+ model_type)] |})
    end.

(** [get_object_or_404(Procurement, pk=...)]. *)
Definition get_procurement (w : World) (pk : Z) : option (Procurement A) :=
  snd <$> List.find (fun row => fst row =? pk) (procurements w).

(** [ProcurementPrediction.objects.create(...)]: the new row is stored
    with the next id, unless the database layer refuses it. *)
Definition create_prediction (w : World) (procurement_pk : Z)
    (prediction_type : string) (predicted_value confidence : float)
    (input_features : features) : res (World * ProcurementPrediction) :=
  let row := {| pp_id := next_prediction_id w;
                pp_procurement := procurement_pk;
                pp_ml_model := None;
                pp_prediction_type := prediction_type;
                pp_predicted_value := predicted_value;
                pp_confidence := Some confidence;
                pp_input_features := input_features;
                pp_created_at := now w |} in
  match objects_create_error row with
  | Some e => Raise e
  | None =>
      Ok ({| procurements := procurements w;
             ml_models := ml_models w;
             predictions := predictions w ++ [row];
             next_ml_model_id := next_ml_model_id w;
             next_prediction_id := next_prediction_id w + 1;
             effects := effects w;
             now := now w |}, row)
  end.

(** [ProcurementPredictionViewSet.predict].  An exception of the
    heuristic or of the database layer is not caught by the view: the
    request fails. *)
Definition predict (request_data : gmap string pyval) (w : World)
  : World * Response metrics :=
  match PredictSerializer drf_int request_data with
  | inl errors =>
      (w, {| status_code := HTTP_400_BAD_REQUEST; data := FieldErrors errors |})
  | inr validated =>
      let procurement_id := pd_procurement_id validated in
      let prediction_type := pd_prediction_type validated in
      match get_procurement w procurement_id with
      | None => (w, {| status_code := HTTP_404_NOT_FOUND; data := NotFound |})
      | Some procurement =>
          let feats := extract_features procurement in
          match _heuristic_predict prediction_type feats with
          | Raise e =>
              (w, {| status_code := HTTP_500_INTERNAL_SERVER_ERROR;
                     data := Uncaught e |})
          | Ok (predicted_value, confidence) =>
              match create_prediction w procurement_id prediction_type
                      predicted_value confidence feats with
              | Raise e =>
                  (w, {| status_code := HTTP_500_INTERNAL_SERVER_ERROR;
                         data := Uncaught e |})
              | Ok (w, prediction) =>
                  (w, {| status_code := HTTP_201_CREATED;
                         data := PredictionData prediction (title procurement) |})
              end
          end
      end
  end.

End Views.

(* ===================================================================== *)
(** * 6. The specification's vocabulary                                  *)
(* ===================================================================== *)

(** The keys of a feature mapping and the columns of the two datasets. *)
Definition feature_keys : gset string :=
  {[ "category"; "city"; "target_amount"; "participant_count";
     "days_active"; "price_per_unit"; "current_amount"; "progress" ]}.

Definition success_feature_keys : gset string :=
  {[ "category"; "city"; "target_amount"; "participant_count";
     "days_active"; "price_per_unit" ]}.

Definition success_columns : gset string :=
  success_feature_keys ∪ {[ "successful" ]}.

Definition demand_columns : gset string :=
  {[ "category"; "city"; "target_amount"; "price_per_unit";
     "participant_count" ]}.

(** The restriction of a mapping to a set of keys. *)
Definition restrict (keys : gset string) (f : features) : features :=
  filter (fun kv => kv.1 ∈ keys) f.

(** The success label as the specification words it. *)
Definition successful_label (record_status : string) : pyval :=
  PInt (if String.eqb record_status "completed" then 1 else 0).

(** The success score as the specification words it, on the three
    features it reads:
    [round(min(1.0, 0.6*(progress/100) + 0.3*min(1, participant_count/10)
                    + 0.1*min(1, days_active/30)), 4)], confidence [0.5]. *)
Definition success_formula (progress participant_count days_active : pyval)
  : res (float * float) :=
  ratio ← truediv progress (PFloat 100);
  by_ten ← truediv participant_count (PInt 10);
  by_thirty ← truediv days_active (PInt 30);
  Ok (round (min_1 (0.6 * ratio + 0.3 * min_1 by_ten + 0.1 * min_1 by_thirty)%float) 4,
      0.5%float).

(** [math.floor(x)] on a float. *)
Definition floor_of_float (x : float) : res Z :=
  match Prim2SF x with
  | S754_nan => Raise Py.ValueError
  | S754_infinity _ => Raise OverflowError
  | S754_zero _ => Ok 0
  | S754_finite s m e =>
      Ok (if 0 <=? e
          then (if s then - (Z.pos m * 2 ^ e) else Z.pos m * 2 ^ e)
          else (if s then (- Z.pos m) / 2 ^ (- e) else Z.pos m / 2 ^ (- e)))
  end.

(** The demand estimate as the specification words it:
    [float(max(1, floor((target_amount / (price_per_unit or 1)) / 5)))],
    confidence [0.4]. *)
Definition demand_formula (target_amount price_per_unit : pyval)
  : res (float * float) :=
  estimated_units ← truediv target_amount (or_ price_per_unit (PInt 1));
  fifth ← truediv (PFloat estimated_units) (PInt 5);
  whole ← floor_of_float fifth;
  value ← float_of_int (Z.max 1 whole);
  Ok (value, 0.4%float).

(** The price suggestion as the specification words it:
    [round(target_amount / max(1, participant_count), 2)], confidence
    [0.35]. *)
Definition price_formula (target_amount participant_count : pyval)
  : res (float * float) :=
  participants ← max_1 participant_count;
  quotient ← truediv target_amount participants;
  Ok (round quotient 2, 0.35%float).

(** A float that is neither an infinity nor NaN. *)
Definition is_finite (x : float) : bool :=
  match Prim2SF x with
  | S754_zero _ | S754_finite _ _ _ => true
  | _ => false
  end.

(** An insufficient-data error: a [ValueError] whose message speaks of
    not enough training data. *)
Definition insufficient_data (exc : exception) : bool :=
  match exc with
  | ValueError msg => String.prefix "Not enough training data" msg
  | _ => false
  end.

(** The two ways of a training body to be invalid that the specification
    names: a model kind outside the known kinds, and an iteration count
    outside 1..20. *)
Definition unknown_model_kind (request_data : gmap string pyval) : bool :=
  match request_data !! "model_type" with
  | Some (PStr s) => negb (existsb (String.eqb s) ModelType.choices)
  | _ => false
  end.

Definition iterations_out_of_range (request_data : gmap string pyval) : bool :=
  match request_data !! "max_iterations" with
  | Some (PInt z) => (z <? 1) || (20 <? z)
  | _ => false
  end.

(** Signs of binary64 values, as the proofs below track them. *)

(** A value that is not NaN and not negative: a zero of either sign, a
    positive finite value or plus infinity. *)
Definition SFnonneg (x : spec_float) : bool :=
  match x with
  | S754_zero _ => true
  | S754_infinity s => negb s
  | S754_finite s _ _ => negb s
  | S754_nan => false
  end.

(** A positive finite value or plus infinity. *)
Definition SFpositive (x : spec_float) : bool :=
  match x with
  | S754_infinity s => negb s
  | S754_finite s _ _ => negb s
  | _ => false
  end.

Definition SFis_nan (x : spec_float) : bool :=
  match x with
  | S754_nan => true
  | _ => false
  end.

(** Non-negative, or NaN. *)
Definition SFnonneg_or_nan (x : spec_float) : bool := SFnonneg x || SFis_nan x.

(** A number whose true division by the int [k] does not overflow: any
    float, and an int below [k] times the float overflow threshold in
    magnitude. *)
Definition quotient_fits (v : pyval) (k : Z) : bool :=
  match v with
  | PInt z => Z.abs z <? float_overflow_threshold * k
  | PFloat _ => true
  | _ => false
  end.

(** A float in the closed interval from 0 to 1. *)
Definition in_unit_interval (x : float) : bool :=
  PrimFloat.leb 0 x && PrimFloat.leb x 1.

(** An [int]. *)
Definition is_int (v : pyval) : bool :=
  match v with PInt _ => true | _ => false end.

(** The worked example of the specification. *)
Definition example_features : features :=
  list_to_map [("progress", PInt 30); ("participant_count", PInt 6); ("days_active", PInt 15)].

(** ** Further vocabulary, for the properties beyond the specification *)

(** The exception an outcome raised, if any. *)
Definition raises_zero_division {T : Type} (c : res T) : bool :=
  match c with
  | Raise ZeroDivisionError => true
  | _ => false
  end.

(** The defaults [_heuristic_predict] gives to [features.get] in each of
    its three branches. *)
Definition success_defaults : features :=
  list_to_map [("progress", PInt 0); ("days_active", PInt 1); ("participant_count", PInt 0)].

Definition demand_defaults : features :=
  list_to_map [("target_amount", PInt 1000); ("price_per_unit", PInt 0)].

Definition price_defaults : features :=
  list_to_map [("target_amount", PInt 1000); ("participant_count", PInt 1)].

(** The features each branch of [_heuristic_predict] reads. *)
Definition keys_read (kind : string) : gset string :=
  if String.eqb kind ModelType.SUCCESS_PREDICTION
  then {[ "progress"; "days_active"; "participant_count" ]}
  else if String.eqb kind ModelType.DEMAND_FORECAST
  then {[ "target_amount"; "price_per_unit" ]}
  else {[ "target_amount"; "participant_count" ]}.

(** Whether a list of records is empty. *)
Definition no_records {T : Type} (l : list T) : bool :=
  match l with
  | [] => true
  | _ :: _ => false
  end.

(** How often a run called the external trainer. *)
Definition trainer_calls {metrics : Type} (trace : list (event metrics)) : nat :=
  length (List.filter is_trainer_call trace).

(** Whether the steps of a training run before the trainer call all
    succeed: the temporary directory, the artifact directory and the
    dataset file. *)
Definition persists (fs : FileSystem) (prefix file_name : string) (df : DataFrame)
    (work_dir : option string) : bool :=
  match mkdtemp fs prefix with
  | inl _ => false
  | inr tmp_dir =>
      let artifact_dir :=
        Path fs (match work_dir with
                 | Some d => if String.eqb d "" then tmp_dir else d
                 | None => tmp_dir
                 end) in
      match mkdir fs artifact_dir with
      | Some _ => false
      | None =>
          match to_parquet fs df (joinpath fs artifact_dir file_name) with
          | Some _ => false
          | None => true
          end
      end
  end.

(** What a request may ask of the external trainer: between 1 and 20
    iterations on a single data file. *)
Definition trainer_call_in_bounds {metrics : Type} (e : event metrics) : bool :=
  match e with
  | PlexeMain _ data_refs max_iterations _ =>
      (1 <=? max_iterations) && (max_iterations <=? 20)
      && (length data_refs =? 1)%nat
  | _ => true
  end.

(** Whether a serializer accepted the body. *)
Definition is_valid {E V : Type} (r : E + V) : bool :=
  match r with
  | inr _ => true
  | inl _ => false
  end.

(* ===================================================================== *)
(** * 7. Sample data                                                  *)
(* ===================================================================== *)

(** The procurement of the test suite: thirty days between creation and
    deadline, with a given status. *)
Definition sample_procurement (record_status : string) : Procurement float :=
  {| title := "Test Procurement";
     category := Some {| name := "Electronics" |};
     city := Some "Moscow";
     target_amount := 10000%float;
     current_amount := 3000%float;
     price_per_unit := Some 500%float;
     participant_count := 6;
     progress := PInt 30;
     created_at := 0;
     deadline := 30 * microseconds_per_day;
     status := record_status |}.

(** A record with nothing optional filled in, whose deadline lies one
    second before its creation. *)
Definition bare_procurement : Procurement float :=
  {| title := "Bare";
     category := None;
     city := Some "";
     target_amount := 5000%float;
     current_amount := 0%float;
     price_per_unit := None;
     participant_count := 0;
     progress := PInt 0;
     created_at := 1000000;
     deadline := 0;
     status := "active" |}.

(** A trainer that always finds a solution, a file system on which
    every call succeeds (on paths already in normal form), the field
    coercions of the serializers and a database that refuses a prediction
    whose value is not finite, for running the actions. *)
Definition sample_trainer (intent : string) (data_refs : list string)
    (max_iterations : Z) (work_dir : string)
  : exception + (option Solution * unit) :=
  inr (Some {| solution_performance := 0.9%float |}, tt).

Definition sample_fs : FileSystem :=
  {| mkdtemp prefix := inr ("/tmp/" +:+ prefix +:+ "0");
     Path s := s;
     joinpath dir name := dir +:+ "/" +:+ name;
     mkdir _ := None;
     to_parquet _ _ := None |}.

(** A file system on which no directory can be created. *)
Definition readonly_fs : FileSystem :=
  {| mkdtemp prefix := inr ("/tmp/" +:+ prefix +:+ "0");
     Path s := s;
     joinpath dir name := dir +:+ "/" +:+ name;
     mkdir _ := Some (OSError "Read-only file system");
     to_parquet _ _ := None |}.

Definition sample_objects_create_error (row : ProcurementPrediction) : option exn :=
  if is_finite (pp_predicted_value row) then None else Some DatabaseError.

Definition sample_drf_int (input : pyval) : option Z := None.

Definition sample_drf_char (input : pyval) : option string :=
  match input with
  | PStr s => Some s
  | _ => None
  end.

(** A database holding one active procurement and nothing else. *)
Definition sample_world : world float unit :=
  {| procurements := [(1, sample_procurement "active")];
     ml_models := [];
     predictions := [];
     next_ml_model_id := 1;
     next_prediction_id := 1;
     effects := [];
     now := 0 |}.

Definition sample_train := train (A:=float) true sample_trainer sample_fs
                             sample_drf_int sample_drf_char.

Definition sample_predict :=
  predict (A:=float) (metrics:=unit) sample_drf_int sample_objects_create_error.

(** The requests of the test suite. *)
Definition missing_procurement_request : gmap string pyval :=
  {[ "procurement_id" := PInt 99999 ]}.

Definition invalid_kind_request : gmap string pyval :=
  {[ "model_type" := PStr "nonexistent_type" ]}.

Definition features_of (entries : list (string * pyval)) : features :=
  list_to_map entries.

(** A database holding a completed, a cancelled and an active
    procurement. *)
Definition finished_world : world float unit :=
  {| procurements := [(1, sample_procurement "completed");
                      (2, sample_procurement "cancelled");
                      (3, sample_procurement "active")];
     ml_models := [];
     predictions := [];
     next_ml_model_id := 1;
     next_prediction_id := 1;
     effects := [];
     now := 0 |}.

(** Training and prediction requests. *)
Definition success_training_request : gmap string pyval :=
  list_to_map [("model_type", PStr "success_prediction")].

Definition demand_training_request : gmap string pyval :=
  list_to_map [("model_type", PStr "demand_forecast"); ("max_iterations", PInt 7)].

Definition doubly_invalid_request : gmap string pyval :=
  list_to_map [("model_type", PStr "bogus"); ("max_iterations", PInt 50)].

Definition price_request : gmap string pyval :=
  list_to_map [("procurement_id", PInt 1); ("prediction_type", PStr "price_optimization")].

(* ===================================================================== *)
(** * 8. Binary64 facts                                               *)
(* ===================================================================== *)

(** ** The numeric model on known values *)

(** The rounding of integers to 53 bits is the rounding to nearest of the
    binary64 specification. *)
Example nearest_float_of_Z_is_binary_normalize :
  forallb (fun z => PrimFloat.Leibniz.eqb (nearest_float_of_Z z)
                      (SF2Prim (binary_normalize prec emax z 0 false)))
    [1; 2; 3; 10; 30; 2 ^ 53 - 1; 2 ^ 53; 2 ^ 53 + 1; 2 ^ 53 + 3; 2 ^ 54 + 2;
     2 ^ 54 + 6; 2 ^ 60 + 2 ^ 7; 10 ^ 300; 2 ^ 1024 - 2 ^ 970 - 1; 2 ^ 1024 - 2 ^ 970;
     -7; - (2 ^ 53 + 1)] = true.
Proof. vm_compute. reflexivity. Qed.

(** True division of ints agrees with the division of their floats where
    both are exact, and overflows at the threshold. *)
Example truediv_int_values :
  truediv (PInt 1) (PInt 3) = Ok (1 / 3)%float
  /\ truediv (PInt 6) (PInt 10) = Ok 0.6%float
  /\ truediv (PInt (10 ^ 400)) (PInt (10 ^ 399)) = Ok 10%float
  /\ truediv (PInt (2 ^ 1024 - 2 ^ 970)) (PInt 1) = Raise OverflowError
  /\ truediv (PInt (10 ^ 400)) (PFloat 100) = Raise OverflowError.
Proof. repeat split. Qed.

(** [round] on the usual examples: the binary value decides, and exact
    ties go to the even digit. *)
Example round_values :
  round 2.675 2 = 2.67%float
  /\ round 0.125 2 = 0.12%float
  /\ round 0.375 2 = 0.38%float
  /\ round 0.41000000000000003 4 = 0.41%float
  /\ round 123456789.987654321 4 = 123456789.9877%float
  /\ round (-0.00001) 4 = neg_zero
  /\ round infinity 2 = infinity.
Proof. repeat split. Qed.

(** ** Bit lengths *)

Lemma digits2_pos_bounds (p : positive) :
  2 ^ (Z.pos (digits2_pos p) - 1) <= Z.pos p < 2 ^ Z.pos (digits2_pos p).
Proof.
  induction p as [p IH | p IH |]; simpl digits2_pos.
  - rewrite Pos2Z.inj_succ.
    replace (Z.succ (Z.pos (digits2_pos p)) - 1) with (Z.succ (Z.pos (digits2_pos p) - 1)) by lia.
    rewrite !Z.pow_succ_r by lia. lia.
  - rewrite Pos2Z.inj_succ.
    replace (Z.succ (Z.pos (digits2_pos p)) - 1) with (Z.succ (Z.pos (digits2_pos p) - 1)) by lia.
    rewrite !Z.pow_succ_r by lia. lia.
  - simpl. lia.
Qed.

Lemma digits2_pos_unique (p : positive) (d : Z) :
  2 ^ (d - 1) <= Z.pos p < 2 ^ d -> Z.pos (digits2_pos p) = d.
Proof.
  intros [Hlo Hhi]. pose proof (digits2_pos_bounds p) as [Hlo' Hhi'].
  destruct (Z.lt_trichotomy (Z.pos (digits2_pos p)) d) as [Hlt | [Heq | Hgt]].
  - assert (2 ^ Z.pos (digits2_pos p) <= 2 ^ (d - 1)) by (apply Z.pow_le_mono_r; lia). lia.
  - exact Heq.
  - assert (0 <= d \/ d < 0) as [Hd | Hd] by lia.
    + assert (2 ^ d <= 2 ^ (Z.pos (digits2_pos p) - 1)) by (apply Z.pow_le_mono_r; lia). lia.
    + rewrite (Z.pow_neg_r 2 d Hd) in Hhi. lia.
Qed.

Lemma round_half_even_near (num den : Z) :
  0 < den ->
  round_half_even num den = num / den \/
  (round_half_even num den = num / den + 1 /\ den <= 2 * (num mod den)).
Proof.
  intros Hden. unfold round_half_even.
  destruct (Z.compare_spec (2 * (num mod den)) den) as [Heq | Hlt | Hgt].
  - destruct (Z.even (num / den)); [now left | right; split; lia].
  - now left.
  - right; split; lia.
Qed.

Lemma round_half_even_bounds (num den bound : Z) :
  0 < den -> 0 <= num <= bound * den ->
  0 <= round_half_even num den <= bound.
Proof.
  intros Hden [Hlo Hhi].
  pose proof (Z.div_mod num den ltac:(lia)) as Hdm.
  pose proof (Z.mod_pos_bound num den Hden) as Hmod.
  assert (0 <= num / den) by (apply Z.div_pos; lia).
  destruct (round_half_even_near num den Hden) as [-> | [-> Hup]].
  - split; [lia |]. apply Z.div_le_upper_bound; lia.
  - split; [lia |].
    assert (num / den < bound); [| lia].
    apply Z.div_lt_upper_bound; [lia |].
    assert (num <> bound * den); [| lia].
    intros ->. rewrite Z_mod_mult in Hup. lia.
Qed.

(** ** Integers rounded to 53 bits *)

Lemma threshold_value : float_overflow_threshold = (2 ^ 54 - 1) * 2 ^ 970.
Proof. reflexivity. Qed.

Lemma round_to_53_bits_spec (p : positive) :
  let '(m, e) := round_to_53_bits p in
  2 ^ 52 <= m < 2 ^ 53 /\ -52 <= e /\
  (Z.pos p < float_overflow_threshold -> e <= 971).
Proof.
  unfold round_to_53_bits.
  pose proof (digits2_pos_bounds p) as [Hlo Hhi].
  set (d := Z.pos (digits2_pos p)) in *.
  assert (Hd : 1 <= d) by (subst d; lia).
  destruct (Z.leb_spec d 53) as [Hsmall | Hlarge].
  - assert (Hpow : 2 ^ (d - 1) * 2 ^ (53 - d) = 2 ^ 52)
      by (rewrite <- Z.pow_add_r by lia; f_equal; lia).
    assert (Hpow' : 2 ^ d * 2 ^ (53 - d) = 2 ^ 53)
      by (rewrite <- Z.pow_add_r by lia; f_equal; lia).
    assert (0 < 2 ^ (53 - d)) by (apply Z.pow_pos_nonneg; lia).
    repeat split; try lia; nia.
  - set (k := d - 53) in *. assert (Hk : 1 <= k) by lia.
    assert (Hden : 0 < 2 ^ k) by (apply Z.pow_pos_nonneg; lia).
    assert (Hpow : 2 ^ (d - 1) = 2 ^ 52 * 2 ^ k)
      by (rewrite <- Z.pow_add_r by lia; f_equal; lia).
    assert (Hpow' : 2 ^ d = 2 ^ 53 * 2 ^ k)
      by (rewrite <- Z.pow_add_r by lia; f_equal; lia).
    assert (Hq : 2 ^ 52 <= Z.pos p / 2 ^ k < 2 ^ 53).
    { split; [apply Z.div_le_lower_bound | apply Z.div_lt_upper_bound]; lia. }
    assert (Hbound : Z.pos p < float_overflow_threshold -> k <= 971).
    { intros HT. destruct (Z.le_gt_cases k 971) as [? | Hbig]; [assumption | exfalso].
      assert (2 ^ 1024 <= 2 ^ (d - 1)) by (apply Z.pow_le_mono_r; lia).
      assert (float_overflow_threshold < 2 ^ 1024) by reflexivity. lia. }
    destruct (round_half_even_near (Z.pos p) (2 ^ k) Hden) as [Hr | [Hr Hup]];
      rewrite Hr.
    + destruct (Z.eqb_spec (Z.pos p / 2 ^ k) (2 ^ 53)); [lia |].
      repeat split; try lia; exact Hbound.
    + destruct (Z.eqb_spec (Z.pos p / 2 ^ k + 1) (2 ^ 53)) as [Hcarry | Hnocarry].
      * repeat split; try lia. intros HT. specialize (Hbound HT).
        destruct (Z.eq_dec k 971) as [-> | ?]; [exfalso | lia].
        pose proof (Z.div_mod (Z.pos p) (2 ^ 971) ltac:(lia)) as Hdm.
        rewrite threshold_value in HT.
        change (2 ^ 971) with (2 * 2 ^ 970) in *.
        set (a := 2 ^ 970) in *. assert (0 < a) by reflexivity.
        change (2 ^ 53) with 9007199254740992 in *.
        change (2 ^ 54) with 18014398509481984 in *.
        nia.
      * repeat split; try lia; exact Hbound.
Qed.

(** ** Canonical binary64 values *)

Lemma fexp_normal (e : Z) : -1074 <= e -> fexp prec emax (53 + e) = e.
Proof. intros He. unfold fexp, SpecFloat.emin, prec, emax. lia. Qed.

Lemma valid_of_53_bits (s : bool) (m : positive) (e : Z) :
  2 ^ 52 <= Z.pos m < 2 ^ 53 -> -1074 <= e <= 971 ->
  valid_binary (S754_finite s m e) = true.
Proof.
  intros Hm He. unfold SpecFloat.valid_binary, bounded, canonical_mantissa.
  rewrite (digits2_pos_unique m 53) by exact Hm.
  rewrite fexp_normal by lia. rewrite Z.eqb_refl. simpl. apply Z.leb_le.
  unfold emax, prec. lia.
Qed.

(** What validity says about a finite value. *)
Lemma valid_finite_bounds (s : bool) (m : positive) (e : Z) :
  valid_binary (S754_finite s m e) = true ->
  Z.pos m < 2 ^ 53 /\ -1074 <= e <= 971.
Proof.
  unfold SpecFloat.valid_binary, bounded, canonical_mantissa.
  intros Hv. apply andb_true_iff in Hv as [Hc He].
  apply Z.eqb_eq in Hc. apply Z.leb_le in He.
  unfold fexp, SpecFloat.emin, prec, emax in *.
  pose proof (digits2_pos_bounds m) as [_ Hhi].
  assert (Z.pos (digits2_pos m) <= 53) by lia.
  assert (2 ^ Z.pos (digits2_pos m) <= 2 ^ 53) by (apply Z.pow_le_mono_r; lia).
  lia.
Qed.

Lemma Prim2SF_finite_bounds (x : float) (s : bool) (m : positive) (e : Z) :
  Prim2SF x = S754_finite s m e -> Z.pos m < 2 ^ 53 /\ -1074 <= e <= 971.
Proof.
  intros Hx. apply (valid_finite_bounds s). rewrite <- Hx. apply Prim2SF_valid.
Qed.

(** The float of a positive convertible integer: a normal positive
    double with an exponent of at least -52, that is, at least 1.0. *)
Lemma nearest_float_of_positive (n : Z) :
  1 <= n < float_overflow_threshold ->
  exists m e,
    Prim2SF (nearest_float_of_Z n) = S754_finite false m e
    /\ 2 ^ 52 <= Z.pos m < 2 ^ 53 /\ -52 <= e <= 971.
Proof.
  intros [Hlo Hhi]. destruct n as [| p | p]; try lia.
  unfold nearest_float_of_Z.
  pose proof (round_to_53_bits_spec p) as Hspec.
  destruct (round_to_53_bits p) as [m e]. destruct Hspec as (Hm & He & Hover).
  specialize (Hover Hhi).
  replace (e <=? emax - prec) with true by (symmetry; apply Z.leb_le; unfold emax, prec; lia).
  exists (Z.to_pos m), e.
  assert (Hpos : Z.pos (Z.to_pos m) = m) by (apply Z2Pos.id; lia).
  rewrite Prim2SF_SF2Prim; [rewrite Hpos; repeat split; lia |].
  apply valid_of_53_bits; [rewrite Hpos; lia | lia].
Qed.

Lemma Prim2SF_zero : Prim2SF 0 = S754_zero false.
Proof. reflexivity. Qed.

Lemma Prim2SF_one : Prim2SF 1 = S754_finite false 4503599627370496 (-52).
Proof. reflexivity. Qed.

Lemma nearest_float_of_positive_ge_1 (n : Z) :
  1 <= n < float_overflow_threshold ->
  PrimFloat.leb 1 (nearest_float_of_Z n) = true
  /\ PrimFloat.eqb (nearest_float_of_Z n) 0 = false.
Proof.
  intros Hn. destruct (nearest_float_of_positive n Hn) as (m & e & Hsf & Hm & He).
  rewrite FloatAxioms.leb_spec, FloatAxioms.eqb_spec, Hsf, Prim2SF_one, Prim2SF_zero.
  split; [| reflexivity].
  unfold SFleb, SFcompare.
  destruct (Z.compare_spec (-52) e) as [<- | Hlt | Hgt].
  - rewrite Pos.compare_cont_spec. unfold Pos.switch_Eq.
    change (2 ^ 52) with (Z.pos 4503599627370496) in Hm.
    destruct (Pos.compare_spec 4503599627370496 m) as [Heq | Hlt | Hgt]; try reflexivity.
    exfalso. apply Pos2Z.pos_lt_pos in Hgt. clear - Hm Hgt. lia.
  - reflexivity.
  - exfalso. clear - He Hgt. lia.
Qed.

(** ** Signs through the arithmetic *)

Lemma leb_0_nonneg (x : float) :
  PrimFloat.leb 0 x = SFnonneg (Prim2SF x).
Proof.
  rewrite FloatAxioms.leb_spec, Prim2SF_zero.
  destruct (Prim2SF x) as [s | s | | s m e]; try destruct s; reflexivity.
Qed.

Lemma ltb_0_positive (x : float) :
  PrimFloat.ltb 0 x = SFpositive (Prim2SF x).
Proof.
  rewrite FloatAxioms.ltb_spec, Prim2SF_zero.
  destruct (Prim2SF x) as [s | s | | s m e]; try destruct s; reflexivity.
Qed.

Lemma eqb_0_zero (x : float) :
  PrimFloat.eqb x 0 = match Prim2SF x with S754_zero _ => true | _ => false end.
Proof.
  rewrite FloatAxioms.eqb_spec, Prim2SF_zero.
  destruct (Prim2SF x) as [s | s | | s m e]; try destruct s; reflexivity.
Qed.

(** Shifting right keeps a mantissa non-negative. *)
Lemma iter_pos_invariant {T : Type} (P : T -> Prop) (f : T -> T) :
  (forall x, P x -> P (f x)) -> forall n x, P x -> P (SpecFloat.iter_pos f n x).
Proof.
  intros Hf. induction n as [n IH | n IH |]; intros x Hx; simpl; auto.
Qed.

Lemma shr_1_nonneg (mrs : shr_record) : 0 <= shr_m mrs -> 0 <= shr_m (shr_1 mrs).
Proof.
  destruct mrs as [m r s]. simpl. destruct m as [| [p | p |] | p]; simpl; lia.
Qed.

Lemma shr_fexp_nonneg (m e : Z) (l : location) :
  0 <= m -> 0 <= shr_m (fst (shr_fexp prec emax m e l)).
Proof.
  intros Hm. unfold shr_fexp, shr.
  assert (H0 : 0 <= shr_m (shr_record_of_loc m l)) by (destruct l as [| []]; exact Hm).
  destruct (fexp prec emax (Zdigits2 m + e) - e); simpl; try exact H0.
  apply (iter_pos_invariant (fun r => 0 <= shr_m r)); [apply shr_1_nonneg | exact H0].
Qed.

Lemma round_nearest_even_nonneg (m : Z) (l : location) :
  0 <= m -> 0 <= round_nearest_even m l.
Proof.
  intros Hm. destruct l as [| []]; simpl; try lia. destruct (Z.even m); lia.
Qed.

(** Rounding a non-negative mantissa gives a zero, a finite value or an
    infinity of the given sign, never NaN. *)
Lemma binary_round_aux_sign (s : bool) (m e : Z) (l : location) :
  0 <= m ->
  let r := binary_round_aux prec emax s m e l in
  r = S754_zero s \/ r = S754_infinity s \/ exists m' e', r = S754_finite s m' e'.
Proof.
  intros Hm. cbv zeta. unfold binary_round_aux.
  pose proof (shr_fexp_nonneg m e l Hm) as H1.
  destruct (shr_fexp prec emax m e l) as [mrs' e']. simpl in H1.
  pose proof (round_nearest_even_nonneg _ (loc_of_shr_record mrs') H1) as H2.
  pose proof (shr_fexp_nonneg _ e' loc_Exact H2) as H3.
  destruct (shr_fexp prec emax _ e' loc_Exact) as [mrs'' e'']. simpl in H3.
  destruct (shr_m mrs'') as [| p | p]; [now left | | lia].
  destruct (e'' <=? emax - prec); eauto.
Qed.

Lemma binary_round_aux_nonneg (m e : Z) (l : location) :
  0 <= m -> SFnonneg (binary_round_aux prec emax false m e l) = true.
Proof.
  intros Hm. destruct (binary_round_aux_sign false m e l Hm) as [-> | [-> | (m' & e' & ->)]];
    reflexivity.
Qed.

Lemma binary_round_nonneg (m : positive) (e : Z) :
  SFnonneg (binary_round prec emax false m e) = true.
Proof.
  unfold binary_round. destruct (shl_align _ _ _) as [mz ez].
  apply binary_round_aux_nonneg. lia.
Qed.

Lemma SFmul_nonneg (mc : positive) (ec : Z) (y : spec_float) :
  SFnonneg y = true -> SFnonneg (SF64mul (S754_finite false mc ec) y) = true.
Proof.
  destruct y as [s | [] | | [] m e]; try discriminate; intros _; simpl; try reflexivity.
  apply binary_round_aux_nonneg. lia.
Qed.

Lemma SFadd_nonneg (x y : spec_float) :
  SFnonneg x = true -> SFnonneg y = true -> SFnonneg (SF64add x y) = true.
Proof.
  destruct x as [sx | [] | | [] mx ex]; try discriminate;
    destruct y as [sy | [] | | [] my ey]; try discriminate; intros _ _;
    try reflexivity.
  - destruct sx, sy; reflexivity.
  - unfold SF64add, SFadd. simpl cond_Zopp.
    apply binary_round_nonneg.
Qed.

Lemma SFdiv_core_nonneg (m1 : positive) (e1 : Z) (m2 : positive) (e2 : Z) :
  0 <= fst (fst (SFdiv_core_binary prec emax (Z.pos m1) e1 (Z.pos m2) e2)).
Proof.
  unfold SFdiv_core_binary.
  set (s := e1 - e2 - _).
  set (m' := match s with Z.pos _ => Z.shiftl (Z.pos m1) s | 0 => Z.pos m1 | Z.neg _ => 0 end).
  assert (Hm' : 0 <= m').
  { subst m'. destruct s; try lia. apply Z.shiftl_nonneg. lia. }
  pose proof (Z_div_mod m' (Z.pos m2) ltac:(lia)) as Hdm.
  destruct (Z.div_eucl m' (Z.pos m2)) as [q r]. simpl. nia.
Qed.

(** The quotient of two positive finite values, of whatever mantissas. *)
Lemma SFdiv_finite_nonneg (m1 : positive) (e1 : Z) (m2 : positive) (e2 : Z) :
  SFnonneg (SF64div (S754_finite false m1 e1) (S754_finite false m2 e2)) = true.
Proof.
  unfold SF64div, SFdiv.
  pose proof (SFdiv_core_nonneg m1 e1 m2 e2) as Hq.
  destruct (SFdiv_core_binary prec emax (Z.pos m1) e1 (Z.pos m2) e2) as [[q e] l].
  simpl in Hq. now apply binary_round_aux_nonneg.
Qed.

(** A non-negative value divided by a positive finite one. *)
Lemma SFdiv_nonneg (x : spec_float) (m2 : positive) (e2 : Z) :
  SFnonneg x = true -> SFnonneg (SF64div x (S754_finite false m2 e2)) = true.
Proof.
  destruct x as [sx | [] | | [] mx ex]; try discriminate; intros _.
  - reflexivity.
  - reflexivity.
  - apply SFdiv_finite_nonneg.
Qed.

(** Back from a specification value to the primitive float: the sign is
    kept, whatever the mantissa. *)
Lemma SF2Prim_nonneg (x : spec_float) :
  SFnonneg x = true -> SFnonneg (Prim2SF (SF2Prim x)) = true.
Proof.
  destruct x as [[] | [] | | [] m e]; try discriminate; intros _; try reflexivity.
  unfold SF2Prim. rewrite Z_ldexp_spec, of_uint63_spec.
  pose proof (to_Z_bounded (of_Z (Z.pos m))) as [Hlo _].
  destruct (φ (of_Z (Z.pos m)))%uint63 as [| p | p]; [reflexivity | | lia].
  simpl binary_normalize.
  pose proof (binary_round_nonneg p 0) as Hr.
  destruct (binary_round prec emax false p 0) as [s | [] | | [] m' e']; try discriminate;
    try reflexivity.
  apply binary_round_nonneg.
Qed.

Lemma nearest_float_of_nonneg (z : Z) :
  0 <= z < float_overflow_threshold ->
  SFnonneg (Prim2SF (nearest_float_of_Z z)) = true.
Proof.
  intros Hz. destruct (Z.eq_dec z 0) as [-> | Hne]; [reflexivity |].
  destruct (nearest_float_of_positive z ltac:(lia)) as (m & e & -> & _). reflexivity.
Qed.

Lemma nearest_float_of_quotient_nonneg (a b : Z) :
  0 <= a -> 0 < b -> SFnonneg (Prim2SF (nearest_float_of_quotient a b)) = true.
Proof.
  intros Ha Hb. destruct a as [| p | p], b as [| q | q]; try lia; try reflexivity.
  unfold nearest_float_of_quotient. apply SF2Prim_nonneg, SFdiv_finite_nonneg.
Qed.

Lemma is_nonneg_float (x : float) :
  is_nonneg (PFloat x) = true -> SFnonneg (Prim2SF x) = true.
Proof. simpl. now rewrite leb_0_nonneg. Qed.

(** A non-negative number divided by a positive finite float. *)
Lemma truediv_by_float_nonneg (v : pyval) (c q : float) (mc : positive) (ec : Z) :
  is_nonneg v = true -> Prim2SF c = S754_finite false mc ec ->
  truediv v (PFloat c) = Ok q -> SFnonneg (Prim2SF q) = true.
Proof.
  intros Hv Hc. destruct v as [| s | z | x]; try discriminate; simpl.
  - unfold float_of_int. destruct (Z.ltb_spec (Z.abs z) float_overflow_threshold); [| discriminate].
    simpl. unfold float_truediv. destruct (PrimFloat.eqb c 0); [discriminate |].
    intros [= <-]. rewrite FloatAxioms.div_spec, Hc. apply SFdiv_nonneg, nearest_float_of_nonneg.
    simpl in Hv. apply Z.leb_le in Hv. lia.
  - unfold float_truediv. destruct (PrimFloat.eqb c 0); [discriminate |].
    intros [= <-]. rewrite FloatAxioms.div_spec, Hc. now apply SFdiv_nonneg, is_nonneg_float.
Qed.

(** A non-negative number divided by a positive int. *)
Lemma truediv_by_int_nonneg (v : pyval) (k : Z) (q : float) :
  is_nonneg v = true -> 1 <= k ->
  truediv v (PInt k) = Ok q -> SFnonneg (Prim2SF q) = true.
Proof.
  intros Hv Hk. destruct v as [| s | z | x]; try discriminate; simpl.
  - destruct (k =? 0); [discriminate |].
    destruct (_ <=? _); [discriminate |]. intros [= <-].
    simpl in Hv. apply Z.leb_le in Hv. apply nearest_float_of_quotient_nonneg; lia.
  - unfold float_of_int. destruct (Z.ltb_spec (Z.abs k) float_overflow_threshold); [| discriminate].
    simpl. unfold float_truediv. destruct (PrimFloat.eqb _ 0); [discriminate |].
    intros [= <-]. rewrite FloatAxioms.div_spec.
    destruct (nearest_float_of_positive k ltac:(lia)) as (m & e & -> & _).
    now apply SFdiv_nonneg, is_nonneg_float.
Qed.

Lemma max_1_nonneg (v v' : pyval) :
  max_1 v = Ok v' -> is_nonneg v = true -> is_nonneg v' = true.
Proof.
  destruct v as [| s | z | x]; try discriminate; simpl.
  - destruct (1 <? z); intros [= <-]; auto.
  - destruct (1 <? x)%float; intros [= <-]; auto.
Qed.

Lemma min_1_nonneg (y : float) :
  SFnonneg (Prim2SF y) = true -> SFnonneg (Prim2SF (min_1 y)) = true.
Proof. intros Hy. unfold min_1. destruct (y <? 1)%float; [exact Hy | reflexivity]. Qed.

Lemma min_1_le_1 (y : float) : PrimFloat.leb (min_1 y) 1 = true.
Proof.
  unfold min_1. destruct (y <? 1)%float eqn:Hlt; [| reflexivity].
  rewrite FloatAxioms.ltb_spec in Hlt. rewrite FloatAxioms.leb_spec.
  unfold SFltb in Hlt. unfold SFleb.
  destruct (SFcompare (Prim2SF y) (Prim2SF 1)) as [[] |]; try discriminate. reflexivity.
Qed.

(** ** [round] on the unit interval *)

Lemma float_of_decimal_unit_interval (r : Z) :
  0 <= r <= 10000 -> in_unit_interval (float_of_decimal false r 4) = true.
Proof.
  intros Hr.
  assert (Hall : forallb (fun n => in_unit_interval (float_of_decimal false (Z.of_nat n) 4))
                   (seq 0 (Z.to_nat 10001)) = true) by (vm_compute; reflexivity).
  rewrite forallb_forall in Hall.
  specialize (Hall (Z.to_nat r)). rewrite Z2Nat.id in Hall by lia.
  apply Hall, in_seq. lia.
Qed.

(** A positive finite value that compares [<= 1.0]. *)
Lemma SFleb_one_bounds (m : positive) (e : Z) :
  SFleb (S754_finite false m e) (S754_finite false 4503599627370496 (-52)) = true ->
  Z.pos m < 2 ^ 53 ->
  e <= -52 /\ Z.pos m <= 2 ^ (- e).
Proof.
  unfold SFleb, SFcompare.
  destruct (Z.compare_spec e (-52)) as [-> | Hlt | Hgt].
  - rewrite Pos.compare_cont_spec. unfold Pos.switch_Eq.
    change (2 ^ (- -52)) with (Z.pos 4503599627370496).
    destruct (Pos.compare_spec m 4503599627370496) as [-> | Hlt | Hgt];
      intros Hle _; try discriminate Hle; (split; [apply Z.le_refl |]).
    + apply Z.le_refl.
    + apply Z.lt_le_incl, Pos2Z.pos_lt_pos, Hlt.
  - intros _ Hm. split; [lia |].
    assert (2 ^ 53 <= 2 ^ (- e)) by (apply Z.pow_le_mono_r; lia). lia.
  - discriminate.
Qed.

Lemma round_4_unit_interval (x : float) :
  SFnonneg (Prim2SF x) = true -> PrimFloat.leb x 1 = true ->
  in_unit_interval (round x 4) = true.
Proof.
  intros Hnonneg Hle. unfold round.
  destruct (Prim2SF x) as [s | s | | s m e] eqn:Hx.
  1-3: unfold in_unit_interval; rewrite leb_0_nonneg, Hx, Hnonneg, Hle; reflexivity.
  destruct s; [discriminate |].
  destruct (Prim2SF_finite_bounds x _ _ _ Hx) as [Hm He].
  rewrite FloatAxioms.leb_spec, Hx, Prim2SF_one in Hle.
  destruct (SFleb_one_bounds m e Hle Hm) as [He' Hm'].
  clear Hle Hx Hnonneg.
  replace (0 <=? e) with false by (symmetry; apply Z.leb_gt; lia).
  apply float_of_decimal_unit_interval.
  change (10 ^ Z.of_N 4) with 10000.
  apply round_half_even_bounds; [apply Z.pow_pos_nonneg; lia | lia].
Qed.

(* ===================================================================== *)
(** * 9. The heuristic predictor                                      *)
(* ===================================================================== *)

Lemma threshold_positive : 0 < float_overflow_threshold.
Proof. reflexivity. Qed.

Lemma float_of_int_convertible (z : Z) :
  float_convertible (PInt z) = true -> float_of_int z = Ok (nearest_float_of_Z z).
Proof. unfold float_convertible, float_of_int. now intros ->. Qed.

(** Division of a convertible number by a float constant that is not zero. *)
Lemma truediv_by_float (v : pyval) (c : float) :
  float_convertible v = true -> PrimFloat.eqb c 0 = false ->
  exists x, truediv v (PFloat c) = Ok x.
Proof.
  intros Hv Hc. destruct v as [| s | z | x]; try discriminate; simpl.
  - rewrite (float_of_int_convertible z Hv). simpl. unfold float_truediv. rewrite Hc. eauto.
  - unfold float_truediv. rewrite Hc. eauto.
Qed.

(** Division of a convertible number by a non-zero int constant whose
    float is not zero either. *)
Lemma truediv_by_int (v : pyval) (k : Z) :
  float_convertible v = true ->
  0 < k < float_overflow_threshold ->
  PrimFloat.eqb (nearest_float_of_Z k) 0 = false ->
  exists x, truediv v (PInt k) = Ok x.
Proof.
  intros Hv Hk Hc. pose proof threshold_positive as HT.
  destruct v as [| s | z | x]; try discriminate; simpl.
  - simpl in Hv. apply Z.ltb_lt in Hv.
    replace (k =? 0) with false by (symmetry; apply Z.eqb_neq; lia).
    replace (float_overflow_threshold * Z.abs k <=? Z.abs z) with false; [eauto |].
    symmetry. apply Z.leb_gt. nia.
  - unfold float_of_int.
    replace (Z.abs k <? float_overflow_threshold) with true by (symmetry; apply Z.ltb_lt; lia).
    simpl. unfold float_truediv. rewrite Hc. eauto.
Qed.

Lemma max_1_convertible (v : pyval) :
  float_convertible v = true ->
  exists v', max_1 v = Ok v' /\ float_convertible v' = true.
Proof.
  destruct v as [| s | z | x]; try discriminate; intros Hv; simpl.
  - destruct (1 <? z); eauto.
  - destruct (1 <? x)%float; eauto.
Qed.

(** C1 (amended). For every feature mapping whose progress, participant
    count and days active (each defaulting when missing: 0, 0 and 1) are
    numbers that convert to float, the success branch returns
    [round(min(1.0, 0.6*(progress/100) + 0.3*min(1, participant_count/10)
    + 0.1*min(1, d/30)), 4)] with confidence [0.5], where [d] is
    [max(1, days_active)]: the days are clamped from below at 1 before they
    are used, so [d] is [days_active] itself for an integer of at least 1.
    For [{progress: 30, participant_count: 6, days_active: 15}] the result
    is [(0.41, 0.5)]. *)
Theorem success_prediction_formula (f : features) :
  let progress := get f "progress" (PInt 0) in
  let participant_count := get f "participant_count" (PInt 0) in
  let days_active := get f "days_active" (PInt 1) in
  (float_convertible progress = true ->
   float_convertible participant_count = true ->
   float_convertible days_active = true ->
   exists clamped value,
     max_1 days_active = Ok clamped
     /\ (forall z, days_active = PInt z -> 1 <= z -> clamped = days_active)
     /\ _heuristic_predict "success_prediction" f = Ok (value, 0.5%float)
     /\ success_formula progress participant_count clamped = Ok (value, 0.5%float))
  /\ _heuristic_predict "success_prediction" example_features = Ok (0.41%float, 0.5%float).
Proof.
  cbv zeta. split; [| reflexivity].
  intros Hp Hc Hd.
  destruct (max_1_convertible _ Hd) as (clamped & Hmax & Hclamped).
  destruct (truediv_by_float _ 100 Hp eq_refl) as (ratio & Hratio).
  destruct (truediv_by_int _ 10 Hc ltac:(split; reflexivity) eq_refl) as (by_ten & Hten).
  destruct (truediv_by_int _ 30 Hclamped ltac:(split; reflexivity) eq_refl)
    as (by_thirty & Hthirty).
  exists clamped. eexists. split; [exact Hmax |]. split.
  { intros z Hz Hge. rewrite Hz in Hmax |- *. simpl in Hmax.
    destruct (Z.ltb_spec 1 z); injection Hmax as <-; [reflexivity | f_equal; lia]. }
  unfold _heuristic_predict, success_formula, mbind, res_bind.
  simpl String.eqb. cbv iota.
  rewrite Hratio, Hmax. cbv beta iota. rewrite Hten. cbv beta iota. rewrite Hthirty.
  split; reflexivity.
Qed.

Lemma Prim2SF_0_6 : Prim2SF 0.6 = S754_finite false 5404319552844595 (-53).
Proof. reflexivity. Qed.
Lemma Prim2SF_0_3 : Prim2SF 0.3 = S754_finite false 5404319552844595 (-54).
Proof. reflexivity. Qed.
Lemma Prim2SF_0_1 : Prim2SF 0.1 = S754_finite false 7205759403792794 (-56).
Proof. reflexivity. Qed.
Lemma Prim2SF_100 : Prim2SF 100 = S754_finite false 7036874417766400 (-46).
Proof. reflexivity. Qed.

(** The weighted score of non-negative terms is non-negative. *)
Lemma score_nonneg (ratio by_ten by_thirty : float) :
  SFnonneg (Prim2SF ratio) = true ->
  SFnonneg (Prim2SF by_ten) = true ->
  SFnonneg (Prim2SF by_thirty) = true ->
  SFnonneg (Prim2SF (0.6 * ratio + 0.3 * min_1 by_ten + 0.1 * min_1 by_thirty)%float) = true.
Proof.
  intros Hr Ht Hh.
  rewrite !FloatAxioms.add_spec, !FloatAxioms.mul_spec, Prim2SF_0_6, Prim2SF_0_3, Prim2SF_0_1.
  repeat apply SFadd_nonneg; apply SFmul_nonneg; auto using min_1_nonneg.
Qed.

(** Division of a number by a positive int constant: it succeeds when the
    quotient fits, and overflows otherwise. *)
Lemma truediv_by_int_fits (v : pyval) (k : Z) :
  quotient_fits v k = true ->
  0 < k < float_overflow_threshold ->
  PrimFloat.eqb (nearest_float_of_Z k) 0 = false ->
  exists x, truediv v (PInt k) = Ok x.
Proof.
  intros Hv Hk Hc.
  destruct v as [| s | z | x]; try discriminate; simpl.
  - simpl in Hv. apply Z.ltb_lt in Hv.
    replace (k =? 0) with false by (symmetry; apply Z.eqb_neq; lia).
    replace (float_overflow_threshold * Z.abs k <=? Z.abs z) with false; [eauto |].
    symmetry. apply Z.leb_gt. rewrite (Z.abs_eq k) by lia. exact Hv.
  - unfold float_of_int.
    replace (Z.abs k <? float_overflow_threshold) with true by (symmetry; apply Z.ltb_lt; lia).
    simpl. unfold float_truediv. rewrite Hc. eauto.
Qed.

Lemma truediv_by_int_overflows (v : pyval) (k : Z) :
  is_nonneg v = true -> quotient_fits v k = false -> 0 < k ->
  truediv v (PInt k) = Raise OverflowError.
Proof.
  intros Hn Hv Hk. destruct v as [| s | z | x]; try discriminate. simpl.
  simpl in Hv. apply Z.ltb_ge in Hv.
  replace (k =? 0) with false by (symmetry; apply Z.eqb_neq; lia).
  replace (float_overflow_threshold * Z.abs k <=? Z.abs z) with true; [reflexivity |].
  symmetry. apply Z.leb_le. rewrite (Z.abs_eq k) by lia. exact Hv.
Qed.

Lemma truediv_by_float_overflows (v : pyval) (c : float) :
  is_nonneg v = true -> float_convertible v = false ->
  truediv v (PFloat c) = Raise OverflowError.
Proof.
  intros Hn Hv. destruct v as [| s | z | x]; try discriminate. simpl.
  unfold float_of_int. simpl in Hv. now rewrite Hv.
Qed.

(** [max(1, v)] on a non-negative number: a non-negative number again,
    whose quotient by a positive int fits exactly when that of [v] does. *)
Lemma max_1_fits (v : pyval) (k : Z) :
  is_nonneg v = true -> 0 < k ->
  exists v', max_1 v = Ok v' /\ is_nonneg v' = true
             /\ quotient_fits v' k = quotient_fits v k.
Proof.
  intros Hn Hk.
  assert (HT : 1 < float_overflow_threshold) by reflexivity.
  assert (Hone : quotient_fits (PInt 1) k = true).
  { unfold quotient_fits. apply Z.ltb_lt. change (Z.abs 1) with 1. nia. }
  destruct v as [| s | z | x]; try discriminate; simpl max_1.
  - destruct (Z.ltb_spec 1 z) as [Hz | Hz]; eexists; (split; [reflexivity |]).
    + split; [exact Hn | reflexivity].
    + split; [reflexivity |]. rewrite Hone. symmetry. unfold quotient_fits.
      apply Z.ltb_lt. unfold is_nonneg in Hn. apply Z.leb_le in Hn.
      rewrite Z.abs_eq by exact Hn. nia.
  - destruct (PrimFloat.ltb 1 x); eexists; (split; [reflexivity |]).
    + split; [exact Hn | reflexivity].
    + split; [reflexivity | exact Hone].
Qed.

(** C8 (amended). For every feature mapping whose progress, participant
    count and days active are non-negative numbers: when the progress
    converts to float (any float, plus infinity included, and any int below
    the overflow threshold) and the participant count and the days active
    are floats or ints below 10 times and 30 times the threshold, the
    success branch returns a value in the closed interval from 0 to 1, with
    confidence exactly [0.5]; otherwise, the progress or one of the two
    quotients being too large for a float, it raises [OverflowError]. *)
Theorem success_prediction_unit_interval (f : features) :
  let progress := get f "progress" (PInt 0) in
  let participant_count := get f "participant_count" (PInt 0) in
  let days_active := get f "days_active" (PInt 1) in
  is_nonneg progress = true ->
  is_nonneg participant_count = true ->
  is_nonneg days_active = true ->
  (float_convertible progress = true ->
   quotient_fits participant_count 10 = true ->
   quotient_fits days_active 30 = true ->
   exists value,
     _heuristic_predict "success_prediction" f = Ok (value, 0.5%float)
     /\ PrimFloat.leb 0 value = true /\ PrimFloat.leb value 1 = true)
  /\ (float_convertible progress && quotient_fits participant_count 10
        && quotient_fits days_active 30 = false ->
      _heuristic_predict "success_prediction" f = Raise OverflowError).
Proof.
  cbv zeta. intros Hp Hc Hd.
  destruct (max_1_fits _ 30 Hd ltac:(lia)) as (clamped & Hmax & Hclamped & Hfits).
  assert (Hrun : _heuristic_predict "success_prediction" f =
            (ratio ← truediv (get f "progress" (PInt 0)) (PFloat 100);
             by_ten ← truediv (get f "participant_count" (PInt 0)) (PInt 10);
             by_thirty ← truediv clamped (PInt 30);
             Ok (round (min_1 (0.6 * ratio + 0.3 * min_1 by_ten
                               + 0.1 * min_1 by_thirty)%float) 4, 0.5%float))).
  { unfold _heuristic_predict, mbind, res_bind. simpl String.eqb. cbv iota.
    rewrite Hmax. reflexivity. }
  rewrite Hrun. unfold mbind, res_bind. split.
  - intros Hp' Hc' Hd'. rewrite <- Hfits in Hd'.
    destruct (truediv_by_float _ 100 Hp' eq_refl) as (ratio & Hratio).
    destruct (truediv_by_int_fits _ 10 Hc' ltac:(split; reflexivity) eq_refl)
      as (by_ten & Hten).
    destruct (truediv_by_int_fits _ 30 Hd' ltac:(split; reflexivity) eq_refl)
      as (by_thirty & Hthirty).
    pose proof (truediv_by_float_nonneg _ _ _ _ _ Hp Prim2SF_100 Hratio) as Hr.
    pose proof (truediv_by_int_nonneg _ 10 _ Hc ltac:(lia) Hten) as Ht.
    pose proof (truediv_by_int_nonneg _ 30 _ Hclamped ltac:(lia) Hthirty) as Hh.
    pose proof (round_4_unit_interval _
                  (min_1_nonneg _ (score_nonneg _ _ _ Hr Ht Hh)) (min_1_le_1 _)) as Hunit.
    apply andb_true_iff in Hunit.
    eexists. split; [| exact Hunit].
    rewrite Hratio, Hten, Hthirty. reflexivity.
  - intros Hover.
    destruct (float_convertible (get f "progress" (PInt 0))) eqn:Hp';
      [| now rewrite (truediv_by_float_overflows _ _ Hp Hp')].
    destruct (truediv_by_float _ 100 Hp' eq_refl) as (ratio & ->).
    destruct (quotient_fits (get f "participant_count" (PInt 0)) 10) eqn:Hc';
      [| now rewrite (truediv_by_int_overflows _ 10 Hc Hc' ltac:(lia))].
    destruct (truediv_by_int_fits _ 10 Hc' ltac:(split; reflexivity) eq_refl)
      as (by_ten & ->).
    simpl in Hover. rewrite <- Hfits in Hover.
    now rewrite (truediv_by_int_overflows _ 30 Hclamped Hover ltac:(lia)).
Qed.

(** ** The price suggestion *)

Lemma is_positive_nonneg (v : pyval) : is_positive v = true -> is_nonneg v = true.
Proof.
  destruct v as [| s | z | x]; try discriminate; simpl.
  - intros Hz. apply Z.ltb_lt in Hz. apply Z.leb_le. lia.
  - rewrite ltb_0_positive, leb_0_nonneg.
    destruct (Prim2SF x) as [s | s | | s m e]; try discriminate; auto.
Qed.

(** Rounding to decimals keeps a non-negative float non-negative. *)
Lemma round_nonneg (x : float) (ndigits : N) :
  SFnonneg (Prim2SF x) = true -> PrimFloat.leb 0 (round x ndigits) = true.
Proof.
  intros Hx. rewrite leb_0_nonneg. unfold round.
  destruct (Prim2SF x) as [s | s | | s m e] eqn:Heq; try (rewrite Heq; exact Hx).
  destruct s; [discriminate |].
  unfold float_of_decimal.
  destruct (if 0 <=? e then _ else _) as [| p | p]; try reflexivity.
  apply SF2Prim_nonneg, SFdiv_finite_nonneg.
Qed.

(** [max(1, n)] on a convertible int: an int of at least one, still
    convertible. *)
Lemma max_1_int (n : Z) :
  float_convertible (PInt n) = true ->
  exists n', max_1 (PInt n) = Ok (PInt n') /\ n' = Z.max 1 n
             /\ 1 <= n' < float_overflow_threshold.
Proof.
  simpl. intros Hn. apply Z.ltb_lt in Hn. exists (Z.max 1 n).
  pose proof threshold_positive.
  assert (1 < float_overflow_threshold) by reflexivity.
  destruct (Z.ltb_spec 1 n); (split; [f_equal; f_equal; lia | split; lia]).
Qed.

(** Division by an int of at least one never fails on convertible
    numbers. *)
Lemma truediv_by_positive_int (v : pyval) (k : Z) :
  float_convertible v = true -> 1 <= k < float_overflow_threshold ->
  exists q, truediv v (PInt k) = Ok q.
Proof.
  intros Hv Hk. apply truediv_by_int; [exact Hv | lia |].
  apply nearest_float_of_positive_ge_1, Hk.
Qed.

(** C7 (amended). For every kind other than the first two, a positive
    target amount and an integer participant count (both convertible to
    float), the predictor returns
    [round(target_amount / max(1, participant_count), 2)] with confidence
    [0.35], and this value is non-negative (it is [0.0] when the quotient
    rounds to no hundredth). *)
Theorem price_suggestion_nonneg (kind : string) (f : features) :
  let target_amount := get f "target_amount" (PInt 1000) in
  let participant_count := get f "participant_count" (PInt 1) in
  kind <> "success_prediction" -> kind <> "demand_forecast" ->
  is_positive target_amount = true -> float_convertible target_amount = true ->
  is_int participant_count = true -> float_convertible participant_count = true ->
  exists participants quotient,
    max_1 participant_count = Ok participants
    /\ truediv target_amount participants = Ok quotient
    /\ _heuristic_predict kind f = Ok (round quotient 2, 0.35%float)
    /\ price_formula target_amount participant_count = Ok (round quotient 2, 0.35%float)
    /\ PrimFloat.leb 0 (round quotient 2) = true.
Proof.
  cbv zeta. intros Hk1 Hk2 Ht Ht' Hi Hc.
  destruct (get f "participant_count" (PInt 1)) as [| s | n | x] eqn:Hpc; try discriminate.
  destruct (max_1_int n Hc) as (n' & Hmax & _ & Hn').
  destruct (truediv_by_positive_int _ n' Ht' Hn') as (q & Hq).
  exists (PInt n'), q. split; [exact Hmax |]. split; [exact Hq |].
  pose proof (truediv_by_int_nonneg _ n' _ (is_positive_nonneg _ Ht) ltac:(lia) Hq) as Hnonneg.
  repeat split.
  - unfold _heuristic_predict, mbind, res_bind.
    destruct (String.eqb_spec kind ModelType.SUCCESS_PREDICTION); [contradiction |].
    destruct (String.eqb_spec kind ModelType.DEMAND_FORECAST); [contradiction |].
    rewrite Hpc, Hmax, Hq. reflexivity.
  - unfold price_formula, mbind, res_bind. rewrite Hmax, Hq. reflexivity.
  - now apply round_nonneg.
Qed.

(** ** The demand estimate *)

Lemma SFdiv_nonneg_or_nan (x y : spec_float) :
  SFnonneg_or_nan x = true -> SFpositive y = true ->
  SFnonneg_or_nan (SF64div x y) = true.
Proof.
  unfold SFnonneg_or_nan.
  destruct y as [sy | [] | | [] my ey]; try discriminate; intros Hx _.
  - destruct x as [sx | [] | | [] mx ex]; try discriminate; reflexivity.
  - destruct x as [sx | [] | | [] mx ex]; try discriminate; try reflexivity.
    rewrite SFdiv_finite_nonneg. reflexivity.
Qed.

Lemma nonneg_truthy_positive (x : float) :
  is_nonneg (PFloat x) = true -> truthy (PFloat x) = true ->
  SFpositive (Prim2SF x) = true.
Proof.
  simpl. rewrite leb_0_nonneg, eqb_0_zero.
  destruct (Prim2SF x) as [s | s | | s m e]; try discriminate; auto.
Qed.

(** The estimated units: the division succeeds, and its result is
    non-negative or NaN. *)
Lemma estimated_units_ok (target price : pyval) :
  is_nonneg target = true -> float_convertible target = true ->
  is_nonneg price = true -> float_convertible price = true ->
  exists units,
    truediv target (or_ price (PInt 1)) = Ok units
    /\ SFnonneg_or_nan (Prim2SF units) = true.
Proof.
  intros Ht Ht' Hp Hp'. unfold or_, SFnonneg_or_nan.
  destruct (truthy price) eqn:Htruthy.
  - destruct price as [| s | y | y]; try discriminate.
    + simpl in Hp, Hp', Htruthy.
      apply Z.leb_le in Hp. apply Z.ltb_lt in Hp'. apply negb_true_iff, Z.eqb_neq in Htruthy.
      destruct (truediv_by_positive_int target y Ht' ltac:(lia)) as (units & Hunits).
      exists units. split; [exact Hunits |].
      now rewrite (truediv_by_int_nonneg _ y _ Ht ltac:(lia) Hunits).
    + pose proof (nonneg_truthy_positive y Hp Htruthy) as Hpos.
      simpl in Htruthy. apply negb_true_iff in Htruthy.
      destruct (truediv_by_float target y Ht' Htruthy) as (units & Hunits).
      exists units. split; [exact Hunits |].
      destruct target as [| s | z | x]; try discriminate; simpl in Hunits.
      * unfold float_of_int in Hunits.
        destruct (Z.ltb_spec (Z.abs z) float_overflow_threshold); [| discriminate].
        simpl in Hunits. unfold float_truediv in Hunits. rewrite Htruthy in Hunits.
        injection Hunits as <-. rewrite FloatAxioms.div_spec.
        apply SFdiv_nonneg_or_nan; [| exact Hpos].
        unfold SFnonneg_or_nan. rewrite nearest_float_of_nonneg; [reflexivity |].
        simpl in Ht. apply Z.leb_le in Ht. lia.
      * unfold float_truediv in Hunits. rewrite Htruthy in Hunits.
        injection Hunits as <-. rewrite FloatAxioms.div_spec.
        apply SFdiv_nonneg_or_nan; [| exact Hpos].
        unfold SFnonneg_or_nan. now rewrite (is_nonneg_float x Ht).
  - destruct (truediv_by_positive_int target 1 Ht' ltac:(split; [lia | reflexivity]))
      as (units & Hunits).
    exists units. split; [exact Hunits |].
    now rewrite (truediv_by_int_nonneg _ 1 _ Ht ltac:(lia) Hunits).
Qed.

Lemma Prim2SF_5 : Prim2SF (nearest_float_of_Z 5) = S754_finite false 5629499534213120 (-50).
Proof. reflexivity. Qed.

Lemma fifth_ok (units : float) :
  SFnonneg_or_nan (Prim2SF units) = true ->
  exists fifth,
    truediv (PFloat units) (PInt 5) = Ok fifth
    /\ SFnonneg_or_nan (Prim2SF fifth) = true.
Proof.
  intros Hu. exists (units / nearest_float_of_Z 5)%float. split; [reflexivity |].
  rewrite FloatAxioms.div_spec, Prim2SF_5. now apply SFdiv_nonneg_or_nan.
Qed.

(** The whole part of a finite non-negative float: [int] and [floor]
    agree on it, and it converts back to a float. *)
Lemma whole_part_ok (x : float) :
  SFnonneg_or_nan (Prim2SF x) = true -> is_finite x = true ->
  exists whole,
    int_of_float x = Ok whole /\ floor_of_float x = Ok whole
    /\ 0 <= whole < float_overflow_threshold.
Proof.
  unfold SFnonneg_or_nan, is_finite, int_of_float, floor_of_float.
  destruct (Prim2SF x) as [s | s | | s m e] eqn:Hx; try discriminate; intros Hs _.
  - exists 0. repeat split; reflexivity.
  - destruct s; [discriminate |].
    destruct (Prim2SF_finite_bounds x _ _ _ Hx) as [Hm He]. clear Hx Hs.
    destruct (Z.leb_spec 0 e) as [Hpos | Hneg].
    + exists (Z.pos m * 2 ^ e). repeat split.
      * apply Z.mul_nonneg_nonneg; [lia | apply Z.pow_nonneg; lia].
      * rewrite threshold_value.
        assert (2 ^ e <= 2 ^ 971) by (apply Z.pow_le_mono_r; lia).
        assert (0 < 2 ^ e) by (apply Z.pow_pos_nonneg; lia).
        change (2 ^ 971) with (2 * 2 ^ 970) in *. set (a := 2 ^ 970) in *.
        assert (0 < a) by reflexivity.
        change (2 ^ 53) with 9007199254740992 in *.
        change (2 ^ 54) with 18014398509481984 in *.
        nia.
    + exists (Z.pos m / 2 ^ (- e)).
      assert (0 < 2 ^ (- e)) by (apply Z.pow_pos_nonneg; lia).
      repeat split.
      * apply Z.div_pos; lia.
      * assert (Z.pos m / 2 ^ (- e) <= Z.pos m)
          by (apply Z.div_le_upper_bound; [lia | nia]).
        assert (2 ^ 53 < float_overflow_threshold) by reflexivity. lia.
Qed.

Lemma not_finite_no_whole_part (x : float) :
  is_finite x = false ->
  int_of_float x = Raise OverflowError \/ int_of_float x = Raise Py.ValueError.
Proof.
  unfold is_finite, int_of_float.
  destruct (Prim2SF x) as [s | s | | s m e]; try discriminate; auto.
Qed.

(** C6 (amended). For non-negative target amount and price per unit that
    convert to float, the two divisions of the demand branch succeed; when
    the fifth of the quotient is a finite float the branch returns
    [float(max(1, floor((target_amount / (price_per_unit or 1)) / 5)))],
    a value of at least [1.0], with confidence [0.4]; when it is not finite
    (the float quotient overflowed, or was infinity by infinity) the branch
    raises. *)
Theorem demand_forecast_at_least_one (f : features) :
  let target_amount := get f "target_amount" (PInt 1000) in
  let price_per_unit := get f "price_per_unit" (PInt 0) in
  is_nonneg target_amount = true -> float_convertible target_amount = true ->
  is_nonneg price_per_unit = true -> float_convertible price_per_unit = true ->
  exists units fifth,
    truediv target_amount (or_ price_per_unit (PInt 1)) = Ok units
    /\ truediv (PFloat units) (PInt 5) = Ok fifth
    /\ (is_finite fifth = true ->
        exists value,
          _heuristic_predict "demand_forecast" f = Ok (value, 0.4%float)
          /\ demand_formula target_amount price_per_unit = Ok (value, 0.4%float)
          /\ PrimFloat.leb 1 value = true)
    /\ (is_finite fifth = false ->
        _heuristic_predict "demand_forecast" f = Raise OverflowError
        \/ _heuristic_predict "demand_forecast" f = Raise Py.ValueError).
Proof.
  cbv zeta. intros Ht Ht' Hp Hp'.
  destruct (estimated_units_ok _ _ Ht Ht' Hp Hp') as (units & Hunits & Hsign).
  destruct (fifth_ok units Hsign) as (fifth & Hfifth & Hsign').
  exists units, fifth. split; [exact Hunits |]. split; [exact Hfifth |].
  split.
  - intros Hfinite.
    destruct (whole_part_ok fifth Hsign' Hfinite) as (whole & Hint & Hfloor & Hwhole).
    assert (Hmax : 1 <= Z.max 1 whole < float_overflow_threshold).
    { assert (1 < float_overflow_threshold) by reflexivity. lia. }
    destruct (nearest_float_of_positive_ge_1 _ Hmax) as [Hge _].
    assert (Hfloat : float_of_int (Z.max 1 whole) = Ok (nearest_float_of_Z (Z.max 1 whole))).
    { apply float_of_int_convertible. simpl. apply Z.ltb_lt. lia. }
    exists (nearest_float_of_Z (Z.max 1 whole)). repeat split.
    + unfold _heuristic_predict, mbind, res_bind. simpl String.eqb. cbv iota.
      rewrite Hunits. cbv beta iota. rewrite Hfifth. cbv beta iota.
      rewrite Hint. cbv beta iota. rewrite Hfloat. reflexivity.
    + unfold demand_formula, mbind, res_bind.
      rewrite Hunits. cbv beta iota. rewrite Hfifth. cbv beta iota.
      rewrite Hfloor. cbv beta iota. rewrite Hfloat. reflexivity.
    + exact Hge.
  - intros Hinf.
    unfold _heuristic_predict, mbind, res_bind. simpl String.eqb. cbv iota.
    rewrite Hunits. cbv beta iota. rewrite Hfifth. cbv beta iota.
    destruct (not_finite_no_whole_part fifth Hinf) as [-> | ->]; auto.
Qed.

(* ===================================================================== *)
(** * 10. Feature extraction and the dataset builders                 *)
(* ===================================================================== *)

Lemma max_0_spec (z : Z) : max_0 z = Z.max 0 z.
Proof. unfold max_0. destruct (Z.ltb_spec 0 z); lia. Qed.

Lemma timedelta_days_negative (later earlier : Z) :
  later < earlier -> timedelta_days later earlier < 0.
Proof.
  intros Hlt. unfold timedelta_days, microseconds_per_day.
  apply Z.div_lt_upper_bound; lia.
Qed.

Section FeatureProperties.
Context {A : Type} `{Amount A}.

(** C3. [extract_features] is a total function of the record (it cannot
    raise); its result has exactly the eight keys; category and city are
    ["unknown"] when absent or falsy; the price is [0.0] when absent or
    falsy; the two money features are floats and the participant count an
    integer; [days_active] is the whole-day difference clamped at zero,
    hence [0] whenever the deadline precedes the creation. *)
Theorem extract_features_schema (p : Procurement A) :
  let f := extract_features p in
  dom f = feature_keys
  /\ (category p = None -> f !! "category" = Some (PStr "unknown"))
  /\ (forall c, category p = Some c -> f !! "category" = Some (PStr (name c)))
  /\ (city p = None \/ city p = Some "" -> f !! "city" = Some (PStr "unknown"))
  /\ (forall c, city p = Some c -> c <> "" -> f !! "city" = Some (PStr c))
  /\ (price_per_unit p = None \/
      (exists a, price_per_unit p = Some a /\ amount_bool a = false) ->
      f !! "price_per_unit" = Some (PFloat 0))
  /\ (forall a, price_per_unit p = Some a -> amount_bool a = true ->
      f !! "price_per_unit" = Some (PFloat (amount_float a)))
  /\ f !! "target_amount" = Some (PFloat (amount_float (target_amount p)))
  /\ f !! "current_amount" = Some (PFloat (amount_float (current_amount p)))
  /\ f !! "participant_count" = Some (PInt (participant_count p))
  /\ f !! "progress" = Some (progress p)
  /\ f !! "days_active" =
       Some (PInt (Z.max 0 ((deadline p - created_at p) / 86400000000)))
  /\ (deadline p < created_at p -> f !! "days_active" = Some (PInt 0)).
Proof.
  cbv zeta.
  assert (Hcategory : extract_features p !! "category" =
            Some (PStr (match category p with
                        | Some c => name c
                        | None => "unknown"
                        end))) by reflexivity.
  assert (Hcity : extract_features p !! "city" =
            Some (PStr (match city p with
                        | Some c => if String.eqb c "" then "unknown" else c
                        | None => "unknown"
                        end))) by reflexivity.
  assert (Hprice : extract_features p !! "price_per_unit" =
            Some (PFloat (match price_per_unit p with
                          | Some a => if amount_bool a then amount_float a else 0%float
                          | None => 0%float
                          end))) by reflexivity.
  assert (Hdays : extract_features p !! "days_active" =
            Some (PInt (Z.max 0 ((deadline p - created_at p) / 86400000000)))).
  { change (extract_features p !! "days_active")
      with (Some (PInt (max_0 (timedelta_days (deadline p) (created_at p))))).
    now rewrite max_0_spec. }
  repeat split.
  - intros Hc. now rewrite Hcategory, Hc.
  - intros c Hc. now rewrite Hcategory, Hc.
  - intros Hc. rewrite Hcity. now destruct Hc as [-> | ->].
  - intros c Hc Hne. rewrite Hcity, Hc.
    destruct (String.eqb_spec c ""); [contradiction | reflexivity].
  - intros Hp. rewrite Hprice. destruct Hp as [-> | (a & -> & ->)]; reflexivity.
  - intros a Hp Ha. now rewrite Hprice, Hp, Ha.
  - exact Hdays.
  - intros Hlt. rewrite Hdays. do 2 f_equal.
    pose proof (timedelta_days_negative _ _ Hlt) as Hneg.
    unfold timedelta_days, microseconds_per_day in Hneg. lia.
Qed.

Lemma dom_success_row (p : Procurement A) : dom (success_row p) = success_columns.
Proof. reflexivity. Qed.

Lemma columns_success_dataset (l : list (Procurement A)) :
  pd.columns (_build_success_dataset l) =
    match l with [] => ∅ | _ :: _ => success_columns end.
Proof.
  unfold pd.columns, _build_success_dataset, pd.DataFrame. simpl.
  induction l as [| p l IH]; [reflexivity |].
  rewrite !fmap_cons, union_list_cons, dom_success_row.
  destruct l as [| q l]; [set_solver | rewrite IH; set_solver].
Qed.

Lemma successful_column (l : list (Procurement A)) :
  pd.column (_build_success_dataset l) "successful" =
    (fun p => Some (successful_label (status p))) <$> l.
Proof.
  unfold pd.column, _build_success_dataset, pd.DataFrame. simpl.
  rewrite <- list_fmap_compose. reflexivity.
Qed.

(** C4 (amended). The success dataset has one row per record, in order
    and without filtering; every row carries exactly the seven columns,
    so a non-empty table has exactly that column set while the table
    built from no record has no column at all; the [successful] cell of
    a row is [1] exactly when the record's status is ["completed"], and
    [0] otherwise. *)
Theorem build_success_dataset_shape (l : list (Procurement A)) :
  let df := _build_success_dataset l in
  pd.len df = length l
  /\ records df = success_row <$> l
  /\ (forall row, row ∈ records df -> dom row = success_columns)
  /\ pd.columns df = match l with [] => ∅ | _ :: _ => success_columns end
  /\ pd.column df "successful" = (fun p => Some (successful_label (status p))) <$> l
  /\ (forall i p, l !! i = Some p ->
        (pd.column df "successful" !! i = Some (Some (PInt 1)) <-> status p = "completed")
        /\ (pd.column df "successful" !! i = Some (Some (PInt 0)) <-> status p <> "completed"))
  /\ (forall p1 p2, l = [p1; p2] -> status p1 = "completed" -> status p2 = "cancelled" ->
        pd.len df = 2%nat /\
        pd.column df "successful" = [Some (PInt 1); Some (PInt 0)]).
Proof.
  cbv zeta.
  split; [unfold pd.len, _build_success_dataset, pd.DataFrame; simpl; now rewrite length_fmap |].
  split; [reflexivity |].
  split.
  { intros row Hin. unfold _build_success_dataset, pd.DataFrame in Hin. simpl in Hin.
    apply list_elem_of_fmap in Hin as (p & -> & _). apply dom_success_row. }
  split; [apply columns_success_dataset |].
  split; [apply successful_column |].
  split.
  - intros i p Hp. rewrite successful_column, list_lookup_fmap, Hp. simpl.
    unfold successful_label.
    destruct (String.eqb_spec (status p) "completed") as [Heq | Hne];
      split; split; intros Hcell; congruence.
  - intros p1 p2 -> Hfirst Hsecond. split; [reflexivity |].
    rewrite successful_column. simpl. unfold successful_label.
    now rewrite Hfirst, Hsecond.
Qed.

(** C10. The rows of the two builders are restrictions of the feature
    mapping of the same record: the success row is the mapping restricted
    to the six shared keys, extended with the label; the demand row is the
    mapping restricted to the demand columns. *)
Theorem dataset_rows_refine_extract_features (p : Procurement A) :
  success_row p =
    <[ "successful" := successful_label (status p) ]>
      (restrict success_feature_keys (extract_features p))
  /\ demand_row p = restrict demand_columns (extract_features p)
  /\ (forall l, records (_build_success_dataset l) = success_row <$> l)
  /\ (forall l, records (_build_demand_dataset l) = demand_row <$> l).
Proof. repeat split. Qed.

End FeatureProperties.

(* ===================================================================== *)
(** * 11. Training and the API actions                                *)
(* ===================================================================== *)

Section TrainingProperties.
Context {A : Type} `{Amount A} {metrics : Type}.
Variable plexe_main :
  string -> list string -> Z -> string ->
  exception + (option Solution * metrics).
Variable fs : FileSystem.

Lemma empty_of_no_rows (df : DataFrame) : pd.len df = 0%nat -> pd.empty df = true.
Proof. intros Hlen. unfold pd.empty. now rewrite Hlen. Qed.

(** C5 (amended). A training run whose record source yields a dataset
    of zero rows (a given empty source, or the default selection finding
    nothing) fails fast and without any effect: with the trainer installed
    it raises the insufficient-data error of its operation, without the
    trainer installed it raises the not-installed error; the trainer's
    entry point is not called on such a run in either case. *)
Theorem training_without_data_fails_fast
    (table : list (Procurement A)) (procurements_qs : option (list (Procurement A)))
    (work_dir : option string) (max_iterations : Z) :
  (pd.len (_build_success_dataset (success_source table procurements_qs)) = 0%nat ->
     let run available :=
       train_success_model available plexe_main fs table procurements_qs
         work_dir max_iterations in
     snd (run true)
       = inl (ValueError "Not enough training data. Need completed/cancelled procurements.")
     /\ (exists exc, snd (run true) = inl exc /\ insufficient_data exc = true)
     /\ fst (run true) = []
     /\ (forall available, existsb is_trainer_call (fst (run available)) = false)
     /\ run false = ([], inl (RuntimeError not_installed_message)))
  /\
  (pd.len (_build_demand_dataset (demand_source table procurements_qs)) = 0%nat ->
     let run available :=
       train_demand_forecast_model available plexe_main fs table procurements_qs
         work_dir max_iterations in
     snd (run true)
       = inl (ValueError "Not enough training data. Need completed procurements.")
     /\ (exists exc, snd (run true) = inl exc /\ insufficient_data exc = true)
     /\ fst (run true) = []
     /\ (forall available, existsb is_trainer_call (fst (run available)) = false)
     /\ run false = ([], inl (RuntimeError not_installed_message))).
Proof.
  split; intros Hrows; cbv zeta.
  - unfold train_success_model. rewrite (empty_of_no_rows _ Hrows). simpl.
    repeat split; [eexists; split; reflexivity | now intros []].
  - unfold train_demand_forecast_model. rewrite (empty_of_no_rows _ Hrows). simpl.
    repeat split; [eexists; split; reflexivity | now intros []].
Qed.

(** Without the trainer installed both operations stop at the
    availability check. *)
Lemma training_unavailable
    (table : list (Procurement A)) (qs : option (list (Procurement A)))
    (work_dir : option string) (max_iterations : Z) :
  train_success_model false plexe_main fs table qs work_dir max_iterations
    = ([], inl (RuntimeError not_installed_message))
  /\ train_demand_forecast_model false plexe_main fs table qs work_dir max_iterations
    = ([], inl (RuntimeError not_installed_message)).
Proof. split; reflexivity. Qed.

End TrainingProperties.

Section ViewProperties.
Context {A : Type} `{Amount A} {metrics : Type}.
Variable plexe_main :
  string -> list string -> Z -> string ->
  exception + (option Solution * metrics).
Variable fs : FileSystem.
Variable drf_int : pyval -> option Z.
Variable drf_char : pyval -> option string.
Variable objects_create_error : ProcurementPrediction -> option exn.

Abbreviation train_view := (train (A:=A) true plexe_main fs drf_int drf_char).

Abbreviation predict_view :=
  (predict (A:=A) (metrics:=metrics) drf_int objects_create_error).

(** A failed validation reports at least one field, and only fields of
    the serializer. *)
Lemma train_serializer_errors_by_field (d : gmap string pyval)
    (errors : gmap string (list field_error)) :
  TrainModelSerializer drf_int drf_char d = inl errors ->
  (exists field errs, errors !! field = Some errs)
  /\ dom errors ⊆ ({[ "model_type"; "max_iterations"; "work_dir" ]} : gset string).
Proof.
  unfold TrainModelSerializer.
  destruct (train_model_type d) as [e1 | v1],
           (train_max_iterations drf_int d) as [e2 | v2],
           (train_work_dir drf_char d) as [e3 | v3];
    intros Heq; try discriminate Heq; injection Heq as <-;
    (split; [| simpl; set_solver]).
  all: first [ exists "model_type", e1; reflexivity
             | exists "max_iterations", e2; reflexivity
             | exists "work_dir", e3; reflexivity ].
Qed.

Lemma unknown_kind_is_invalid (d : gmap string pyval) :
  unknown_model_kind d = true ->
  exists errors input,
    TrainModelSerializer drf_int drf_char d = inl errors
    /\ errors !! "model_type" = Some [InvalidChoice input].
Proof.
  unfold unknown_model_kind, TrainModelSerializer, train_model_type.
  destruct (d !! "model_type") as [[| s | z | x] |]; try discriminate.
  intros Hs. apply negb_true_iff in Hs. unfold choice_field. rewrite Hs.
  destruct (train_max_iterations drf_int d), (train_work_dir drf_char d);
    eexists _, (PStr s); split; reflexivity.
Qed.

Lemma iterations_out_of_range_is_invalid (d : gmap string pyval) :
  iterations_out_of_range d = true ->
  exists errors errs,
    TrainModelSerializer drf_int drf_char d = inl errors
    /\ errors !! "max_iterations" = Some errs
    /\ (errs = [MaxValue 20] \/ errs = [MinValue 1]).
Proof.
  unfold iterations_out_of_range, TrainModelSerializer, train_max_iterations.
  destruct (d !! "max_iterations") as [[| s | z | x] |]; try discriminate.
  intros Hz. simpl integer_field. cbv iota. unfold iteration_bounds.
  destruct (Z.ltb_spec 20 z) as [Hhi | Hhi].
  - replace (z <? 1) with false by (symmetry; apply Z.ltb_ge; lia). simpl.
    destruct (train_model_type d), (train_work_dir drf_char d);
      eexists _, _; (split; [reflexivity | split; [reflexivity | now left]]).
  - simpl in Hz. rewrite orb_false_r in Hz. rewrite Hz. simpl.
    destruct (train_model_type d), (train_work_dir drf_char d);
      eexists _, _; (split; [reflexivity | split; [reflexivity | now right]]).
Qed.

(** C2 (amended). With the trainer installed, a training request whose
    body the serializer rejects is answered with status 400 and the errors
    by field, and the stored state is the state before the request; a
    model kind outside the known kinds and an iteration count outside
    1..20 are such bodies.  A body that passes the serializer with the kind
    ["price_optimization"] is answered with status 400 and a plain error
    message after one model record has been added to the store. *)
Theorem train_invalid_body_rejected_unchanged
    (request_data : gmap string pyval) (w : world A metrics) :
  (forall errors,
      TrainModelSerializer drf_int drf_char request_data = inl errors ->
      train_view request_data w
        = (w, {| status_code := HTTP_400_BAD_REQUEST; data := FieldErrors errors |})
      /\ (exists field errs, errors !! field = Some errs)
      /\ dom errors ⊆ ({[ "model_type"; "max_iterations"; "work_dir" ]} : gset string))
  /\ (unknown_model_kind request_data = true ->
      exists errors input,
        TrainModelSerializer drf_int drf_char request_data = inl errors
        /\ errors !! "model_type" = Some [InvalidChoice input])
  /\ (iterations_out_of_range request_data = true ->
      exists errors errs,
        TrainModelSerializer drf_int drf_char request_data = inl errors
        /\ errors !! "max_iterations" = Some errs
        /\ (errs = [MaxValue 20] \/ errs = [MinValue 1]))
  /\ (forall validated,
        TrainModelSerializer drf_int drf_char request_data = inr validated ->
        td_model_type validated = ModelType.PRICE_OPTIMIZATION ->
        let outcome := train_view request_data w in
        snd outcome
          = {| status_code := HTTP_400_BAD_REQUEST;
               data := Message [("error", "Unsupported model_type: price_optimization")] |}
        /\ length (ml_models (fst outcome)) = S (length (ml_models w))
        /\ (exists row, last (ml_models (fst outcome)) = Some row
                        /\ ml_id row = next_ml_model_id w
                        /\ ml_status row = Status.FAILED)).
Proof.
  split; [| split; [| split]].
  - intros errors Hinvalid. split.
    + unfold train. simpl negb. cbv iota. now rewrite Hinvalid.
    + exact (train_serializer_errors_by_field _ _ Hinvalid).
  - apply unknown_kind_is_invalid.
  - apply iterations_out_of_range_is_invalid.
  - intros validated Hvalid Hkind. cbv zeta.
    unfold train. simpl negb. cbv iota. rewrite Hvalid, Hkind.
    unfold create_ml_model, save_status, update_ml_model.
    cbn -[fmap last length app Z.add].
    split; [reflexivity |]. split.
    + rewrite length_fmap, length_app. simpl. lia.
    + rewrite fmap_app. cbn [fmap list_fmap]. rewrite last_snoc.
      cbn [ml_id]. rewrite Z.eqb_refl.
      eexists. split; [reflexivity |]. split; reflexivity.
Qed.

(** C9 (amended). A prediction request whose procurement id matches no
    stored procurement never changes the stored state; it is answered
    with 404 when its prediction kind passes validation, and with 400
    (the field error of the kind) when it does not. *)
Theorem predict_unknown_procurement
    (request_data : gmap string pyval) (w : world A metrics) (procurement_id : Z) :
  predict_procurement_id drf_int request_data = inr procurement_id ->
  get_procurement w procurement_id = None ->
  fst (predict_view request_data w) = w
  /\ predictions (fst (predict_view request_data w)) = predictions w
  /\ (forall kind, predict_prediction_type request_data = inr kind ->
        snd (predict_view request_data w)
          = {| status_code := HTTP_404_NOT_FOUND; data := NotFound |})
  /\ (forall errs, predict_prediction_type request_data = inl errs ->
        snd (predict_view request_data w)
          = {| status_code := HTTP_400_BAD_REQUEST;
               data := FieldErrors {[ "prediction_type" := errs ]} |}).
Proof.
  intros Hid Hmissing. unfold predict, PredictSerializer. rewrite Hid.
  destruct (predict_prediction_type request_data) as [errs | kind]; simpl.
  - repeat split; try discriminate.
    intros errs' Heq. injection Heq as <-. do 2 f_equal.
  - rewrite Hmissing. repeat split; try discriminate.
Qed.

End ViewProperties.

(* ===================================================================== *)
(** * 12. Concrete runs                                               *)
(* ===================================================================== *)

(** C1 on the worked example of the specification. *)
Lemma success_prediction_formula_run :
  exists clamped value,
    max_1 (PInt 15) = Ok clamped
    /\ (forall z, PInt 15 = PInt z -> 1 <= z -> clamped = PInt 15)
    /\ _heuristic_predict "success_prediction" example_features = Ok (value, 0.5%float)
    /\ success_formula (PInt 30) (PInt 6) clamped = Ok (value, 0.5%float).
Proof.
  exact (proj1 (success_prediction_formula example_features) eq_refl eq_refl eq_refl).
Defined.

(** C1, counterexample: with [days_active = 0] the code scores the clamped
    value [1/30], giving [0.0033], where the specification's formula gives
    [0.0]. *)
Lemma success_formula_fails_at_zero_days :
  let f := features_of [("days_active", PInt 0)] in
  is_nonneg (get f "days_active" (PInt 1)) = true
  /\ _heuristic_predict "success_prediction" f = Ok (0.0033%float, 0.5%float)
  /\ success_formula (get f "progress" (PInt 0)) (get f "participant_count" (PInt 0))
       (get f "days_active" (PInt 1)) = Ok (0%float, 0.5%float)
  /\ PrimFloat.eqb 0.0033 0 = false.
Proof. repeat split. Qed.

(** C8 on the features of the test suite, and on a participant count
    that is itself too large for a float while its tenth is not. *)
Lemma unit_interval_run :
  (exists value,
     _heuristic_predict "success_prediction"
       (features_of [("progress", PInt 50); ("days_active", PInt 20);
                     ("participant_count", PInt 5)])
       = Ok (value, 0.5%float)
     /\ PrimFloat.leb 0 value = true /\ PrimFloat.leb value 1 = true)
  /\ (exists value,
        _heuristic_predict "success_prediction"
          (features_of [("participant_count", PInt (2 ^ 1024))])
          = Ok (value, 0.5%float)
        /\ PrimFloat.leb 0 value = true /\ PrimFloat.leb value 1 = true).
Proof.
  split.
  - apply (proj1 (success_prediction_unit_interval
                    (features_of [("progress", PInt 50); ("days_active", PInt 20);
                                  ("participant_count", PInt 5)])
                    eq_refl eq_refl eq_refl)); reflexivity.
  - apply (proj1 (success_prediction_unit_interval
                    (features_of [("participant_count", PInt (2 ^ 1024))])
                    eq_refl eq_refl eq_refl)); reflexivity.
Defined.

(** C8, counterexample: a non-negative integer too large for a float makes
    the success branch raise instead of returning a value. *)
Lemma success_prediction_overflows :
  let f := features_of [("progress", PInt (10 ^ 400))] in
  is_nonneg (get f "progress" (PInt 0)) = true
  /\ _heuristic_predict "success_prediction" f = Raise OverflowError.
Proof. repeat split. Qed.

(** C7 on the features of the test suite. *)
Lemma price_suggestion_run :
  exists participants quotient,
    max_1 (PInt 9) = Ok participants
    /\ truediv (PInt 9000) participants = Ok quotient
    /\ _heuristic_predict "price_optimization"
         (features_of [("target_amount", PInt 9000); ("participant_count", PInt 9)])
       = Ok (round quotient 2, 0.35%float)
    /\ price_formula (PInt 9000) (PInt 9) = Ok (round quotient 2, 0.35%float)
    /\ PrimFloat.leb 0 (round quotient 2) = true.
Proof.
  apply (price_suggestion_nonneg "price_optimization"
           (features_of [("target_amount", PInt 9000); ("participant_count", PInt 9)]));
    solve [discriminate | reflexivity].
Defined.

(** C7, counterexample: a positive target shared by a thousand
    participants rounds to [0.0], which is not positive. *)
Lemma price_suggestion_rounds_to_zero :
  let f := features_of [("target_amount", PInt 1); ("participant_count", PInt 1000)] in
  is_positive (get f "target_amount" (PInt 1000)) = true
  /\ _heuristic_predict "price_optimization" f = Ok (0%float, 0.35%float)
  /\ PrimFloat.ltb 0 0 = false.
Proof. repeat split. Qed.

(** C6 on the features of the test suite. *)
Lemma demand_forecast_run :
  exists units fifth,
    truediv (PInt 10000) (or_ (PInt 500) (PInt 1)) = Ok units
    /\ truediv (PFloat units) (PInt 5) = Ok fifth
    /\ (is_finite fifth = true ->
        exists value,
          _heuristic_predict "demand_forecast"
            (features_of [("target_amount", PInt 10000); ("price_per_unit", PInt 500)])
            = Ok (value, 0.4%float)
          /\ demand_formula (PInt 10000) (PInt 500) = Ok (value, 0.4%float)
          /\ PrimFloat.leb 1 value = true)
    /\ (is_finite fifth = false ->
        _heuristic_predict "demand_forecast"
          (features_of [("target_amount", PInt 10000); ("price_per_unit", PInt 500)])
        = Raise OverflowError
        \/ _heuristic_predict "demand_forecast"
             (features_of [("target_amount", PInt 10000); ("price_per_unit", PInt 500)])
           = Raise Py.ValueError).
Proof.
  apply (demand_forecast_at_least_one
           (features_of [("target_amount", PInt 10000); ("price_per_unit", PInt 500)]));
    reflexivity.
Defined.

(** C6, counterexample: two non-negative finite floats whose quotient
    overflows to infinity make the demand branch raise. *)
Lemma demand_forecast_overflows :
  let f := features_of [("target_amount", PFloat 1e308); ("price_per_unit", PFloat 0.001)] in
  is_nonneg (get f "target_amount" (PInt 1000)) = true
  /\ is_nonneg (get f "price_per_unit" (PInt 0)) = true
  /\ is_finite 1e308 = true /\ is_finite 0.001 = true
  /\ _heuristic_predict "demand_forecast" f = Raise OverflowError.
Proof. repeat split. Qed.

(** C3 on a record whose deadline precedes its creation, without
    category, city or price. *)
Lemma extract_features_run :
  extract_features bare_procurement !! "days_active" = Some (PInt 0)
  /\ extract_features bare_procurement !! "category" = Some (PStr "unknown")
  /\ extract_features bare_procurement !! "city" = Some (PStr "unknown")
  /\ extract_features bare_procurement !! "price_per_unit" = Some (PFloat 0).
Proof.
  destruct (extract_features_schema bare_procurement)
    as (_ & Hcat & _ & Hcity & _ & Hprice & _ & _ & _ & _ & _ & _ & Hdays).
  exact (conj (Hdays eq_refl)
           (conj (Hcat eq_refl)
              (conj (Hcity (or_intror eq_refl)) (Hprice (or_introl eq_refl))))).
Defined.

(** C4 on a completed and a cancelled record. *)
Lemma build_success_dataset_run :
  let df := _build_success_dataset
              [sample_procurement "completed"; sample_procurement "cancelled"] in
  pd.len df = 2%nat
  /\ pd.column df "successful" = [Some (PInt 1); Some (PInt 0)].
Proof.
  destruct (build_success_dataset_shape
              [sample_procurement "completed"; sample_procurement "cancelled"])
    as (_ & _ & _ & _ & _ & _ & Hexample).
  exact (Hexample _ _ eq_refl eq_refl eq_refl).
Defined.

(** C4, counterexample: the table built from no record has no column. *)
Lemma empty_dataset_has_no_columns :
  let df := _build_success_dataset (@nil (Procurement float)) in
  pd.len df = 0%nat
  /\ pd.columns df = ∅
  /\ size (pd.columns df) = 0%nat
  /\ size success_columns = 7%nat.
Proof. repeat split. Qed.

(** C5 on a table without finished procurements, through the default
    selection and through an explicit empty source. *)
Lemma training_without_data_run :
  (let run available :=
     train_success_model available sample_trainer sample_fs
       [sample_procurement "active"] None None 3 in
   snd (run true)
     = inl (ValueError "Not enough training data. Need completed/cancelled procurements.")
   /\ (exists exc, snd (run true) = inl exc /\ insufficient_data exc = true)
   /\ fst (run true) = []
   /\ (forall available, existsb is_trainer_call (fst (run available)) = false)
   /\ run false = ([], inl (RuntimeError not_installed_message)))
  /\
  (let run available :=
     train_demand_forecast_model available sample_trainer sample_fs
       [sample_procurement "active"] (Some []) None 3 in
   snd (run true)
     = inl (ValueError "Not enough training data. Need completed procurements.")
   /\ (exists exc, snd (run true) = inl exc /\ insufficient_data exc = true)
   /\ fst (run true) = []
   /\ (forall available, existsb is_trainer_call (fst (run available)) = false)
   /\ run false = ([], inl (RuntimeError not_installed_message))).
Proof.
  split.
  - exact (proj1 (training_without_data_fails_fast sample_trainer sample_fs
                    [sample_procurement "active"] None None 3) eq_refl).
  - exact (proj2 (training_without_data_fails_fast sample_trainer sample_fs
                    [sample_procurement "active"] (Some []) None 3) eq_refl).
Defined.

(** C5, counterexample: without the trainer installed, a run on zero rows
    raises the not-installed error, which is no insufficient-data error. *)
Lemma training_without_data_not_installed :
  let run := train_success_model false sample_trainer sample_fs
               [sample_procurement "active"] None None 3 in
  pd.len (_build_success_dataset
            (success_source [sample_procurement "active"] None)) = 0%nat
  /\ run = ([], inl (RuntimeError "plexe is not installed. Install it with: pip install plexe"))
  /\ insufficient_data
       (RuntimeError "plexe is not installed. Install it with: pip install plexe") = false.
Proof. repeat split. Qed.

(** C2 on the invalid kind of the test suite. *)
Lemma train_invalid_body_run :
  sample_train invalid_kind_request sample_world
  = (sample_world,
     {| status_code := HTTP_400_BAD_REQUEST;
        data := FieldErrors {[ "model_type" := [InvalidChoice (PStr "nonexistent_type")] ]} |}).
Proof.
  exact (proj1 (proj1 (train_invalid_body_rejected_unchanged sample_trainer sample_fs
                         sample_drf_int sample_drf_char
                         invalid_kind_request sample_world)
                  _ eq_refl)).
Defined.

(** C2, counterexample: the kind ["price_optimization"] is rejected with
    status 400, but only after a model record has been created; the record
    stays behind with status ["failed"], and the response carries a plain
    error message. *)
Lemma train_unsupported_kind_leaves_record :
  let outcome := sample_train {[ "model_type" := PStr "price_optimization" ]} sample_world in
  status_code (snd outcome) = HTTP_400_BAD_REQUEST
  /\ data (snd outcome) = Message [("error", "Unsupported model_type: price_optimization")]
  /\ ml_models sample_world = []
  /\ (ml_status <$> ml_models (fst outcome)) = ["failed"]
  /\ next_ml_model_id (fst outcome) = 2.
Proof. repeat split. Qed.

(** C9 on the missing procurement of the test suite. *)
Lemma predict_unknown_procurement_run :
  fst (sample_predict missing_procurement_request sample_world) = sample_world
  /\ snd (sample_predict missing_procurement_request sample_world)
     = {| status_code := HTTP_404_NOT_FOUND; data := NotFound |}.
Proof.
  destruct (predict_unknown_procurement sample_drf_int sample_objects_create_error
              missing_procurement_request sample_world 99999 eq_refl eq_refl)
    as (Hstate & _ & Hfound & _).
  split; [exact Hstate | exact (Hfound _ eq_refl)].
Defined.

(** C9, counterexample: when the prediction kind is invalid too, the
    request for a missing procurement is answered with 400, not 404. *)
Lemma predict_invalid_kind_precedes_lookup :
  let request : gmap string pyval :=
    list_to_map [("procurement_id", PInt 99999); ("prediction_type", PStr "bogus")] in
  get_procurement sample_world 99999 = None
  /\ sample_predict request sample_world
     = (sample_world,
        {| status_code := HTTP_400_BAD_REQUEST;
           data := FieldErrors {[ "prediction_type" := [InvalidChoice (PStr "bogus")] ]} |}).
Proof. repeat split. Qed.

(* ===================================================================== *)
(** * 13. Further properties of the heuristic predictor             *)
(* ===================================================================== *)

Lemma nearest_float_of_Z_nonzero (z : Z) :
  z <> 0 -> Z.abs z < float_overflow_threshold ->
  PrimFloat.eqb (nearest_float_of_Z z) 0 = false.
Proof.
  intros Hz Hlt. rewrite eqb_0_zero.
  destruct z as [| p | p]; [contradiction | |];
    unfold nearest_float_of_Z;
    pose proof (round_to_53_bits_spec p) as Hspec;
    destruct (round_to_53_bits p) as [m e]; destruct Hspec as (Hm & He & Hover);
    specialize (Hover Hlt);
    (replace (e <=? emax - prec) with true
       by (symmetry; apply Z.leb_le; unfold emax, prec; lia));
    (assert (Hpos : Z.pos (Z.to_pos m) = m) by (apply Z2Pos.id; lia));
    (rewrite Prim2SF_SF2Prim; [reflexivity |]);
    (apply valid_of_53_bits; [rewrite Hpos; lia | lia]).
Qed.

Lemma float_truediv_no_zero_division (x y : float) :
  PrimFloat.eqb y 0 = false -> raises_zero_division (float_truediv x y) = false.
Proof. intros Hy. unfold float_truediv. now rewrite Hy. Qed.

Lemma truediv_by_nonzero_float (v : pyval) (c : float) :
  PrimFloat.eqb c 0 = false -> raises_zero_division (truediv v (PFloat c)) = false.
Proof.
  intros Hc. destruct v as [| s | z | x]; simpl; try reflexivity.
  - unfold float_of_int. destruct (Z.abs z <? _); [| reflexivity].
    simpl. now apply float_truediv_no_zero_division.
  - now apply float_truediv_no_zero_division.
Qed.

Lemma truediv_by_nonzero_int (v : pyval) (k : Z) :
  k <> 0 -> raises_zero_division (truediv v (PInt k)) = false.
Proof.
  intros Hk. destruct v as [| s | z | x]; simpl; try reflexivity.
  - replace (k =? 0) with false by (symmetry; now apply Z.eqb_neq).
    destruct (_ <=? _); reflexivity.
  - unfold float_of_int. destruct (Z.ltb_spec (Z.abs k) float_overflow_threshold); [| reflexivity].
    simpl. apply float_truediv_no_zero_division. now apply nearest_float_of_Z_nonzero.
Qed.

Lemma ltb_1_nonzero (x : float) :
  PrimFloat.ltb 1 x = true -> PrimFloat.eqb x 0 = false.
Proof.
  rewrite FloatAxioms.ltb_spec, eqb_0_zero, Prim2SF_one.
  destruct (Prim2SF x) as [s | s | | s m e]; try reflexivity.
  destruct s; discriminate.
Qed.

Lemma truthy_nonzero (v : pyval) :
  truthy v = true ->
  match v with
  | PInt z => z <> 0
  | PFloat x => PrimFloat.eqb x 0 = false
  | _ => True
  end.
Proof.
  destruct v as [| s | z | x]; simpl; try easy.
  - intros Hz. apply negb_true_iff, Z.eqb_neq in Hz. exact Hz.
  - intros Hx. now apply negb_true_iff in Hx.
Qed.

Lemma truediv_by_truthy (a b : pyval) :
  truthy b = true -> raises_zero_division (truediv a b) = false.
Proof.
  intros Hb. pose proof (truthy_nonzero b Hb) as Hnz.
  destruct b as [| s | z | x].
  - discriminate.
  - destruct a; reflexivity.
  - now apply truediv_by_nonzero_int.
  - now apply truediv_by_nonzero_float.
Qed.

Lemma max_1_truthy (v v' : pyval) : max_1 v = Ok v' -> truthy v' = true.
Proof.
  destruct v as [| s | z | x]; simpl; try discriminate.
  - destruct (Z.ltb_spec 1 z); intros [= <-]; simpl; [| reflexivity].
    apply negb_true_iff, Z.eqb_neq. lia.
  - destruct (PrimFloat.ltb 1 x) eqn:Hx; intros [= <-]; simpl; [| reflexivity].
    apply negb_true_iff. now apply ltb_1_nonzero.
Qed.

Lemma or_1_truthy (v : pyval) : truthy (or_ v (PInt 1)) = true.
Proof. unfold or_. destruct (truthy v) eqn:Hv; [exact Hv | reflexivity]. Qed.

Lemma bind_no_zero_division {T U : Type} (c : res T) (k : T -> res U) :
  raises_zero_division c = false ->
  (forall a, c = Ok a -> raises_zero_division (k a) = false) ->
  raises_zero_division (c ≫= k) = false.
Proof.
  intros Hc Hk. destruct c as [a | e]; simpl.
  - now apply Hk.
  - exact Hc.
Qed.

Lemma max_1_no_zero_division (v : pyval) : raises_zero_division (max_1 v) = false.
Proof. destruct v; reflexivity. Qed.

Lemma int_of_float_no_zero_division (x : float) :
  raises_zero_division (int_of_float x) = false.
Proof. unfold int_of_float. destruct (Prim2SF x); reflexivity. Qed.

Lemma float_of_int_no_zero_division (z : Z) :
  raises_zero_division (float_of_int z) = false.
Proof. unfold float_of_int. destruct (_ <? _); reflexivity. Qed.

(** X1. Whatever the prediction kind and the feature mapping, the
    heuristic predictor never fails with a division by zero: its divisors
    are the constants 100.0, 10, 30 and 5, a price replaced by 1 when it is
    zero or missing, and a participant count clamped from below at 1. *)
Theorem heuristic_predict_never_divides_by_zero (kind : string) (f : features) :
  raises_zero_division (_heuristic_predict kind f) = false.
Proof.
  unfold _heuristic_predict.
  destruct (String.eqb kind ModelType.SUCCESS_PREDICTION).
  - apply bind_no_zero_division; [now apply truediv_by_nonzero_float |]. intros progress _.
    apply bind_no_zero_division; [apply max_1_no_zero_division |]. intros days _.
    apply bind_no_zero_division; [now apply truediv_by_nonzero_int |]. intros by_ten _.
    apply bind_no_zero_division; [now apply truediv_by_nonzero_int |]. intros by_thirty _.
    reflexivity.
  - destruct (String.eqb kind ModelType.DEMAND_FORECAST).
    + apply bind_no_zero_division; [apply truediv_by_truthy, or_1_truthy |]. intros units _.
      apply bind_no_zero_division; [now apply truediv_by_nonzero_int |]. intros fifth _.
      apply bind_no_zero_division; [apply int_of_float_no_zero_division |]. intros whole _.
      apply bind_no_zero_division; [apply float_of_int_no_zero_division |]. intros value _.
      reflexivity.
    + apply bind_no_zero_division; [apply max_1_no_zero_division |]. intros participants Hmax.
      apply bind_no_zero_division; [apply truediv_by_truthy, (max_1_truthy _ _ Hmax) |].
      intros price _. reflexivity.
Qed.

(** X2. Each branch of the predictor reads its own features only: the
    outcome on a feature mapping is the outcome on the mapping restricted
    to the keys of the branch, whatever else the mapping holds. *)
Theorem heuristic_predict_reads_only_its_keys (kind : string) (f : features) :
  _heuristic_predict kind f = _heuristic_predict kind (restrict (keys_read kind) f).
Proof.
  assert (Hget : forall (keys : gset string) key default,
             key ∈ keys -> get (restrict keys f) key default = get f key default).
  { intros keys key default Hin. unfold get, restrict.
    destruct (f !! key) as [v |] eqn:Hf.
    - erewrite (proj2 (map_lookup_filter_Some _ f key v)); [reflexivity |]. now split.
    - now rewrite map_lookup_filter_None_2 by now left. }
  unfold _heuristic_predict, keys_read.
  destruct (String.eqb kind ModelType.SUCCESS_PREDICTION).
  - rewrite !Hget by set_solver. reflexivity.
  - destruct (String.eqb kind ModelType.DEMAND_FORECAST);
      rewrite !Hget by set_solver; reflexivity.
Qed.

(** X3. A feature that is missing is read as its default: progress 0,
    days active 1 and participant count 0 for the success score; target
    amount 1000 and price 0 for the demand estimate; target amount 1000 and
    participant count 1 for the price suggestion.  Filling a mapping up
    with the defaults of a branch does not change the branch's outcome. *)
Theorem heuristic_predict_missing_key_is_default (kind : string) (f : features) :
  _heuristic_predict kind f =
  _heuristic_predict kind
    (f ∪ (if String.eqb kind ModelType.SUCCESS_PREDICTION then success_defaults
          else if String.eqb kind ModelType.DEMAND_FORECAST then demand_defaults
          else price_defaults)).
Proof.
  assert (Hget : forall (d : features) key default,
             d !! key = Some default -> get (f ∪ d) key default = get f key default).
  { intros d key default Hd. unfold get. rewrite lookup_union.
    destruct (f !! key) as [v |]; [now rewrite union_Some_l | now rewrite Hd]. }
  unfold _heuristic_predict.
  destruct (String.eqb kind ModelType.SUCCESS_PREDICTION).
  - rewrite !Hget by reflexivity. reflexivity.
  - destruct (String.eqb kind ModelType.DEMAND_FORECAST);
      rewrite !Hget by reflexivity; reflexivity.
Qed.

(** ** Bounds that hold whatever the features *)

Lemma demand_value_ge_1 (whole : Z) (value : float) :
  float_of_int (Z.max 1 whole) = Ok value -> PrimFloat.leb 1 value = true.
Proof.
  unfold float_of_int.
  destruct (Z.ltb_spec (Z.abs (Z.max 1 whole)) float_overflow_threshold) as [Hlt | Hge];
    [| discriminate].
  intros [= <-]. apply nearest_float_of_positive_ge_1. lia.
Qed.

(** X4. Whenever the demand branch returns, its forecast is the float of
    a whole number of participants that is at least 1, so it is at least
    [1.0], and its confidence is [0.4], whatever the features were: also a
    negative target amount or price gives [1.0], the clamp being applied to
    the whole part of the quotient. *)
Theorem demand_forecast_never_below_one (f : features) (value confidence : float) :
  _heuristic_predict "demand_forecast" f = Ok (value, confidence) ->
  (exists participants : Z, 1 <= participants /\ float_of_int participants = Ok value)
  /\ PrimFloat.leb 1 value = true
  /\ confidence = 0.4%float.
Proof.
  unfold _heuristic_predict. simpl String.eqb. cbv iota.
  unfold mbind, res_bind.
  destruct (truediv _ _) as [units |]; [| discriminate].
  destruct (truediv _ _) as [fifth |]; [| discriminate].
  destruct (int_of_float fifth) as [whole |]; [| discriminate].
  destruct (float_of_int (Z.max 1 whole)) as [v |] eqn:Hv; [| discriminate].
  intros [= <- <-]. split; [| split].
  - exists (Z.max 1 whole). split; [lia | exact Hv].
  - now apply (demand_value_ge_1 whole).
  - reflexivity.
Qed.

(** A zero, minus infinity or a negative finite value goes back to a
    primitive float that compares [<= 1.0]. *)
Lemma SF2Prim_nonpos_le_1 (x : spec_float) :
  (exists s, x = S754_zero s) \/ x = S754_infinity true
  \/ (exists m e, x = S754_finite true m e) ->
  PrimFloat.leb (SF2Prim x) 1 = true.
Proof.
  intros [[s ->] | [-> | (m & e & ->)]].
  - destruct s; reflexivity.
  - reflexivity.
  - unfold SF2Prim. rewrite FloatAxioms.leb_spec, FloatAxioms.opp_spec, Prim2SF_one.
    pose proof (SF2Prim_nonneg (S754_finite false m e) eq_refl) as Hnonneg.
    unfold SF2Prim in Hnonneg.
    destruct (Prim2SF (Z.ldexp (of_uint63 (of_Z (Z.pos m))) e)) as [s | s | | s m' e'];
      try discriminate; destruct s; try discriminate; reflexivity.
Qed.

Lemma SFdiv_negative (m1 : positive) (m2 : positive) :
  let q := SF64div (S754_finite true m1 0) (S754_finite false m2 0) in
  (exists s, q = S754_zero s) \/ q = S754_infinity true
  \/ (exists m e, q = S754_finite true m e).
Proof.
  cbv zeta. unfold SF64div, SFdiv.
  pose proof (SFdiv_core_nonneg m1 0 m2 0) as Hq.
  destruct (SFdiv_core_binary prec emax (Z.pos m1) 0 (Z.pos m2) 0) as [[q e] l].
  simpl in Hq. simpl xorb.
  destruct (binary_round_aux_sign true q e l Hq) as [-> | [-> | (m' & e' & ->)]]; eauto.
Qed.

Lemma round_4_le_1 (x : float) :
  PrimFloat.leb x 1 = true -> PrimFloat.leb (round x 4) 1 = true.
Proof.
  intros Hle.
  destruct (SFnonneg (Prim2SF x)) eqn:Hsign.
  { pose proof (round_4_unit_interval x Hsign Hle) as Hunit.
    unfold in_unit_interval in Hunit. now apply andb_true_iff in Hunit as [_ Hunit]. }
  unfold round.
  destruct (Prim2SF x) as [s | s | | s m e] eqn:Hx; try exact Hle.
  destruct s; [| discriminate].
  unfold float_of_decimal.
  destruct (if 0 <=? e then _ else _) as [| p | p]; try reflexivity.
  apply SF2Prim_nonpos_le_1, SFdiv_negative.
Qed.

(** X5. Whenever the success branch returns, its score is at most [1.0]
    (so it is not NaN either) and its confidence is [0.5], whatever the
    features were: the cap [min(1.0, score)] also replaces a NaN score by
    [1.0], and rounding to four decimals does not exceed the cap. *)
Theorem success_prediction_never_above_one (f : features) (value confidence : float) :
  _heuristic_predict "success_prediction" f = Ok (value, confidence) ->
  PrimFloat.leb value 1 = true /\ confidence = 0.5%float.
Proof.
  unfold _heuristic_predict. simpl String.eqb. cbv iota.
  unfold mbind, res_bind.
  destruct (truediv _ _) as [progress |]; [| discriminate].
  destruct (max_1 _) as [days |]; [| discriminate].
  destruct (truediv _ _) as [by_ten |]; [| discriminate].
  destruct (truediv _ _) as [by_thirty |]; [| discriminate].
  intros [= <- <-]. split; [| reflexivity].
  apply round_4_le_1, min_1_le_1.
Qed.

(* ===================================================================== *)
(** * 14. Further properties of the datasets and the training runs  *)
(* ===================================================================== *)

Section DatasetProperties.
Context {A : Type} `{Amount A}.

Lemma dom_demand_row (p : Procurement A) : dom (demand_row p) = demand_columns.
Proof. reflexivity. Qed.

Lemma columns_demand_dataset (l : list (Procurement A)) :
  pd.columns (_build_demand_dataset l) =
    match l with [] => ∅ | _ :: _ => demand_columns end.
Proof.
  unfold pd.columns, _build_demand_dataset, pd.DataFrame. simpl.
  induction l as [| p l IH]; [reflexivity |].
  rewrite !fmap_cons, union_list_cons, dom_demand_row.
  destruct l as [| q l]; [set_solver | rewrite IH; set_solver].
Qed.

(** X6. The demand dataset has one row per record, in order and without
    filtering; a non-empty table has exactly the five columns category,
    city, target_amount, price_per_unit and participant_count, the last
    holding each record's participant count as the value to predict; it
    has neither a days_active nor a successful column; the table built
    from no record has no column at all. *)
Theorem build_demand_dataset_shape (l : list (Procurement A)) :
  let df := _build_demand_dataset l in
  pd.len df = length l
  /\ Forall2 (fun (row : features) p =>
                dom row = demand_columns
                /\ row !! "participant_count" = Some (PInt (participant_count p))
                /\ row !! "target_amount" = Some (PFloat (amount_float (target_amount p))))
       (records df) l
  /\ pd.columns df = (if no_records l then ∅ else demand_columns)
  /\ pd.column df "participant_count" = (fun p => Some (PInt (participant_count p))) <$> l
  /\ pd.column df "days_active" = (fun _ => None) <$> l
  /\ pd.column df "successful" = (fun _ => None) <$> l.
Proof.
  cbv zeta.
  split; [unfold pd.len, _build_demand_dataset, pd.DataFrame; simpl; now rewrite length_fmap |].
  split.
  { unfold _build_demand_dataset, pd.DataFrame. simpl.
    induction l as [| p l IH]; constructor; [| exact IH].
    repeat split. }
  split; [rewrite columns_demand_dataset; now destruct l |].
  unfold pd.column, _build_demand_dataset, pd.DataFrame. simpl.
  rewrite <- !list_fmap_compose. repeat split.
Qed.

Lemma empty_success_dataset (l : list (Procurement A)) :
  pd.empty (_build_success_dataset l) = no_records l.
Proof.
  unfold pd.empty. rewrite columns_success_dataset.
  destruct l as [| p l]; reflexivity.
Qed.

Lemma empty_demand_dataset (l : list (Procurement A)) :
  pd.empty (_build_demand_dataset l) = no_records l.
Proof.
  unfold pd.empty. rewrite columns_demand_dataset.
  destruct l as [| p l]; reflexivity.
Qed.

(** X7. A dataset of either builder is empty, in the sense of the
    [df.empty] test the training methods apply, exactly when it was built
    from no record: every record gives a row and every row has columns. *)
Theorem dataset_empty_iff_no_records (l : list (Procurement A)) :
  pd.empty (_build_success_dataset l) = no_records l
  /\ pd.empty (_build_demand_dataset l) = no_records l.
Proof. split; [apply empty_success_dataset | apply empty_demand_dataset]. Qed.

End DatasetProperties.

Section ServiceProperties.
Context {A : Type} `{Amount A} {metrics : Type}.
Variable plexe_main :
  string -> list string -> Z -> string ->
  exception + (option Solution * metrics).
Variable fs : FileSystem.

Lemma run_trainer_calls (prefix file_name intent : string) (df : DataFrame)
    (work_dir : option string) (max_iterations : Z) :
  trainer_calls
    (fst (run_trainer plexe_main fs prefix file_name intent df work_dir max_iterations))
  = (if persists fs prefix file_name df work_dir then 1 else 0)%nat.
Proof.
  unfold run_trainer, persists.
  destruct (mkdtemp fs prefix) as [exc | tmp_dir]; [reflexivity |]. cbv zeta.
  destruct (mkdir fs _) as [exc |]; [reflexivity |].
  destruct (to_parquet fs df _) as [exc |]; [reflexivity |].
  destruct (plexe_main _ _ _ _) as [exc | [sol m]]; reflexivity.
Qed.

Lemma trainer_calls_of_run (available : bool)
    (table : list (Procurement A)) (qs : option (list (Procurement A)))
    (work_dir : option string) (max_iterations : Z) :
  trainer_calls
    (fst (train_success_model available plexe_main fs table qs work_dir max_iterations))
  = (if available && negb (no_records (success_source table qs))
        && persists fs "plexe_success_" "success_dataset.parquet"
             (_build_success_dataset (success_source table qs)) work_dir
     then 1 else 0)%nat
  /\
  trainer_calls
    (fst (train_demand_forecast_model available plexe_main fs table qs
            work_dir max_iterations))
  = (if available && negb (no_records (demand_source table qs))
        && persists fs "plexe_demand_" "demand_dataset.parquet"
             (_build_demand_dataset (demand_source table qs)) work_dir
     then 1 else 0)%nat.
Proof.
  unfold train_success_model, train_demand_forecast_model.
  rewrite empty_success_dataset, empty_demand_dataset.
  destruct available; [| split; reflexivity]. simpl negb. cbv iota. simpl andb.
  split.
  - destruct (no_records (success_source table qs)); [reflexivity | apply run_trainer_calls].
  - destruct (no_records (demand_source table qs)); [reflexivity | apply run_trainer_calls].
Qed.

(** X8. A training run calls the external trainer exactly once when the
    trainer is installed, the record source is not empty and the temporary
    directory, the artifact directory and the dataset file are all
    created without an exception; it does not call the trainer at all
    otherwise. *)
Theorem trainer_called_once_iff_data (available : bool)
    (table : list (Procurement A)) (qs : option (list (Procurement A)))
    (work_dir : option string) (max_iterations : Z) :
  trainer_calls
    (fst (train_success_model available plexe_main fs table qs work_dir max_iterations))
  = (if available && negb (no_records (success_source table qs))
        && persists fs "plexe_success_" "success_dataset.parquet"
             (_build_success_dataset (success_source table qs)) work_dir
     then 1 else 0)%nat
  /\
  trainer_calls
    (fst (train_demand_forecast_model available plexe_main fs table qs
            work_dir max_iterations))
  = (if available && negb (no_records (demand_source table qs))
        && persists fs "plexe_demand_" "demand_dataset.parquet"
             (_build_demand_dataset (demand_source table qs)) work_dir
     then 1 else 0)%nat.
Proof. apply trainer_calls_of_run. Qed.

Lemma run_trainer_shape (prefix file_name intent : string) (df : DataFrame)
    (work_dir : option string) (max_iterations : Z) :
  let run := run_trainer plexe_main fs prefix file_name intent df
               work_dir max_iterations in
  (forall exc, mkdtemp fs prefix = inl exc -> run = ([], inl exc))
  /\ (forall tmp_dir, mkdtemp fs prefix = inr tmp_dir ->
      exists artifact_dir,
        (forall d, work_dir = Some d -> d <> "" -> artifact_dir = Path fs d)
        /\ (work_dir = None \/ work_dir = Some "" -> artifact_dir = Path fs tmp_dir)
        /\ let dataset_path := joinpath fs artifact_dir file_name in
           match mkdir fs artifact_dir, to_parquet fs df dataset_path with
           | Some exc, _ =>
               run = ([Mkdtemp prefix tmp_dir; Mkdir artifact_dir], inl exc)
           | None, Some exc =>
               run = ([Mkdtemp prefix tmp_dir; Mkdir artifact_dir;
                       ToParquet dataset_path df], inl exc)
           | None, None =>
               fst run = [Mkdtemp prefix tmp_dir; Mkdir artifact_dir;
                          ToParquet dataset_path df;
                          PlexeMain intent [dataset_path] max_iterations artifact_dir]
               /\ snd run =
                    match plexe_main intent [dataset_path] max_iterations artifact_dir with
                    | inl exc => inl exc
                    | inr (best_solution, m) =>
                        inr {| performance :=
                                 match best_solution with
                                 | Some sol => solution_performance sol
                                 | None => 0%float
                                 end;
                               artifact_path := artifact_dir;
                               metadata_metrics := m;
                               metadata_dataset_rows := pd.len df |}
                    end
           end).
Proof.
  cbv zeta. unfold run_trainer. split.
  - now intros exc ->.
  - intros tmp_dir ->.
    set (dir := Path fs match work_dir with
                        | Some d => if String.eqb d "" then tmp_dir else d
                        | None => tmp_dir
                        end).
    exists dir. split; [| split].
    + intros d -> Hd. subst dir.
      destruct (String.eqb_spec d ""); [contradiction | reflexivity].
    + intros [-> | ->]; reflexivity.
    + destruct (mkdir fs dir) as [exc |]; [reflexivity |].
      destruct (to_parquet fs df _) as [exc |]; [reflexivity |].
      destruct (plexe_main _ _ _ _) as [exc | [sol m]]; split; reflexivity.
Qed.

(** X9. With the trainer installed and at least one record to train on,
    the success training run first creates a temporary directory (also
    when a working directory is given); an exception of [mkdtemp] is the
    run's exception.  The artifact directory is the path of the given
    working directory, or of the temporary directory when none or a blank
    one is given.  If creating the artifact directory raises, or writing
    the dataset of all the records to [success_dataset.parquet] in it
    raises, the run ends with that exception and the trainer is not
    called.  Otherwise the trainer is called once, with that file as its
    only data reference and the caller's iteration count: its exception is
    the run's exception, and its result is reported with the best
    solution's performance ([0.0] without a solution), the artifact
    directory and the number of records. *)
Theorem train_success_model_with_data
    (table : list (Procurement A)) (qs : option (list (Procurement A)))
    (work_dir : option string) (max_iterations : Z) :
  no_records (success_source table qs) = false ->
  let run := train_success_model true plexe_main fs table qs work_dir max_iterations in
  let df := _build_success_dataset (success_source table qs) in
  records df = success_row <$> success_source table qs
  /\ (forall exc, mkdtemp fs "plexe_success_" = inl exc -> run = ([], inl exc))
  /\ (forall tmp_dir, mkdtemp fs "plexe_success_" = inr tmp_dir ->
      exists artifact_dir,
        (forall d, work_dir = Some d -> d <> "" -> artifact_dir = Path fs d)
        /\ (work_dir = None \/ work_dir = Some "" -> artifact_dir = Path fs tmp_dir)
        /\ let dataset_path := joinpath fs artifact_dir "success_dataset.parquet" in
           match mkdir fs artifact_dir, to_parquet fs df dataset_path with
           | Some exc, _ =>
               run = ([Mkdtemp "plexe_success_" tmp_dir; Mkdir artifact_dir], inl exc)
           | None, Some exc =>
               run = ([Mkdtemp "plexe_success_" tmp_dir; Mkdir artifact_dir;
                       ToParquet dataset_path df], inl exc)
           | None, None =>
               fst run = [Mkdtemp "plexe_success_" tmp_dir; Mkdir artifact_dir;
                          ToParquet dataset_path df;
                          PlexeMain success_intent [dataset_path] max_iterations
                            artifact_dir]
               /\ snd run =
                    match plexe_main success_intent [dataset_path] max_iterations
                            artifact_dir with
                    | inl exc => inl exc
                    | inr (best_solution, m) =>
                        inr {| performance :=
                                 match best_solution with
                                 | Some sol => solution_performance sol
                                 | None => 0%float
                                 end;
                               artifact_path := artifact_dir;
                               metadata_metrics := m;
                               metadata_dataset_rows :=
                                 length (success_source table qs) |}
                    end
           end).
Proof.
  intros Hdata. cbv zeta. unfold train_success_model. simpl negb. cbv iota.
  rewrite empty_success_dataset, Hdata.
  destruct (run_trainer_shape "plexe_success_" "success_dataset.parquet" success_intent
              (_build_success_dataset (success_source table qs)) work_dir max_iterations)
    as (Hfail & Hrun).
  split; [reflexivity |]. split; [exact Hfail |].
  intros tmp_dir Htmp. destruct (Hrun tmp_dir Htmp) as (dir & Hgiven & Hblank & Hcase).
  exists dir. split; [exact Hgiven |]. split; [exact Hblank |].
  cbv zeta in Hcase |- *.
  replace (length (success_source table qs))
    with (pd.len (_build_success_dataset (success_source table qs)));
    [exact Hcase |].
  unfold pd.len, _build_success_dataset, pd.DataFrame. simpl. now rewrite length_fmap.
Qed.

(** X10. The same for the demand training run, with its own directory
    prefix, the file name [demand_dataset.parquet] and its own intent. *)
Theorem train_demand_forecast_model_with_data
    (table : list (Procurement A)) (qs : option (list (Procurement A)))
    (work_dir : option string) (max_iterations : Z) :
  no_records (demand_source table qs) = false ->
  let run := train_demand_forecast_model true plexe_main fs table qs
               work_dir max_iterations in
  let df := _build_demand_dataset (demand_source table qs) in
  records df = demand_row <$> demand_source table qs
  /\ (forall exc, mkdtemp fs "plexe_demand_" = inl exc -> run = ([], inl exc))
  /\ (forall tmp_dir, mkdtemp fs "plexe_demand_" = inr tmp_dir ->
      exists artifact_dir,
        (forall d, work_dir = Some d -> d <> "" -> artifact_dir = Path fs d)
        /\ (work_dir = None \/ work_dir = Some "" -> artifact_dir = Path fs tmp_dir)
        /\ let dataset_path := joinpath fs artifact_dir "demand_dataset.parquet" in
           match mkdir fs artifact_dir, to_parquet fs df dataset_path with
           | Some exc, _ =>
               run = ([Mkdtemp "plexe_demand_" tmp_dir; Mkdir artifact_dir], inl exc)
           | None, Some exc =>
               run = ([Mkdtemp "plexe_demand_" tmp_dir; Mkdir artifact_dir;
                       ToParquet dataset_path df], inl exc)
           | None, None =>
               fst run = [Mkdtemp "plexe_demand_" tmp_dir; Mkdir artifact_dir;
                          ToParquet dataset_path df;
                          PlexeMain demand_intent [dataset_path] max_iterations
                            artifact_dir]
               /\ snd run =
                    match plexe_main demand_intent [dataset_path] max_iterations
                            artifact_dir with
                    | inl exc => inl exc
                    | inr (best_solution, m) =>
                        inr {| performance :=
                                 match best_solution with
                                 | Some sol => solution_performance sol
                                 | None => 0%float
                                 end;
                               artifact_path := artifact_dir;
                               metadata_metrics := m;
                               metadata_dataset_rows :=
                                 length (demand_source table qs) |}
                    end
           end).
Proof.
  intros Hdata. cbv zeta. unfold train_demand_forecast_model. simpl negb. cbv iota.
  rewrite empty_demand_dataset, Hdata.
  destruct (run_trainer_shape "plexe_demand_" "demand_dataset.parquet" demand_intent
              (_build_demand_dataset (demand_source table qs)) work_dir max_iterations)
    as (Hfail & Hrun).
  split; [reflexivity |]. split; [exact Hfail |].
  intros tmp_dir Htmp. destruct (Hrun tmp_dir Htmp) as (dir & Hgiven & Hblank & Hcase).
  exists dir. split; [exact Hgiven |]. split; [exact Hblank |].
  cbv zeta in Hcase |- *.
  replace (length (demand_source table qs))
    with (pd.len (_build_demand_dataset (demand_source table qs)));
    [exact Hcase |].
  unfold pd.len, _build_demand_dataset, pd.DataFrame. simpl. now rewrite length_fmap.
Qed.

Lemma filter_status_Forall (allowed : list string) (table : list (Procurement A)) :
  Forall (fun p => In (status p) allowed) (filter_status allowed table).
Proof.
  unfold filter_status. apply List.Forall_forall. intros p Hin.
  apply List.filter_In in Hin as [_ Hp].
  apply List.existsb_exists in Hp as (s & Hs & Heq).
  apply String.eqb_eq in Heq. now subst s.
Qed.

(** X11. Without a queryset the success model trains on exactly the
    stored procurements that are completed or cancelled, and the demand
    model on exactly those that are completed, each in stored order: a
    record is selected if and only if it is stored with such a status.  In
    the success dataset the label 1 then marks the completed and the
    label 0 the cancelled records, and the demand selection is the part of
    the success selection that is labelled 1. *)
Theorem default_training_selection (table : list (Procurement A)) :
  success_source table None
  = List.filter (fun p => String.eqb (status p) "completed"
                          || String.eqb (status p) "cancelled") table
  /\ demand_source table None
     = List.filter (fun p => String.eqb (status p) "completed") table
  /\ (forall p, In p (success_source table None)
                <-> In p table /\ (status p = "completed" \/ status p = "cancelled"))
  /\ (forall p, In p (demand_source table None)
                <-> In p table /\ status p = "completed")
  /\ sublist (success_source table None) table
  /\ sublist (demand_source table None) (success_source table None)
  /\ Forall (fun p =>
              (status p = "completed" /\ success_row p !! "successful" = Some (PInt 1))
              \/ (status p = "cancelled" /\ success_row p !! "successful" = Some (PInt 0)))
       (success_source table None)
  /\ demand_source table None
     = List.filter (fun p => String.eqb (status p) "completed") (success_source table None).
Proof.
  assert (Hsuccess : success_source table None
     = List.filter (fun p => String.eqb (status p) "completed"
                             || String.eqb (status p) "cancelled") table).
  { unfold success_source, filter_status. apply List.filter_ext. intros p.
    cbn [existsb]. now rewrite orb_false_r. }
  assert (Hdemand : demand_source table None
     = List.filter (fun p => String.eqb (status p) "completed") table).
  { unfold demand_source, filter_status. apply List.filter_ext. intros p.
    cbn [existsb]. now rewrite orb_false_r. }
  assert (Hpart : demand_source table None
     = List.filter (fun p => String.eqb (status p) "completed") (success_source table None)).
  { rewrite Hdemand, Hsuccess. clear. induction table as [| p table IH]; [reflexivity |].
    cbn [List.filter].
    destruct (String.eqb (status p) "completed") eqn:Hc; cbn [orb List.filter].
    - rewrite Hc. now rewrite IH.
    - destruct (String.eqb (status p) "cancelled"); cbn [List.filter]; rewrite ?Hc; exact IH. }
  assert (Hsub : forall (keep : Procurement A -> bool) (l : list (Procurement A)),
             sublist (List.filter keep l) l).
  { intros keep l. induction l as [| p l IH]; [constructor |].
    cbn [List.filter]. destruct (keep p); now constructor. }
  split; [exact Hsuccess |]. split; [exact Hdemand |].
  split; [| split; [| split; [| split; [| split]]]].
  - intros p. rewrite Hsuccess, List.filter_In, orb_true_iff, !String.eqb_eq. reflexivity.
  - intros p. rewrite Hdemand, List.filter_In, String.eqb_eq. reflexivity.
  - rewrite Hsuccess. apply Hsub.
  - rewrite Hpart. apply Hsub.
  - eapply List.Forall_impl; [| apply filter_status_Forall].
    intros p Hin. simpl in Hin.
    change (success_row p !! "successful")
      with (Some (PInt (if String.eqb (status p) "completed" then 1 else 0))).
    destruct Hin as [Hc | [Hc | []]]; rewrite <- Hc; [now left | now right].
  - exact Hpart.
Qed.

End ServiceProperties.

(* ===================================================================== *)
(** * 15. Further properties of the API actions                      *)
(* ===================================================================== *)

Section ApiProperties.
Context {A : Type} `{Amount A} {metrics : Type}.
Variable plexe_main :
  string -> list string -> Z -> string ->
  exception + (option Solution * metrics).
Variable fs : FileSystem.
Variable drf_int : pyval -> option Z.
Variable drf_char : pyval -> option string.
Variable objects_create_error : ProcurementPrediction -> option exn.

Abbreviation train_action available :=
  (train (A:=A) available plexe_main fs drf_int drf_char).

Abbreviation predict_action :=
  (predict (A:=A) (metrics:=metrics) drf_int objects_create_error).

Lemma train_validated_data (d : gmap string pyval) (v : TrainData) :
  TrainModelSerializer drf_int drf_char d = inr v ->
  d !! "model_type" = Some (PStr (td_model_type v))
  /\ In (td_model_type v) ModelType.choices
  /\ 1 <= td_max_iterations v <= 20
  /\ (d !! "max_iterations" = None -> td_max_iterations v = 3)
  /\ (forall z, d !! "max_iterations" = Some (PInt z) -> td_max_iterations v = z)
  /\ (d !! "work_dir" = None -> td_work_dir v = None).
Proof.
  unfold TrainModelSerializer.
  destruct (train_model_type d) as [e1 | mt] eqn:Hmt;
    destruct (train_max_iterations drf_int d) as [e2 | mi] eqn:Hmi;
    destruct (train_work_dir drf_char d) as [e3 | wd] eqn:Hwd;
    intros Heq; try discriminate Heq.
  injection Heq as <-. simpl.
  assert (Hkind : d !! "model_type" = Some (PStr mt) /\ In mt ModelType.choices).
  { unfold train_model_type in Hmt.
    destruct (d !! "model_type") as [[| s | z | x] |]; try discriminate Hmt.
    unfold choice_field in Hmt.
    destruct (existsb (String.eqb s) ModelType.choices) eqn:Hs; [| discriminate Hmt].
    injection Hmt as <-. split; [reflexivity |].
    apply List.existsb_exists in Hs as (c & Hc & Heq). apply String.eqb_eq in Heq.
    now subst c. }
  assert (Hbounds : forall z, match iteration_bounds z with [] => inr z | errs => inl errs end
                              = (inr mi : list field_error + Z) -> z = mi /\ 1 <= mi <= 20).
  { intros z. unfold iteration_bounds.
    destruct (Z.ltb_spec 20 z), (Z.ltb_spec z 1); simpl; try discriminate.
    intros [= <-]. lia. }
  unfold train_max_iterations in Hmi.
  destruct Hkind as [Hkind Hchoice].
  repeat split; try assumption.
  - destruct (d !! "max_iterations") as [[| s | z | x] |]; try discriminate Hmi.
    + destruct (integer_field drf_int (PStr s)); [discriminate |]. apply Hbounds in Hmi. lia.
    + apply (Hbounds z) in Hmi. lia.
    + destruct (integer_field drf_int (PFloat x)); [discriminate |]. apply Hbounds in Hmi. lia.
    + injection Hmi as <-. lia.
  - destruct (d !! "max_iterations") as [[| s | z | x] |]; try discriminate Hmi.
    + destruct (integer_field drf_int (PStr s)); [discriminate |]. apply Hbounds in Hmi. lia.
    + apply (Hbounds z) in Hmi. lia.
    + destruct (integer_field drf_int (PFloat x)); [discriminate |]. apply Hbounds in Hmi. lia.
    + injection Hmi as <-. lia.
  - intros Hnone. rewrite Hnone in Hmi. now injection Hmi as <-.
  - intros z Hz. rewrite Hz in Hmi. simpl in Hmi. apply (Hbounds z) in Hmi. lia.
  - intros Hnone. unfold train_work_dir in Hwd. rewrite Hnone in Hwd. now injection Hwd as <-.
Qed.

(** X12. The data the training serializer hands to the view: the model
    kind is the string of the body and one of the three known kinds, the
    iteration count lies between 1 and 20, is 3 when the body omits it and
    the body's own integer otherwise, and no working directory is passed
    on when the body has none. *)
Theorem train_serializer_validated_data (d : gmap string pyval) (v : TrainData) :
  TrainModelSerializer drf_int drf_char d = inr v ->
  d !! "model_type" = Some (PStr (td_model_type v))
  /\ In (td_model_type v) ModelType.choices
  /\ 1 <= td_max_iterations v <= 20
  /\ (d !! "max_iterations" = None -> td_max_iterations v = 3)
  /\ (forall z, d !! "max_iterations" = Some (PInt z) -> td_max_iterations v = z)
  /\ (d !! "work_dir" = None -> td_work_dir v = None).
Proof. apply train_validated_data. Qed.

Lemma train_fields_insert_iterations (d : gmap string pyval) (input : pyval) :
  train_model_type (<["max_iterations" := input]> d) = train_model_type d
  /\ train_work_dir drf_char (<["max_iterations" := input]> d) = train_work_dir drf_char d.
Proof.
  unfold train_model_type, train_work_dir.
  rewrite !lookup_insert_ne by discriminate. split; reflexivity.
Qed.

Lemma train_fields_insert_work_dir (d : gmap string pyval) (input : pyval) :
  train_model_type (<["work_dir" := input]> d) = train_model_type d
  /\ train_max_iterations drf_int (<["work_dir" := input]> d) = train_max_iterations drf_int d.
Proof.
  unfold train_model_type, train_max_iterations.
  rewrite !lookup_insert_ne by discriminate. split; reflexivity.
Qed.

(** X13. A field the body omits behaves as its default: a training request
    without [max_iterations] is the request with [max_iterations = 3]; a
    training request without [work_dir] is the request with a blank one
    (the field admits blank and the view turns blank into none); a
    prediction request without [prediction_type] is the request for a
    success prediction. *)
Theorem omitted_fields_take_defaults (available : bool)
    (d : gmap string pyval) (w : world A metrics) :
  (d !! "max_iterations" = None ->
   train_action available d w = train_action available (<["max_iterations" := PInt 3]> d) w)
  /\ (d !! "work_dir" = None -> drf_char (PStr "") = Some "" ->
      train_action available d w = train_action available (<["work_dir" := PStr ""]> d) w)
  /\ (d !! "prediction_type" = None ->
      predict_action d w
      = predict_action (<["prediction_type" := PStr "success_prediction"]> d) w).
Proof.
  split; [| split].
  - intros Hnone. unfold train, TrainModelSerializer.
    destruct (train_fields_insert_iterations d (PInt 3)) as [-> ->].
    unfold train_max_iterations. rewrite Hnone, lookup_insert_eq. reflexivity.
  - intros Hnone Hblank. unfold train, TrainModelSerializer.
    destruct (train_fields_insert_work_dir d (PStr "")) as [-> ->].
    unfold train_work_dir. rewrite Hnone, lookup_insert_eq, Hblank.
    destruct available; [| reflexivity]. simpl negb. cbv iota.
    destruct (train_model_type d) as [e1 | mt];
      destruct (train_max_iterations drf_int d) as [e2 | mi]; reflexivity.
  - intros Hnone. unfold predict, PredictSerializer.
    unfold predict_procurement_id, predict_prediction_type.
    rewrite lookup_insert_ne by discriminate. rewrite Hnone, lookup_insert_eq. reflexivity.
Qed.

(** X14. The training serializer reports every invalid field at once: a
    body with both an unknown model kind and an iteration count outside
    1..20 is answered with status 400 and both errors, each under its
    field, and nothing is stored. *)
Theorem train_reports_every_invalid_field (d : gmap string pyval) (w : world A metrics) :
  unknown_model_kind d = true -> iterations_out_of_range d = true ->
  exists errors input,
    train_action true d w
      = (w, {| status_code := HTTP_400_BAD_REQUEST; data := FieldErrors errors |})
    /\ d !! "model_type" = Some input
    /\ errors !! "model_type" = Some [InvalidChoice input]
    /\ (errors !! "max_iterations" = Some [MaxValue 20]
        \/ errors !! "max_iterations" = Some [MinValue 1]).
Proof.
  unfold unknown_model_kind, iterations_out_of_range, train, TrainModelSerializer,
    train_model_type, train_max_iterations.
  destruct (d !! "model_type") as [[| s | z0 | x0] |]; try discriminate.
  destruct (d !! "max_iterations") as [[| s' | z | x] |]; try discriminate.
  intros Hs Hz. apply negb_true_iff in Hs. unfold choice_field. rewrite Hs.
  simpl integer_field. simpl negb. cbv iota. unfold iteration_bounds.
  destruct (Z.ltb_spec 20 z) as [Hhi | Hhi].
  - replace (z <? 1) with false by (symmetry; apply Z.ltb_ge; lia). simpl.
    destruct (train_work_dir drf_char d);
      eexists _, (PStr s);
      (split; [reflexivity | split; [reflexivity | split; [reflexivity | now left]]]).
  - simpl in Hz. rewrite orb_false_r in Hz. rewrite Hz. simpl.
    destruct (train_work_dir drf_char d);
      eexists _, (PStr s);
      (split; [reflexivity | split; [reflexivity | split; [reflexivity | now right]]]).
Qed.

(** ** What a training request changes *)

Lemma finish_training_frame (w : world A metrics) (m : MLModel metrics)
    (run : list (event metrics) * (exception + TrainResult metrics)) :
  let w' := fst (finish_training w m run) in
  procurements w' = procurements w
  /\ predictions w' = predictions w
  /\ next_prediction_id w' = next_prediction_id w
  /\ next_ml_model_id w' = next_ml_model_id w
  /\ now w' = now w
  /\ effects w' = effects w ++ fst run
  /\ ml_id <$> ml_models w' = ml_id <$> ml_models w.
Proof.
  cbv zeta. unfold finish_training.
  destruct (snd run) as [exc | result]; simpl; repeat split;
    rewrite <- list_fmap_compose; apply list_fmap_ext; intros i row _; simpl;
    destruct (Z.eqb_spec (ml_id row) (ml_id m)); simpl; congruence.
Qed.

Lemma trainer_call_in_bounds_run (prefix file_name intent : string) (df : DataFrame)
    (work_dir : option string) (max_iterations : Z) :
  1 <= max_iterations <= 20 ->
  forallb trainer_call_in_bounds
    (fst (run_trainer plexe_main fs prefix file_name intent df work_dir max_iterations))
  = true.
Proof.
  intros Hb. unfold run_trainer.
  destruct (mkdtemp fs prefix) as [exc | tmp_dir]; [reflexivity |]. cbv zeta.
  destruct (mkdir fs _) as [exc |]; [reflexivity |].
  destruct (to_parquet fs df _) as [exc |]; [reflexivity |].
  destruct (plexe_main _ _ _ _) as [exc | [sol m]]; simpl;
    rewrite !andb_true_r; apply andb_true_iff; split; apply Z.leb_le; lia.
Qed.

Lemma service_trace (available : bool) (table : list (Procurement A))
    (work_dir : option string) (max_iterations : Z) :
  1 <= max_iterations <= 20 ->
  let success := train_success_model available plexe_main fs table None
                   work_dir max_iterations in
  let demand := train_demand_forecast_model available plexe_main fs table None
                  work_dir max_iterations in
  (forallb trainer_call_in_bounds (fst success) = true
   /\ (trainer_calls (fst success) <= 1)%nat)
  /\ (forallb trainer_call_in_bounds (fst demand) = true
      /\ (trainer_calls (fst demand) <= 1)%nat).
Proof.
  intros Hb. cbv zeta.
  destruct (trainer_calls_of_run plexe_main fs available table None
              work_dir max_iterations) as [Hs Hd].
  split; split.
  - unfold train_success_model. destruct (negb available); [reflexivity |].
    destruct (pd.empty _); [reflexivity | now apply trainer_call_in_bounds_run].
  - rewrite Hs. clear. destruct (_ && _ && _); simpl; lia.
  - unfold train_demand_forecast_model. destruct (negb available); [reflexivity |].
    destruct (pd.empty _); [reflexivity | now apply trainer_call_in_bounds_run].
  - rewrite Hd. clear. destruct (_ && _ && _); simpl; lia.
Qed.

(** X15. Whatever the request and the stored state, the training action
    changes model records only: procurements, predictions, the prediction
    counter and the clock are as before; the identifiers of the stored
    model records are as before, followed by one new identifier when the
    body was accepted; the trainer is called at most once, with between 1
    and 20 iterations and a single data file. *)
Theorem train_changes_model_records_only (available : bool)
    (d : gmap string pyval) (w : world A metrics) :
  let w' := fst (train_action available d w) in
  procurements w' = procurements w
  /\ predictions w' = predictions w
  /\ next_prediction_id w' = next_prediction_id w
  /\ now w' = now w
  /\ (ml_id <$> ml_models w', next_ml_model_id w')
     = (if available && is_valid (TrainModelSerializer drf_int drf_char d)
        then ((ml_id <$> ml_models w) ++ [next_ml_model_id w], next_ml_model_id w + 1)
        else (ml_id <$> ml_models w, next_ml_model_id w))
  /\ (exists trace,
        effects w' = effects w ++ trace
        /\ forallb trainer_call_in_bounds trace = true
        /\ (trainer_calls trace <= 1)%nat).
Proof.
  cbv zeta. unfold train.
  destruct available; simpl negb; cbv iota;
    [| do 5 (split; [reflexivity |]); exists []; rewrite app_nil_r; (split; [reflexivity | split; [reflexivity | apply Nat.le_0_l]])].
  destruct (TrainModelSerializer drf_int drf_char d) as [errors | v] eqn:Hser;
    [do 5 (split; [reflexivity |]); exists []; rewrite app_nil_r; (split; [reflexivity | split; [reflexivity | apply Nat.le_0_l]]) |].
  destruct (train_validated_data d v Hser) as (_ & _ & Hbounds & _).
  simpl andb. cbv iota.
  set (created := create_ml_model w _ _ _ _).
  assert (Hcreated :
    procurements (fst created) = procurements w
    /\ predictions (fst created) = predictions w
    /\ next_prediction_id (fst created) = next_prediction_id w
    /\ now (fst created) = now w
    /\ effects (fst created) = effects w
    /\ ml_id <$> ml_models (fst created) = (ml_id <$> ml_models w) ++ [next_ml_model_id w]
    /\ next_ml_model_id (fst created) = next_ml_model_id w + 1).
  { subst created. unfold create_ml_model. simpl. repeat split.
    now rewrite fmap_app. }
  destruct created as [w1 row]. simpl in Hcreated.
  destruct Hcreated as (Hp & Hq & Hn & Hc & He & Hids & Hnext).
  destruct (service_trace true (snd <$> procurements w1)
              (match td_work_dir v with
               | Some d0 => if String.eqb d0 "" then None else Some d0
               | None => None
               end) (td_max_iterations v) Hbounds)
    as [[Hsb Hsc] [Hdb Hdc]].
  rewrite Hp in Hsb, Hsc, Hdb, Hdc.
  destruct (String.eqb (td_model_type v) ModelType.SUCCESS_PREDICTION).
  { match goal with |- context [finish_training w1 row ?run] =>
      destruct (finish_training_frame w1 row run) as (Fp & Fq & Fn & Fm & Fc & Fe & Fids) end.
    rewrite Fp, Fq, Fn, Fm, Fc, Fe, Fids, Hp, Hq, Hn, Hc, He, Hids, Hnext.
    do 5 (split; [reflexivity |]). eexists. split; [reflexivity |]. split; assumption. }
  destruct (String.eqb (td_model_type v) ModelType.DEMAND_FORECAST).
  { match goal with |- context [finish_training w1 row ?run] =>
      destruct (finish_training_frame w1 row run) as (Fp & Fq & Fn & Fm & Fc & Fe & Fids) end.
    rewrite Fp, Fq, Fn, Fm, Fc, Fe, Fids, Hp, Hq, Hn, Hc, He, Hids, Hnext.
    do 5 (split; [reflexivity |]). eexists. split; [reflexivity |]. split; assumption. }
  simpl. rewrite Hp, Hq, Hn, Hc, He, Hnext.
  do 4 (split; [reflexivity |]). split.
  - f_equal. rewrite <- Hids. rewrite <- list_fmap_compose. apply list_fmap_ext.
    intros i r _. simpl. destruct (ml_id r =? ml_id row); reflexivity.
  - exists []. rewrite app_nil_r. split; [reflexivity | split; [reflexivity | apply Nat.le_0_l]].
Qed.

Lemma update_new_row (rows : list (MLModel metrics)) (row : MLModel metrics)
    (change : MLModel metrics -> MLModel metrics) :
  Forall (fun m => ml_id m <> ml_id row) rows ->
  (fun r => if ml_id r =? ml_id row then change r else r) <$> (rows ++ [row])
  = rows ++ [change row].
Proof.
  intros Hfresh. rewrite fmap_app. f_equal.
  - induction Hfresh as [| m rows Hm _ IH]; [reflexivity |].
    rewrite fmap_cons, IH.
    destruct (Z.eqb_spec (ml_id m) (ml_id row)); [contradiction | reflexivity].
  - simpl. now rewrite Z.eqb_refl.
Qed.

Lemma finish_training_record (w : world A metrics) (rows : list (MLModel metrics))
    (row : MLModel metrics)
    (run : list (event metrics) * (exception + TrainResult metrics)) :
  ml_models w = rows ++ [row] ->
  Forall (fun m => ml_id m <> ml_id row) rows ->
  let outcome := finish_training w row run in
  exists row',
    ml_models (fst outcome) = rows ++ [row']
    /\ ml_id row' = ml_id row
    /\ ml_name row' = ml_name row
    /\ ml_model_type row' = ml_model_type row
    /\ match snd run with
       | inr result =>
           snd outcome = {| status_code := HTTP_201_CREATED; data := ModelData row' |}
           /\ ml_status row' = Status.READY
           /\ ml_performance row' = Some (performance result)
           /\ ml_artifact_path row' = artifact_path result
           /\ ml_training_metadata row'
              = MetaResult (metadata_metrics result) (metadata_dataset_rows result)
       | inl exc =>
           snd outcome = {| status_code := HTTP_500_INTERNAL_SERVER_ERROR;
                            data := Message [("error", str exc)] |}
           /\ ml_status row' = Status.FAILED
           /\ ml_training_metadata row' = MetaError (str exc)
           /\ ml_performance row' = ml_performance row
       end.
Proof.
  intros Hrows Hfresh. cbv zeta. unfold finish_training.
  destruct (snd run) as [exc | result]; simpl; rewrite Hrows, (update_new_row _ _ _ Hfresh);
    eexists; (split; [reflexivity |]); repeat split.
Qed.

(** X16. With the trainer installed, a training request whose body is
    accepted appends exactly one model record, named after the model kind,
    with the next identifier, leaving the stored records as they were, and
    never leaves that record in the state [training]: the answer is 201
    with the record in state [ready], carrying a performance and the
    training result; or 500 with the record [failed] and the answer's
    error message stored in it; or, for the kind [price_optimization], 400
    with the record [failed]. *)
Theorem train_record_matches_response
    (d : gmap string pyval) (w : world A metrics) (v : TrainData) :
  TrainModelSerializer drf_int drf_char d = inr v ->
  Forall (fun m => ml_id m <> next_ml_model_id w) (ml_models w) ->
  let outcome := train_action true d w in
  exists row,
    ml_models (fst outcome) = ml_models w ++ [row]
    /\ ml_id row = next_ml_model_id w
    /\ ml_name row = "plexe-" +:+ td_model_type v
    /\ ml_model_type row = td_model_type v
    /\ ((status_code (snd outcome) = HTTP_201_CREATED
         /\ data (snd outcome) = ModelData row
         /\ ml_status row = Status.READY
         /\ (exists score m n, ml_performance row = Some score
                               /\ ml_training_metadata row = MetaResult m n))
        \/ (status_code (snd outcome) = HTTP_500_INTERNAL_SERVER_ERROR
            /\ ml_status row = Status.FAILED
            /\ (exists msg, data (snd outcome) = Message [("error", msg)]
                            /\ ml_training_metadata row = MetaError msg))
        \/ (status_code (snd outcome) = HTTP_400_BAD_REQUEST
            /\ td_model_type v = ModelType.PRICE_OPTIMIZATION
            /\ ml_status row = Status.FAILED
            /\ data (snd outcome)
               = Message [("error", "Unsupported model_type: price_optimization")])).
Proof.
  intros Hser Hfresh. cbv zeta.
  destruct (train_validated_data d v Hser)
    as (_ & Hchoice & _).
  unfold train. simpl negb. cbv iota. rewrite Hser.
  set (created := create_ml_model w _ _ _ _).
  assert (Hcreated : ml_models (fst created) = ml_models w ++ [snd created]
                     /\ ml_id (snd created) = next_ml_model_id w
                     /\ ml_name (snd created) = "plexe-" +:+ td_model_type v
                     /\ ml_model_type (snd created) = td_model_type v
                     /\ now (fst created) = now w)
    by (subst created; repeat split).
  destruct created as [w1 row]. simpl in Hcreated.
  destruct Hcreated as (Hrows & Hid & Hname & Htype & Hnow).
  rewrite <- Hid in Hfresh.
  assert (Hfinish : forall run,
    let outcome := finish_training w1 row run in
    exists row',
      ml_models (fst outcome) = ml_models w ++ [row']
      /\ ml_id row' = next_ml_model_id w
      /\ ml_name row' = "plexe-" +:+ td_model_type v
      /\ ml_model_type row' = td_model_type v
      /\ ((status_code (snd outcome) = HTTP_201_CREATED
           /\ data (snd outcome) = ModelData row'
           /\ ml_status row' = Status.READY
           /\ (exists score m n, ml_performance row' = Some score
                                 /\ ml_training_metadata row' = MetaResult m n))
          \/ (status_code (snd outcome) = HTTP_500_INTERNAL_SERVER_ERROR
              /\ ml_status row' = Status.FAILED
              /\ (exists msg, data (snd outcome) = Message [("error", msg)]
                              /\ ml_training_metadata row' = MetaError msg))
          \/ (status_code (snd outcome) = HTTP_400_BAD_REQUEST
              /\ td_model_type v = ModelType.PRICE_OPTIMIZATION
              /\ ml_status row' = Status.FAILED
              /\ data (snd outcome)
                 = Message [("error", "Unsupported model_type: price_optimization")]))).
  { intros run. cbv zeta.
    destruct (finish_training_record w1 (ml_models w) row run Hrows Hfresh)
      as (row' & Hrows' & Hid' & Hname' & Htype' & Hcase).
    exists row'. split; [exact Hrows' |]. split; [congruence |].
    split; [congruence |]. split; [congruence |].
    destruct (snd run) as [exc | result].
    - destruct Hcase as (-> & Hst & Hmeta & _). right. left.
      split; [reflexivity |]. split; [exact Hst |]. eauto.
    - destruct Hcase as (-> & Hst & Hperf & _ & Hmeta). left.
      split; [reflexivity |]. split; [reflexivity |]. split; [exact Hst |]. eauto. }
  destruct (String.eqb_spec (td_model_type v) ModelType.SUCCESS_PREDICTION) as [Hk1 | Hk1];
    [apply Hfinish |].
  destruct (String.eqb_spec (td_model_type v) ModelType.DEMAND_FORECAST) as [Hk2 | Hk2];
    [apply Hfinish |].
  assert (Hprice : td_model_type v = ModelType.PRICE_OPTIMIZATION).
  { destruct Hchoice as [Hc | [Hc | [Hc | []]]]; congruence. }
  unfold save_status, update_ml_model. simpl.
  rewrite Hrows, (update_new_row _ _ _ Hfresh).
  eexists. split; [reflexivity |]. simpl.
  split; [exact Hid |]. split; [exact Hname |]. split; [exact Htype |].
  right. right. split; [reflexivity |]. split; [exact Hprice |]. split; [reflexivity |].
  now rewrite Hprice.
Qed.

(** X17. With the trainer installed, an accepted request to train the
    success model on a store without completed or cancelled procurements,
    or the demand model on a store without completed ones, is answered
    with status 500 and the message of the insufficient-data error, not
    with a client error; the trainer is not called and no file is
    written. *)
Theorem train_without_finished_procurements
    (d : gmap string pyval) (w : world A metrics) (v : TrainData) :
  TrainModelSerializer drf_int drf_char d = inr v ->
  (td_model_type v = ModelType.SUCCESS_PREDICTION ->
   no_records (filter_status ["completed"; "cancelled"] (snd <$> procurements w)) = true ->
   snd (train_action true d w)
     = {| status_code := HTTP_500_INTERNAL_SERVER_ERROR;
          data := Message [("error",
            "Not enough training data. Need completed/cancelled procurements.")] |}
   /\ effects (fst (train_action true d w)) = effects w)
  /\ (td_model_type v = ModelType.DEMAND_FORECAST ->
      no_records (filter_status ["completed"] (snd <$> procurements w)) = true ->
      snd (train_action true d w)
        = {| status_code := HTTP_500_INTERNAL_SERVER_ERROR;
             data := Message [("error",
               "Not enough training data. Need completed procurements.")] |}
      /\ effects (fst (train_action true d w)) = effects w).
Proof.
  intros Hser. split; intros Hkind Hnone; unfold train; simpl negb; cbv iota;
    rewrite Hser, Hkind; simpl String.eqb; unfold create_ml_model; cbv beta iota zeta.
  - unfold train_success_model. simpl negb. cbv iota.
    rewrite empty_success_dataset. unfold success_source.
    cbn [procurements]. rewrite Hnone.
    split; [reflexivity |]. simpl. now rewrite app_nil_r.
  - unfold train_demand_forecast_model. simpl negb. cbv iota.
    rewrite empty_demand_dataset. unfold demand_source.
    cbn [procurements]. rewrite Hnone.
    split; [reflexivity |]. simpl. now rewrite app_nil_r.
Qed.

Lemma trainer_calls_app (l1 l2 : list (event metrics)) :
  trainer_calls (l1 ++ l2) = (trainer_calls l1 + trainer_calls l2)%nat.
Proof. unfold trainer_calls. now rewrite List.filter_app, length_app. Qed.

Lemma run_trainer_result (prefix file_name intent : string) (df : DataFrame)
    (work_dir : option string) (max_iterations : Z) (result : TrainResult metrics) :
  snd (run_trainer plexe_main fs prefix file_name intent df work_dir max_iterations)
    = inr result ->
  metadata_dataset_rows result = pd.len df
  /\ trainer_calls
       (fst (run_trainer plexe_main fs prefix file_name intent df work_dir max_iterations))
     = 1%nat.
Proof.
  unfold run_trainer.
  destruct (mkdtemp fs prefix) as [exc | tmp_dir]; [discriminate |]. cbv zeta.
  destruct (mkdir fs _) as [exc |]; [discriminate |].
  destruct (to_parquet fs df _) as [exc |]; [discriminate |].
  destruct (plexe_main _ _ _ _) as [exc | [sol m]]; [discriminate |].
  simpl. intros [= <-]. split; reflexivity.
Qed.

Lemma finish_training_created (w : world A metrics) (row : MLModel metrics)
    (run : list (event metrics) * (exception + TrainResult metrics)) :
  status_code (snd (finish_training w row run)) = HTTP_201_CREATED ->
  exists result,
    snd run = inr result
    /\ data (snd (finish_training w row run))
       = ModelData (ready_model (record_effects w (fst run)) row result)
    /\ effects (fst (finish_training w row run)) = effects w ++ fst run.
Proof.
  unfold finish_training. destruct (snd run) as [exc | result]; simpl.
  - discriminate.
  - intros _. exists result. repeat split.
Qed.

(** X18. Whenever an accepted training request is answered with status
    201, the record in the answer is in state [ready], the trainer has
    been called exactly once more, and the number of dataset rows stored in
    the record's metadata is the number of stored procurements that are
    completed or cancelled, for the success model, or completed, for the
    demand model; that number is not zero. *)
Theorem train_with_data_reports_result
    (d : gmap string pyval) (w : world A metrics) (v : TrainData) :
  TrainModelSerializer drf_int drf_char d = inr v ->
  let outcome := train_action true d w in
  status_code (snd outcome) = HTTP_201_CREATED ->
  exists row m dataset_rows,
    data (snd outcome) = ModelData row
    /\ ml_status row = Status.READY
    /\ ml_training_metadata row = MetaResult m dataset_rows
    /\ dataset_rows <> 0%nat
    /\ ((td_model_type v = ModelType.SUCCESS_PREDICTION
         /\ dataset_rows
            = length (filter_status ["completed"; "cancelled"] (snd <$> procurements w)))
        \/ (td_model_type v = ModelType.DEMAND_FORECAST
            /\ dataset_rows
               = length (filter_status ["completed"] (snd <$> procurements w))))
    /\ trainer_calls (effects (fst outcome)) = S (trainer_calls (effects w)).
Proof.
  intros Hser. cbv zeta. unfold train. simpl negb. cbv iota. rewrite Hser.
  unfold create_ml_model. cbv beta iota zeta. cbn [procurements].
  destruct (String.eqb_spec (td_model_type v) ModelType.SUCCESS_PREDICTION) as [Hk1 | Hk1].
  { intros Hcreated.
    apply finish_training_created in Hcreated as (result & Hrun & -> & ->).
    cbn [effects]. rewrite trainer_calls_app.
    unfold train_success_model in Hrun |- *. simpl negb in Hrun |- *. cbv iota in Hrun |- *.
    rewrite empty_success_dataset in Hrun |- *. unfold success_source in Hrun |- *.
    destruct (no_records (filter_status ["completed"; "cancelled"]
                            (snd <$> procurements w))) eqn:Hdata; [discriminate |].
    destruct (run_trainer_result _ _ _ _ _ _ _ Hrun) as [Hrows ->].
    eexists _, _, _. split; [reflexivity |]. split; [reflexivity |].
    split; [reflexivity |]. rewrite Hrows.
    unfold pd.len, _build_success_dataset, pd.DataFrame. simpl. rewrite length_fmap.
    split; [| split; [left; split; [exact Hk1 | reflexivity] | lia]].
    intros Hzero. apply length_zero_iff_nil in Hzero. now rewrite Hzero in Hdata. }
  destruct (String.eqb_spec (td_model_type v) ModelType.DEMAND_FORECAST) as [Hk2 | Hk2].
  { intros Hcreated.
    apply finish_training_created in Hcreated as (result & Hrun & -> & ->).
    cbn [effects]. rewrite trainer_calls_app.
    unfold train_demand_forecast_model in Hrun |- *. simpl negb in Hrun |- *.
    cbv iota in Hrun |- *.
    rewrite empty_demand_dataset in Hrun |- *. unfold demand_source in Hrun |- *.
    destruct (no_records (filter_status ["completed"]
                            (snd <$> procurements w))) eqn:Hdata; [discriminate |].
    destruct (run_trainer_result _ _ _ _ _ _ _ Hrun) as [Hrows ->].
    eexists _, _, _. split; [reflexivity |]. split; [reflexivity |].
    split; [reflexivity |]. rewrite Hrows.
    unfold pd.len, _build_demand_dataset, pd.DataFrame. simpl. rewrite length_fmap.
    split; [| split; [right; split; [exact Hk2 | reflexivity] | lia]].
    intros Hzero. apply length_zero_iff_nil in Hzero. now rewrite Hzero in Hdata. }
  simpl. discriminate.
Qed.

(** X19. Whatever the request and the stored state, the prediction action
    changes prediction records only, and only when it answers 201: it then
    appends exactly one prediction, with the next identifier and no model,
    for a stored procurement, holding the features extracted from that
    procurement, one of the three known kinds, and the value and the
    confidence that the heuristic predictor returns on those features;
    with any other answer (400, 404 or 500) the state is the state
    before. *)
Theorem predict_stores_what_it_answers (d : gmap string pyval) (w : world A metrics) :
  let outcome := predict_action d w in
  (status_code (snd outcome) = HTTP_201_CREATED
   /\ exists p procurement confidence,
        fst outcome
        = {| procurements := procurements w;
             ml_models := ml_models w;
             predictions := predictions w ++ [p];
             next_ml_model_id := next_ml_model_id w;
             next_prediction_id := next_prediction_id w + 1;
             effects := effects w;
             now := now w |}
        /\ data (snd outcome) = PredictionData p (title procurement)
        /\ pp_id p = next_prediction_id w
        /\ pp_ml_model p = None
        /\ get_procurement w (pp_procurement p) = Some procurement
        /\ In (pp_prediction_type p) ModelType.choices
        /\ pp_input_features p = extract_features procurement
        /\ _heuristic_predict (pp_prediction_type p) (extract_features procurement)
           = Ok (pp_predicted_value p, confidence)
        /\ pp_confidence p = Some confidence)
  \/ (fst outcome = w
      /\ In (status_code (snd outcome))
           [HTTP_400_BAD_REQUEST; HTTP_404_NOT_FOUND; HTTP_500_INTERNAL_SERVER_ERROR]).
Proof.
  cbv zeta. unfold predict.
  destruct (PredictSerializer drf_int d) as [errors | v] eqn:Hser;
    [right; split; [reflexivity | now left] |].
  assert (Hchoice : In (pd_prediction_type v) ModelType.choices).
  { unfold PredictSerializer in Hser.
    destruct (predict_procurement_id drf_int d) as [e1 | pid]; [
      destruct (predict_prediction_type d); discriminate |].
    destruct (predict_prediction_type d) as [e2 | pt] eqn:Hpt; [discriminate |].
    injection Hser as <-. simpl.
    unfold predict_prediction_type in Hpt.
    destruct (d !! "prediction_type") as [[| s | z | x] |]; try discriminate Hpt.
    - unfold choice_field in Hpt.
      destruct (existsb (String.eqb s) ModelType.choices) eqn:Hs; [| discriminate Hpt].
      injection Hpt as <-.
      apply List.existsb_exists in Hs as (c & Hc & Heq). apply String.eqb_eq in Heq.
      now subst c.
    - injection Hpt as <-. now left. }
  destruct (get_procurement w (pd_procurement_id v)) as [procurement |] eqn:Hget;
    [| right; split; [reflexivity | right; now left]].
  destruct (_heuristic_predict _ _) as [[value confidence] | e] eqn:Hpredict;
    [| right; split; [reflexivity | right; right; now left]].
  unfold create_prediction.
  destruct (objects_create_error _) as [e |];
    [right; split; [reflexivity | right; right; now left] |].
  left. cbn [fst snd status_code data].
  split; [reflexivity |].
  eexists _, procurement, confidence. split; [reflexivity |].
  cbn [pp_id pp_ml_model pp_procurement pp_prediction_type pp_input_features
       pp_predicted_value pp_confidence].
  repeat split; assumption.
Qed.

(** X20. For the kind [price_optimization], a procurement that exists and
    a participant count that converts to float, the heuristic predictor
    never raises, whatever the amounts are: it returns
    [round(float(target_amount) / max(1, participant_count), 2)] with
    confidence [0.35].  The prediction action then answers 201 with that
    value stored in a new prediction, unless the database layer refuses
    the row; in that case it answers 500 and the state is the state
    before. *)
Theorem predict_price_for_stored_procurement
    (d : gmap string pyval) (w : world A metrics)
    (procurement_id : Z) (procurement : Procurement A) :
  predict_procurement_id drf_int d = inr procurement_id ->
  predict_prediction_type d = inr ModelType.PRICE_OPTIMIZATION ->
  get_procurement w procurement_id = Some procurement ->
  participant_count procurement < float_overflow_threshold ->
  let value := round (amount_float (target_amount procurement)
                      / nearest_float_of_Z (Z.max 1 (participant_count procurement))) 2 in
  let outcome := predict_action d w in
  _heuristic_predict "price_optimization" (extract_features procurement)
    = Ok (value, 0.35%float)
  /\ exists p,
       pp_procurement p = procurement_id
       /\ pp_prediction_type p = "price_optimization"
       /\ pp_predicted_value p = value
       /\ pp_confidence p = Some 0.35%float
       /\ pp_input_features p = extract_features procurement
       /\ match objects_create_error p with
          | None =>
              status_code (snd outcome) = HTTP_201_CREATED
              /\ predictions (fst outcome) = predictions w ++ [p]
          | Some e =>
              outcome = (w, {| status_code := HTTP_500_INTERNAL_SERVER_ERROR;
                               data := Uncaught e |})
          end.
Proof.
  intros Hid Hkind Hget Hcount. cbv zeta.
  assert (Hpredict :
    _heuristic_predict ModelType.PRICE_OPTIMIZATION (extract_features procurement)
    = Ok (round (amount_float (target_amount procurement)
                 / nearest_float_of_Z (Z.max 1 (participant_count procurement))) 2,
          0.35%float)).
  { unfold _heuristic_predict. simpl String.eqb. cbv iota.
    change (get (extract_features procurement) "participant_count" (PInt 1))
      with (PInt (participant_count procurement)).
    change (get (extract_features procurement) "target_amount" (PInt 1000))
      with (PFloat (amount_float (target_amount procurement))).
    assert (Hmax : max_1 (PInt (participant_count procurement))
                   = Ok (PInt (Z.max 1 (participant_count procurement)))).
    { simpl. destruct (Z.ltb_spec 1 (participant_count procurement));
        do 2 f_equal; lia. }
    rewrite Hmax. unfold mbind, res_bind. simpl truediv.
    assert (Hbound : 1 <= Z.max 1 (participant_count procurement) < float_overflow_threshold).
    { pose proof threshold_positive.
      assert (1 < float_overflow_threshold) by reflexivity. lia. }
    unfold float_of_int.
    replace (Z.abs (Z.max 1 (participant_count procurement)) <? float_overflow_threshold)
      with true by (symmetry; apply Z.ltb_lt; lia).
    unfold float_truediv, mbind, res_bind. cbv beta iota.
    destruct (nearest_float_of_positive_ge_1 _ Hbound) as [_ ->]. reflexivity. }
  split; [exact Hpredict |].
  unfold predict, PredictSerializer. rewrite Hid, Hkind.
  cbn [pd_procurement_id pd_prediction_type]. rewrite Hget, Hpredict.
  unfold create_prediction.
  exists {| pp_id := next_prediction_id w;
            pp_procurement := procurement_id;
            pp_ml_model := None;
            pp_prediction_type := ModelType.PRICE_OPTIMIZATION;
            pp_predicted_value :=
              round (amount_float (target_amount procurement)
                     / nearest_float_of_Z (Z.max 1 (participant_count procurement))) 2;
            pp_confidence := Some 0.35%float;
            pp_input_features := extract_features procurement;
            pp_created_at := now w |}.
  do 5 (split; [reflexivity |]).
  destruct (objects_create_error _) as [e |]; [reflexivity |].
  split; reflexivity.
Qed.

End ApiProperties.

(* ===================================================================== *)
(** * 16. Further concrete runs                                        *)
(* ===================================================================== *)

(** A negative target amount: the forecast is the floor value [1.0]. *)
Lemma demand_forecast_never_below_one_run :
  _heuristic_predict "demand_forecast"
    (features_of [("target_amount", PInt (-5000)); ("price_per_unit", PInt 500)])
  = Ok (1%float, 0.4%float)
  /\ PrimFloat.leb 1 1 = true.
Proof.
  split; [reflexivity |].
  exact (proj1 (proj2 (demand_forecast_never_below_one
                  (features_of [("target_amount", PInt (-5000)); ("price_per_unit", PInt 500)])
                  1%float 0.4%float eq_refl))).
Defined.

(** A NaN progress: the cap turns the NaN score into [1.0]. *)
Lemma success_prediction_never_above_one_run :
  _heuristic_predict "success_prediction" (features_of [("progress", PFloat nan)])
  = Ok (1%float, 0.5%float)
  /\ PrimFloat.leb 1 1 = true.
Proof.
  split; [reflexivity |].
  exact (proj1 (success_prediction_never_above_one
                  (features_of [("progress", PFloat nan)]) 1%float 0.5%float eq_refl)).
Defined.

(** A success training run on one completed procurement, with a working
    directory given, on a file system where every call succeeds. *)
Lemma train_success_model_with_data_run :
  let run := train_success_model true sample_trainer sample_fs
               [sample_procurement "completed"] None (Some "models") 5 in
  fst run
  = [Mkdtemp "plexe_success_" "/tmp/plexe_success_0"; Mkdir "models";
     ToParquet "models/success_dataset.parquet"
       (_build_success_dataset [sample_procurement "completed"]);
     PlexeMain success_intent ["models/success_dataset.parquet"] 5 "models"]
  /\ snd run = inr {| performance := 0.9%float; artifact_path := "models";
                      metadata_metrics := tt; metadata_dataset_rows := 1 |}.
Proof.
  destruct (train_success_model_with_data sample_trainer sample_fs
              [sample_procurement "completed"] None (Some "models") 5 eq_refl)
    as (_ & _ & Hrun).
  destruct (Hrun "/tmp/plexe_success_0" eq_refl) as (dir & Hgiven & _ & Hcase).
  assert (Hdir : dir = "models") by (apply Hgiven; [reflexivity | discriminate]).
  subst dir. exact Hcase.
Defined.

(** A demand training run through the default selection, without a
    working directory, on a file system where no directory can be
    created: the run ends with the error of [mkdir], before any file is
    written and without a trainer call. *)
Lemma train_demand_forecast_model_with_data_run :
  train_demand_forecast_model true sample_trainer readonly_fs
    [sample_procurement "cancelled"; sample_procurement "completed"] None None 3
  = ([Mkdtemp "plexe_demand_" "/tmp/plexe_demand_0"; Mkdir "/tmp/plexe_demand_0"],
     inl (OSError "Read-only file system")).
Proof.
  destruct (train_demand_forecast_model_with_data sample_trainer readonly_fs
              [sample_procurement "cancelled"; sample_procurement "completed"]
              None None 3 eq_refl)
    as (_ & _ & Hrun).
  destruct (Hrun "/tmp/plexe_demand_0" eq_refl) as (dir & _ & Hblank & Hcase).
  assert (Hdir : dir = "/tmp/plexe_demand_0") by (apply Hblank; now left).
  subst dir. exact Hcase.
Defined.

(** The validated data of a demand training request for seven
    iterations. *)
Lemma train_serializer_validated_data_run :
  In "demand_forecast" ModelType.choices /\ 1 <= 7 <= 20.
Proof.
  destruct (train_serializer_validated_data sample_drf_int sample_drf_char
              demand_training_request
              {| td_model_type := "demand_forecast"; td_max_iterations := 7;
                 td_work_dir := None |} eq_refl)
    as (_ & Hkind & Hbounds & _).
  exact (conj Hkind Hbounds).
Defined.

(** A training request without an iteration count is the request for
    three iterations; a prediction request without a kind is the request
    for a success prediction. *)
Lemma omitted_fields_take_defaults_run :
  sample_train success_training_request finished_world
  = sample_train (<["max_iterations" := PInt 3]> success_training_request) finished_world
  /\ sample_predict missing_procurement_request sample_world
     = sample_predict
         (<["prediction_type" := PStr "success_prediction"]> missing_procurement_request)
         sample_world.
Proof.
  split.
  - exact (proj1 (omitted_fields_take_defaults sample_trainer sample_fs
                    sample_drf_int sample_drf_char sample_objects_create_error true
                    success_training_request finished_world) eq_refl).
  - exact (proj2 (proj2 (omitted_fields_take_defaults sample_trainer sample_fs
                           sample_drf_int sample_drf_char sample_objects_create_error true
                           missing_procurement_request sample_world)) eq_refl).
Defined.

(** An unknown kind together with fifty iterations: both errors in one
    answer. *)
Lemma train_reports_every_invalid_field_run :
  exists errors input,
    sample_train doubly_invalid_request sample_world
      = (sample_world,
         {| status_code := HTTP_400_BAD_REQUEST; data := FieldErrors errors |})
    /\ doubly_invalid_request !! "model_type" = Some input
    /\ errors !! "model_type" = Some [InvalidChoice input]
    /\ (errors !! "max_iterations" = Some [MaxValue 20]
        \/ errors !! "max_iterations" = Some [MinValue 1]).
Proof.
  exact (train_reports_every_invalid_field sample_trainer sample_fs
           sample_drf_int sample_drf_char doubly_invalid_request sample_world
           eq_refl eq_refl).
Defined.

(** Training the success model on a store without model records: the
    appended record is the only one, with the first identifier. *)
Lemma train_record_matches_response_run :
  exists row,
    ml_models (fst (sample_train success_training_request finished_world)) = [row]
    /\ ml_id row = 1
    /\ ml_name row = "plexe-success_prediction"
    /\ ml_model_type row = "success_prediction".
Proof.
  destruct (train_record_matches_response sample_trainer sample_fs
              sample_drf_int sample_drf_char success_training_request finished_world
              {| td_model_type := "success_prediction"; td_max_iterations := 3;
                 td_work_dir := None |} eq_refl (List.Forall_nil _))
    as (row & Hrows & Hid & Hname & Htype & _).
  exact (ex_intro _ row (conj Hrows (conj Hid (conj Hname Htype)))).
Defined.

(** Training on the store of the test suite, which holds an active
    procurement only: status 500 for both trainable kinds. *)
Lemma train_without_finished_procurements_run :
  (snd (sample_train success_training_request sample_world)
   = {| status_code := HTTP_500_INTERNAL_SERVER_ERROR;
        data := Message [("error",
          "Not enough training data. Need completed/cancelled procurements.")] |}
   /\ effects (fst (sample_train success_training_request sample_world)) = [])
  /\ (snd (sample_train demand_training_request sample_world)
      = {| status_code := HTTP_500_INTERNAL_SERVER_ERROR;
           data := Message [("error",
             "Not enough training data. Need completed procurements.")] |}
      /\ effects (fst (sample_train demand_training_request sample_world)) = []).
Proof.
  split.
  - exact (proj1 (train_without_finished_procurements sample_trainer sample_fs
                    sample_drf_int sample_drf_char success_training_request sample_world
                    {| td_model_type := "success_prediction"; td_max_iterations := 3;
                       td_work_dir := None |} eq_refl) eq_refl eq_refl).
  - exact (proj2 (train_without_finished_procurements sample_trainer sample_fs
                    sample_drf_int sample_drf_char demand_training_request sample_world
                    {| td_model_type := "demand_forecast"; td_max_iterations := 7;
                       td_work_dir := None |} eq_refl) eq_refl eq_refl).
Defined.

(** Training the success model on a store with one completed, one
    cancelled and one active procurement: the answer is 201 and the record
    counts two dataset rows. *)
Lemma train_with_data_reports_result_run :
  exists (row : MLModel unit) (dataset_rows : nat),
    data (snd (sample_train success_training_request finished_world)) = ModelData row
    /\ ml_status row = "ready"
    /\ ml_training_metadata row = MetaResult tt dataset_rows
    /\ dataset_rows = 2%nat
    /\ trainer_calls (effects (fst (sample_train success_training_request finished_world)))
       = 1%nat.
Proof.
  assert (Hcreated : status_code (snd (sample_train success_training_request finished_world))
                     = HTTP_201_CREATED) by reflexivity.
  destruct (train_with_data_reports_result sample_trainer sample_fs
              sample_drf_int sample_drf_char success_training_request finished_world
              {| td_model_type := "success_prediction"; td_max_iterations := 3;
                 td_work_dir := None |} eq_refl Hcreated)
    as (row & [] & n & Hdata & Hstatus & Hmeta & _ & [[_ Hrows] | [Hkind _]] & Hcalls);
    [| discriminate Hkind].
  exists row, n.
  exact (conj Hdata (conj Hstatus (conj Hmeta (conj Hrows Hcalls)))).
Defined.

(** The price suggestion for the procurement of the test suite: a target
    of 10000 shared by six participants. *)
Lemma predict_price_for_stored_procurement_run :
  _heuristic_predict "price_optimization" (extract_features (sample_procurement "active"))
    = Ok (1666.67%float, 0.35%float)
  /\ exists p,
       pp_predicted_value p = 1666.67%float
       /\ status_code (snd (sample_predict price_request sample_world)) = HTTP_201_CREATED
       /\ predictions (fst (sample_predict price_request sample_world)) = [p].
Proof.
  destruct (predict_price_for_stored_procurement sample_drf_int sample_objects_create_error
              price_request sample_world 1 (sample_procurement "active")
              eq_refl eq_refl eq_refl eq_refl)
    as (Hpredict & p & _ & _ & Hvalue & _ & _ & Hcase).
  split; [exact Hpredict |]. exists p. split; [exact Hvalue |].
  unfold sample_objects_create_error in Hcase. rewrite Hvalue in Hcase. exact Hcase.
Defined.
